(** * prompt-demo: provider abstraction, configuration resolver and
      brute-force retriever

    A shallow embedding of
      - [7_langchain_rag_basic.py] / [5_langchain_rag_basic.py]
        ([SimpleVectorStore], [SimpleRetriever], [cosine_similarity]),
      - [prompts/llm_interface.py] ([LLMProvider]),
      - [prompts/llm_providers.py] ([OllamaProvider], [OpenAIProvider],
        [GeminiProvider]),
      - [prompts/llm_config.py] ([LLMConfig]).

    Conventions.
      - A Python exception is a value of [PyError]; a call that may raise
        returns a [result].
      - Embedding components are Python floats in the source, and the
        retriever computes on them in binary64 arithmetic: that is
        [cosine_similarity_binary64] and [SimpleRetriever_invoke_binary64],
        with rounding, underflow, overflow and NaN as the machine has
        them.  [cosine_similarity] and [SimpleRetriever_invoke] read the
        same code over exact arithmetic, where a component is a real
        number and [x ** 0.5] the real square root: the cosine similarity
        of the textbook, which the binary64 computation approximates.
        Only what does not depend on the value of a score is stated of
        the retriever over exact arithmetic.
      - Sampling parameters (temperature, top-p) are only stored and handed
        on, never computed with; they are binary64 values ([float]).
      - Instances live in a heap and are named by their address, so that
        "a new instance" and "the same instance" are different things. *)

From Stdlib Require Import Floats ZArith Reals Lra Lia.
From stdpp Require Import base option list sorting gmap strings.

Local Open Scope string_scope.

(** ** Exceptions *)

Inductive PyError : Type :=
| ZeroDivisionError
| IndexError
| AttributeError
| ValueError (msg : string)
| ValidationError (msg : string)
| ExternalError (msg : string).

Inductive result (A : Type) : Type :=
| Ok (a : A)
| Raise (e : PyError).
Arguments Ok {A} a.
Arguments Raise {A} e.

#[global] Instance result_ret : MRet result := fun A a => Ok a.

#[global] Instance result_bind : MBind result := fun A B f m =>
  match m with
  | Ok a => f a
  | Raise e => Raise e
  end.

#[global] Instance result_fmap : FMap result := fun A B f m =>
  match m with
  | Ok a => Ok (f a)
  | Raise e => Raise e
  end.

(** A list comprehension whose element expression may raise: the first
    exception ends the comprehension. *)
Fixpoint comprehension {A B : Type} (f : A -> result B) (l : list A) : result (list B) :=
  match l with
  | [] => Ok []
  | x :: l' =>
      y ← f x;
      ys ← comprehension f l';
      Ok (y :: ys)
  end.

(** Truth value of a [str]: the empty string is false. *)
Definition truthy_str (s : string) : bool := negb (String.eqb s "").

(** Truth value of an [Optional[str]]: [None] and [""] are false. *)
Definition truthy_opt_str (s : option string) : bool :=
  match s with
  | Some s => truthy_str s
  | None => false
  end.

(** Truth value of an [Optional[int]]: [None] and [0] are false. *)
Definition truthy_opt_int (n : option Z) : bool :=
  match n with
  | Some n => negb (n =? 0)%Z
  | None => false
  end.

(** [x or y] on [Optional[str]] operands. *)
Definition py_or (x y : option string) : option string :=
  if truthy_opt_str x then x else y.

(** [x if x is not None else y]. *)
Definition if_not_None {A : Type} (x : option A) (y : A) : A :=
  match x with
  | Some v => v
  | None => y
  end.

(** ** The brute-force retriever
    ([7_langchain_rag_basic.py], [5_langchain_rag_basic.py]) *)

#[global] Instance Rlt_decision : RelDecision Rlt := Rlt_dec.

(** [sum(xs)]: the built-in starts from 0 and adds from the left. *)
Definition py_sum (xs : list R) : R := fold_left Rplus xs 0%R.

(** [x / y] on numbers. *)
Definition truediv (x y : R) : result R :=
  if Req_dec_T y 0 then Raise ZeroDivisionError else Ok (x / y)%R.

(** [x ** 0.5], for the non-negative [x] the source applies it to. *)
Definition pow_half (x : R) : R := sqrt x.

(** The local function [cosine_similarity] of [SimpleRetriever.invoke],
    read over exact arithmetic. *)
Definition cosine_similarity (vec1 vec2 : list R) : result R :=
  let dot_product := py_sum (map (fun ab : R * R => (ab.1 * ab.2)%R) (zip vec1 vec2)) in
  let norm1 := pow_half (py_sum (map (fun a => (a * a)%R) vec1)) in
  let norm2 := pow_half (py_sum (map (fun b => (b * b)%R) vec2)) in
  if bool_decide (0 < norm1 * norm2)%R
  then truediv dot_product (norm1 * norm2)
  else Ok 0%R.

(** The Euclidean norm, as [norm1] and [norm2] compute it. *)
Definition euclidean_norm (vec : list R) : R :=
  pow_half (py_sum (map (fun a => (a * a)%R) vec)).

(** The number [cosine_similarity] returns. *)
Definition similarity (vec1 vec2 : list R) : R :=
  match cosine_similarity vec1 vec2 with
  | Ok s => s
  | Raise _ => 0%R
  end.

(** The same function on binary64 numbers, as the interpreter runs it on
    lists of floats: sums and products round to nearest, a product too
    small for the format is 0, one too large is an infinity.  [x ** y] is
    left open: any function on binary64 numbers.  [x / y] raises when [y]
    equals zero, of either sign. *)
Section binary64.
Context (pow : float -> float -> float).

Definition sum_binary64 (xs : list float) : float := fold_left PrimFloat.add xs 0%float.

Definition truediv_binary64 (x y : float) : result float :=
  if PrimFloat.eqb y 0 then Raise ZeroDivisionError else Ok (PrimFloat.div x y).

Definition cosine_similarity_binary64 (vec1 vec2 : list float) : result float :=
  let dot_product :=
    sum_binary64 (map (fun ab : float * float => PrimFloat.mul ab.1 ab.2) (zip vec1 vec2)) in
  let norm1 := pow (sum_binary64 (map (fun a => PrimFloat.mul a a) vec1)) 0.5%float in
  let norm2 := pow (sum_binary64 (map (fun b => PrimFloat.mul b b) vec2)) 0.5%float in
  if PrimFloat.ltb 0 (PrimFloat.mul norm1 norm2)
  then truediv_binary64 dot_product (PrimFloat.mul norm1 norm2)
  else Ok 0%float.

End binary64.

(** [langchain_core.documents.Document], as the retriever builds it. *)
Record Document : Type := { page_content : string }.

(** The embedding client: an external service, which may fail. *)
Record Embeddings : Type := {
  embed_query : string -> result (list R);
  embed_documents : list string -> result (list (list R))
}.

Record SimpleVectorStore : Type := {
  store_texts : list string;
  store_embeddings_model : Embeddings;
  store_embeddings : list (list R)
}.

(** [SimpleVectorStore.__init__]. *)
Definition SimpleVectorStore_init (texts : list string) (embeddings_model : Embeddings)
  : result SimpleVectorStore :=
  embeddings ← embed_documents embeddings_model texts;
  Ok {| store_texts := texts;
        store_embeddings_model := embeddings_model;
        store_embeddings := embeddings |}.

Record SimpleRetriever : Type := {
  retriever_store : SimpleVectorStore;
  retriever_k : Z
}.

(** [SimpleVectorStore.as_retriever(k=2)]. *)
Definition as_retriever (self : SimpleVectorStore) (k : option Z) : SimpleRetriever :=
  {| retriever_store := self; retriever_k := default 2%Z k |}.

(** [list(enumerate(xs))]. *)
Definition enumerate {A : Type} (xs : list A) : list (nat * A) :=
  zip (seq 0 (length xs)) xs.

(** [xs.sort(key=key, reverse=True)]: the sort is stable, also when
    reversed; keys are compared with [<].  Insertion keeps an element in
    front of the later elements whose key is not greater. *)
Section list_sort.
Context {A K : Type} (lt : K -> K -> bool) (key : A -> K).

Fixpoint insert_reverse (x : A) (l : list A) : list A :=
  match l with
  | [] => [x]
  | y :: l' =>
      if lt (key x) (key y) then y :: insert_reverse x l' else x :: y :: l'
  end.

Definition sort_reverse (l : list A) : list A := foldr insert_reverse [] l.

End list_sort.

(** [xs[:stop]] for an integer [stop]; a negative [stop] counts from the
    end. *)
Definition slice_to {A : Type} (xs : list A) (stop : Z) : list A :=
  let n := Z.of_nat (length xs) in
  let stop' := if (stop <? 0)%Z then Z.max 0 (n + stop) else Z.min stop n in
  take (Z.to_nat stop') xs.

(** [xs[i]] for a non-negative index. *)
Definition getitem {A : Type} (xs : list A) (i : nat) : result A :=
  match xs !! i with
  | Some x => Ok x
  | None => Raise IndexError
  end.

(** [SimpleRetriever.invoke], read over exact arithmetic. *)
Definition SimpleRetriever_invoke (self : SimpleRetriever) (query : string)
  : result (list Document) :=
  let store := retriever_store self in
  query_embedding ← embed_query (store_embeddings_model store) query;
  similarities ← comprehension (cosine_similarity query_embedding) (store_embeddings store);
  let indexed_sims := enumerate similarities in
  let indexed_sims := sort_reverse (fun x y : R => bool_decide (x < y)%R) snd indexed_sims in
  let top_indices := map fst (slice_to indexed_sims (retriever_k self)) in
  comprehension
    (fun i => text ← getitem (store_texts store) i; Ok {| page_content := text |})
    top_indices.

(** A retrieved entry [(i, text, score)]: [text] is the text stored at
    position [i], and [score] is the similarity of the embedding stored at
    [i] to the query embedding. *)
Definition stored_at (store : SimpleVectorStore) (query_embedding : list R)
  (hit : nat * string * R) : Prop :=
  store_texts store !! hit.1.1 = Some hit.1.2 /\
  exists emb, store_embeddings store !! hit.1.1 = Some emb /\
              cosine_similarity query_embedding emb = Ok hit.2.

(** ** The retriever on binary64 numbers *)

(** The embedding client, store and retriever with Python floats for the
    components of an embedding. *)
Record Embeddings_binary64 : Type := {
  embed_query_binary64 : string -> result (list float);
  embed_documents_binary64 : list string -> result (list (list float))
}.

Record SimpleVectorStore_binary64 : Type := {
  store_texts_binary64 : list string;
  store_embeddings_model_binary64 : Embeddings_binary64;
  store_embeddings_binary64 : list (list float)
}.

Record SimpleRetriever_binary64 : Type := {
  retriever_store_binary64 : SimpleVectorStore_binary64;
  retriever_k_binary64 : Z
}.

(** What is known of [xs.sort(key=lambda x: x[1], reverse=True)], a
    built-in, when the keys are binary64 numbers.  It rearranges the list,
    always.  When no key is NaN, [<] orders the keys and the outcome is
    fixed: the stable sort in descending order, [sort_reverse].  With a NaN
    among the keys [<] is no order, and which rearrangement comes out is
    left open. *)
Definition sorts_in_reverse (list_sort : list (nat * float) -> list (nat * float)) : Prop :=
  forall l : list (nat * float),
    list_sort l ≡ₚ l /\
    (Forall (fun p => PrimFloat.is_nan p.2 = false) l ->
     list_sort l = sort_reverse PrimFloat.ltb snd l).

Section retriever_binary64.
Context (pow : float -> float -> float).
Context (list_sort : list (nat * float) -> list (nat * float)).

(** The number [cosine_similarity] returns. *)
Definition similarity_binary64 (vec1 vec2 : list float) : float :=
  match cosine_similarity_binary64 pow vec1 vec2 with
  | Ok s => s
  | Raise _ => 0%float
  end.

(** [SimpleRetriever.invoke]. *)
Definition SimpleRetriever_invoke_binary64 (self : SimpleRetriever_binary64)
  (query : string) : result (list Document) :=
  let store := retriever_store_binary64 self in
  query_embedding ← embed_query_binary64 (store_embeddings_model_binary64 store) query;
  similarities ← comprehension (cosine_similarity_binary64 pow query_embedding)
                   (store_embeddings_binary64 store);
  let indexed_sims := enumerate similarities in
  let indexed_sims := list_sort indexed_sims in
  let top_indices := map fst (slice_to indexed_sims (retriever_k_binary64 self)) in
  comprehension
    (fun i => text ← getitem (store_texts_binary64 store) i; Ok {| page_content := text |})
    top_indices.

(** A retrieved entry [(i, text, score)]: [text] is the text stored at
    position [i], and [score] is what [cosine_similarity] computes for the
    query embedding and the embedding stored at [i]. *)
Definition stored_at_binary64 (store : SimpleVectorStore_binary64)
  (query_embedding : list float) (hit : nat * string * float) : Prop :=
  store_texts_binary64 store !! hit.1.1 = Some hit.1.2 /\
  exists emb, store_embeddings_binary64 store !! hit.1.1 = Some emb /\
              cosine_similarity_binary64 pow query_embedding emb = Ok hit.2.

End retriever_binary64.

(** ** Messages and backend clients ([langchain_core], external) *)

Inductive Role : Type := SystemRole | HumanRole | AIRole | ToolRole.

Record BaseMessage : Type := { role : Role; content : string }.

Definition HumanMessage (content : string) : BaseMessage :=
  {| role := HumanRole; content := content |}.

(** [Union[str, List[BaseMessage]]]. *)
Inductive Prompt : Type :=
| PromptStr (s : string)
| PromptMessages (messages : list BaseMessage).

(** What an iterator produces when it is run to its end: the items, then
    [StopIteration] ([None]) or an exception. *)
Record Iterator (A : Type) : Type := { yields : list A; raises : option PyError }.
Arguments yields {A} _.
Arguments raises {A} _.

(** The keyword arguments each client was constructed with; [None] in an
    optional field is a keyword that was not passed. *)
Module ChatOllama.
Record t : Type := {
  model : string;
  base_url : string;
  temperature : float;
  top_p : float;
  num_predict : option Z
}.
End ChatOllama.

Module ChatOpenAI.
Record t : Type := {
  model : string;
  temperature : float;
  top_p : float;
  api_key : option string;
  base_url : option string;
  max_tokens : option Z
}.
End ChatOpenAI.

Module ChatGoogleGenerativeAI.
Record t : Type := {
  model : string;
  temperature : float;
  top_p : float;
  google_api_key : option string;
  max_output_tokens : option Z
}.
End ChatGoogleGenerativeAI.

Inductive BaseChatModel : Type :=
| OllamaClient (c : ChatOllama.t)
| OpenAIClient (c : ChatOpenAI.t)
| GeminiClient (c : ChatGoogleGenerativeAI.t).

(** A call on a client, as the backend sees it. *)
Inductive Request : Type :=
| InvokeRequest (llm : BaseChatModel) (input : list BaseMessage)
| StreamRequest (llm : BaseChatModel) (input : list BaseMessage)
| BatchRequest (llm : BaseChatModel) (inputs : list (list BaseMessage)).

(** The backend behind the clients.  An answer may depend on every request
    made before, so two equal requests need not get equal answers. *)
Record Backend : Type := {
  llm_invoke : list Request -> BaseChatModel -> list BaseMessage -> result BaseMessage;
  llm_stream : list Request -> BaseChatModel -> list BaseMessage -> Iterator BaseMessage;
  llm_batch : list Request -> BaseChatModel -> list (list BaseMessage) -> result (list BaseMessage)
}.

(** ** Provider instances ([prompts/llm_providers.py]) *)

Module OllamaProvider.
Record t : Type := {
  model_name : string;
  base_url : string;
  temperature : float;
  top_p : float;
  num_predict : option Z;
  _llm : ChatOllama.t
}.

(** [OllamaProvider.__init__] up to its last statement: the attributes it
    sets and the keyword arguments it hands to [ChatOllama].  The call of
    [ChatOllama] itself, which may raise, is in [OllamaProvider_new]. *)
Definition init (model base_url : string) (temperature top_p : float)
  (num_predict : option Z) : t :=
  {| model_name := model;
     base_url := base_url;
     temperature := temperature;
     top_p := top_p;
     num_predict := num_predict;
     _llm := {| ChatOllama.model := model;
                ChatOllama.base_url := base_url;
                ChatOllama.temperature := temperature;
                ChatOllama.top_p := top_p;
                ChatOllama.num_predict := num_predict |} |}.
End OllamaProvider.

Module OpenAIProvider.
Record t : Type := {
  model_name : string;
  api_key : option string;
  base_url : option string;
  temperature : float;
  top_p : float;
  max_tokens : option Z;
  _llm : ChatOpenAI.t
}.

(** [OpenAIProvider.__init__] up to its last statement: the attributes it
    sets and the dictionary [kwargs] it builds; [api_key] is passed on when
    it is not [None], [base_url] and [max_tokens] when they are true.  The
    call of [ChatOpenAI] on these, which may raise, is in
    [OpenAIProvider_new]. *)
Definition init (model : string) (api_key base_url : option string)
  (temperature top_p : float) (max_tokens : option Z) : t :=
  {| model_name := model;
     api_key := api_key;
     base_url := base_url;
     temperature := temperature;
     top_p := top_p;
     max_tokens := max_tokens;
     _llm := {| ChatOpenAI.model := model;
                ChatOpenAI.temperature := temperature;
                ChatOpenAI.top_p := top_p;
                ChatOpenAI.api_key := api_key;
                ChatOpenAI.base_url :=
                  if truthy_opt_str base_url then base_url else None;
                ChatOpenAI.max_tokens :=
                  if truthy_opt_int max_tokens then max_tokens else None |} |}.
End OpenAIProvider.

Module GeminiProvider.
Record t : Type := {
  model_name : string;
  api_key : option string;
  temperature : float;
  top_p : float;
  max_output_tokens : option Z;
  _llm : ChatGoogleGenerativeAI.t
}.

(** [GeminiProvider.__init__] up to its last statement: the attributes
    it sets and the dictionary [kwargs] it builds; [api_key] and
    [max_output_tokens] are passed on when they are true.  The call of
    [ChatGoogleGenerativeAI] on these, which may raise, is in
    [GeminiProvider_new]. *)
Definition init (model : string) (api_key : option string)
  (temperature top_p : float) (max_output_tokens : option Z) : t :=
  {| model_name := model;
     api_key := api_key;
     temperature := temperature;
     top_p := top_p;
     max_output_tokens := max_output_tokens;
     _llm := {| ChatGoogleGenerativeAI.model := model;
                ChatGoogleGenerativeAI.temperature := temperature;
                ChatGoogleGenerativeAI.top_p := top_p;
                ChatGoogleGenerativeAI.google_api_key :=
                  if truthy_opt_str api_key then api_key else None;
                ChatGoogleGenerativeAI.max_output_tokens :=
                  if truthy_opt_int max_output_tokens then max_output_tokens else None |} |}.
End GeminiProvider.

(** An object of a class derived from [LLMProvider].  [InheritingInst] is
    an instance of a subclass that implements the abstract methods and
    takes [update_parameters] from the base class. *)
Inductive Instance : Type :=
| OllamaInst (o : OllamaProvider.t)
| OpenAIInst (o : OpenAIProvider.t)
| GeminiInst (o : GeminiProvider.t)
| InheritingInst (class_name : string) (llm : BaseChatModel).

(** ** The process: objects, environment variables, backend traffic *)

Record World : Type := {
  heap : gmap nat Instance;
  environ : gmap string string;
  calls : list Request
}.

(** A computation that reads and changes the process and may raise. *)
Definition M (A : Type) : Type := World -> result A * World.

#[global] Instance M_ret : MRet M := fun A a w => (Ok a, w).

#[global] Instance M_bind : MBind M := fun A B f m w =>
  match m w with
  | (Ok a, w') => f a w'
  | (Raise e, w') => (Raise e, w')
  end.

Definition raise {A : Type} (e : PyError) : M A := fun w => (Raise e, w).

(** Object creation: the instance gets an address no live object has. *)
Definition new (inst : Instance) : M nat := fun w =>
  let self := fresh (dom (heap w)) in
  (Ok self,
   {| heap := <[self := inst]> (heap w); environ := environ w; calls := calls w |}).

Definition deref (self : nat) : M Instance := fun w =>
  match heap w !! self with
  | Some inst => (Ok inst, w)
  | None => (Raise AttributeError, w)
  end.

(** [os.getenv(name)]. *)
Definition getenv (name : string) : M (option string) := fun w =>
  (Ok (environ w !! name), w).

Definition record_call (req : Request) : M unit := fun w =>
  (Ok tt, {| heap := heap w; environ := environ w; calls := calls w ++ [req] |}).

Definition log_call (req : Request) (w : World) : World :=
  {| heap := heap w; environ := environ w; calls := calls w ++ [req] |}.

(** What the constructor of a client class does with the keyword
    arguments it is given.  [ChatOllama], [ChatOpenAI] and
    [ChatGoogleGenerativeAI] are outside this repository: they validate
    their arguments and may refuse them, for instance when no API key is
    passed or found in the environment, or when a sampling parameter is
    out of the range the class allows.  [None]: the client is built;
    [Some e]: the constructor raises [e]. *)
Definition ClientCheck : Type := BaseChatModel -> gmap string string -> option PyError.

(** The call of a client's constructor, the last statement of [__init__]. *)
Definition construct_client (K : ClientCheck) (llm : BaseChatModel) : M unit := fun w =>
  match K llm (environ w) with
  | None => (Ok tt, w)
  | Some e => (Raise e, w)
  end.

Section providers.
Context (B : Backend).
Context (K : ClientCheck).

(** [llm.invoke(input)], [llm.stream(input)] and [llm.batch(inputs)] on a
    client: the request goes to the backend, which answers. *)
Definition client_invoke (llm : BaseChatModel) (input : list BaseMessage) : M BaseMessage :=
  fun w => (llm_invoke B (calls w) llm input, log_call (InvokeRequest llm input) w).

Definition client_stream (llm : BaseChatModel) (input : list BaseMessage)
  : M (Iterator BaseMessage) :=
  fun w => (Ok (llm_stream B (calls w) llm input), log_call (StreamRequest llm input) w).

Definition client_batch (llm : BaseChatModel) (inputs : list (list BaseMessage))
  : M (list BaseMessage) :=
  fun w => (llm_batch B (calls w) llm inputs, log_call (BatchRequest llm inputs) w).

(** [if isinstance(prompt, str): prompt = [HumanMessage(content=prompt)]]. *)
Definition wrap_str (prompt : Prompt) : list BaseMessage :=
  match prompt with
  | PromptStr s => [HumanMessage s]
  | PromptMessages messages => messages
  end.

(** The generator object a generator function returns.  The call of the
    function runs nothing of its body; the body runs when the generator
    is iterated.  A generator is given by what iterating it to its end
    does, from the state in which the iteration starts. *)
Definition Generator (A : Type) : Type := M (Iterator A).

(** The call of a generator function: it hands back its generator and
    touches nothing. *)
Definition call_generator {A : Type} (body : Generator A) : M (Generator A) := mret body.

(** The loop of the generator [stream]:
    [for chunk in ...: if chunk.content: yield chunk.content]. *)
Fixpoint yield_contents (chunks : list BaseMessage) : list string :=
  match chunks with
  | [] => []
  | chunk :: chunks' =>
      if truthy_str (content chunk)
      then content chunk :: yield_contents chunks'
      else yield_contents chunks'
  end.

(** *** [OllamaProvider] *)

Definition as_ollama (self : nat) : M OllamaProvider.t :=
  inst ← deref self;
  match inst with
  | OllamaInst o => mret o
  | _ => raise AttributeError
  end.

(** [OllamaProvider(...)]: [__init__] runs to its end, the client's
    constructor included, before there is an instance to speak of. *)
Definition OllamaProvider_new (model base_url : string) (temperature top_p : float)
  (num_predict : option Z) : M nat :=
  let o := OllamaProvider.init model base_url temperature top_p num_predict in
  _ ← construct_client K (OllamaClient (OllamaProvider._llm o));
  new (OllamaInst o).

Definition OllamaProvider_invoke (self : nat) (prompt : Prompt) : M string :=
  o ← as_ollama self;
  let prompt := wrap_str prompt in
  response ← client_invoke (OllamaClient (OllamaProvider._llm o)) prompt;
  mret (content response).

(** The generator [OllamaProvider.stream] returns: the attribute is read and
    the request sent when the generator is iterated, not when [stream] is
    called. *)
Definition OllamaProvider_stream (self : nat) (prompt : Prompt) : Generator string :=
  o ← as_ollama self;
  let prompt := wrap_str prompt in
  chunks ← client_stream (OllamaClient (OllamaProvider._llm o)) prompt;
  mret {| yields := yield_contents (yields chunks); raises := raises chunks |}.

Definition OllamaProvider_batch (self : nat) (prompts : list string) : M (list string) :=
  o ← as_ollama self;
  let messages_list := map (fun p => [HumanMessage p]) prompts in
  responses ← client_batch (OllamaClient (OllamaProvider._llm o)) messages_list;
  mret (map content responses).

Definition OllamaProvider_get_model (self : nat) : M BaseChatModel :=
  o ← as_ollama self;
  mret (OllamaClient (OllamaProvider._llm o)).

Definition OllamaProvider_update_parameters (self : nat)
  (temperature top_p : option float) (max_tokens : option Z) : M nat :=
  o ← as_ollama self;
  OllamaProvider_new
    (OllamaProvider.model_name o)
    (OllamaProvider.base_url o)
    (if_not_None temperature (OllamaProvider.temperature o))
    (if_not_None top_p (OllamaProvider.top_p o))
    (match max_tokens with
     | Some n => Some n
     | None => OllamaProvider.num_predict o
     end).

(** *** [OpenAIProvider] *)

Definition as_openai (self : nat) : M OpenAIProvider.t :=
  inst ← deref self;
  match inst with
  | OpenAIInst o => mret o
  | _ => raise AttributeError
  end.

Definition OpenAIProvider_new (model : string) (api_key base_url : option string)
  (temperature top_p : float) (max_tokens : option Z) : M nat :=
  let o := OpenAIProvider.init model api_key base_url temperature top_p max_tokens in
  _ ← construct_client K (OpenAIClient (OpenAIProvider._llm o));
  new (OpenAIInst o).

Definition OpenAIProvider_invoke (self : nat) (prompt : Prompt) : M string :=
  o ← as_openai self;
  let prompt := wrap_str prompt in
  response ← client_invoke (OpenAIClient (OpenAIProvider._llm o)) prompt;
  mret (content response).

(** The generator [OpenAIProvider.stream] returns: the attribute is read and
    the request sent when the generator is iterated, not when [stream] is
    called. *)
Definition OpenAIProvider_stream (self : nat) (prompt : Prompt) : Generator string :=
  o ← as_openai self;
  let prompt := wrap_str prompt in
  chunks ← client_stream (OpenAIClient (OpenAIProvider._llm o)) prompt;
  mret {| yields := yield_contents (yields chunks); raises := raises chunks |}.

Definition OpenAIProvider_batch (self : nat) (prompts : list string) : M (list string) :=
  o ← as_openai self;
  let messages_list := map (fun p => [HumanMessage p]) prompts in
  responses ← client_batch (OpenAIClient (OpenAIProvider._llm o)) messages_list;
  mret (map content responses).

Definition OpenAIProvider_get_model (self : nat) : M BaseChatModel :=
  o ← as_openai self;
  mret (OpenAIClient (OpenAIProvider._llm o)).

Definition OpenAIProvider_update_parameters (self : nat)
  (temperature top_p : option float) (max_tokens : option Z) : M nat :=
  o ← as_openai self;
  OpenAIProvider_new
    (OpenAIProvider.model_name o)
    (OpenAIProvider.api_key o)
    (OpenAIProvider.base_url o)
    (if_not_None temperature (OpenAIProvider.temperature o))
    (if_not_None top_p (OpenAIProvider.top_p o))
    (match max_tokens with
     | Some n => Some n
     | None => OpenAIProvider.max_tokens o
     end).

(** *** [GeminiProvider] *)

Definition as_gemini (self : nat) : M GeminiProvider.t :=
  inst ← deref self;
  match inst with
  | GeminiInst o => mret o
  | _ => raise AttributeError
  end.

Definition GeminiProvider_new (model : string) (api_key : option string)
  (temperature top_p : float) (max_output_tokens : option Z) : M nat :=
  let o := GeminiProvider.init model api_key temperature top_p max_output_tokens in
  _ ← construct_client K (GeminiClient (GeminiProvider._llm o));
  new (GeminiInst o).

Definition GeminiProvider_invoke (self : nat) (prompt : Prompt) : M string :=
  o ← as_gemini self;
  let prompt := wrap_str prompt in
  response ← client_invoke (GeminiClient (GeminiProvider._llm o)) prompt;
  mret (content response).

(** The generator [GeminiProvider.stream] returns: the attribute is read and
    the request sent when the generator is iterated, not when [stream] is
    called. *)
Definition GeminiProvider_stream (self : nat) (prompt : Prompt) : Generator string :=
  o ← as_gemini self;
  let prompt := wrap_str prompt in
  chunks ← client_stream (GeminiClient (GeminiProvider._llm o)) prompt;
  mret {| yields := yield_contents (yields chunks); raises := raises chunks |}.

Definition GeminiProvider_batch (self : nat) (prompts : list string) : M (list string) :=
  o ← as_gemini self;
  let messages_list := map (fun p => [HumanMessage p]) prompts in
  responses ← client_batch (GeminiClient (GeminiProvider._llm o)) messages_list;
  mret (map content responses).

Definition GeminiProvider_get_model (self : nat) : M BaseChatModel :=
  o ← as_gemini self;
  mret (GeminiClient (GeminiProvider._llm o)).

Definition GeminiProvider_update_parameters (self : nat)
  (temperature top_p : option float) (max_tokens : option Z) : M nat :=
  o ← as_gemini self;
  GeminiProvider_new
    (GeminiProvider.model_name o)
    (GeminiProvider.api_key o)
    (if_not_None temperature (GeminiProvider.temperature o))
    (if_not_None top_p (GeminiProvider.top_p o))
    (match max_tokens with
     | Some n => Some n
     | None => GeminiProvider.max_output_tokens o
     end).

End providers.

(** *** [LLMProvider] ([prompts/llm_interface.py]) *)

(** The default [LLMProvider.update_parameters]: [return self]. *)
Definition LLMProvider_update_parameters (self : nat)
  (temperature top_p : option float) (max_tokens : option Z) : M nat :=
  mret self.

(** [provider.update_parameters(...)]: the method of the receiver's class. *)
Definition update_parameters (K : ClientCheck) (self : nat)
  (temperature top_p : option float) (max_tokens : option Z) : M nat :=
  inst ← deref self;
  match inst with
  | OllamaInst _ => OllamaProvider_update_parameters K self temperature top_p max_tokens
  | OpenAIInst _ => OpenAIProvider_update_parameters K self temperature top_p max_tokens
  | GeminiInst _ => GeminiProvider_update_parameters K self temperature top_p max_tokens
  | InheritingInst _ _ => LLMProvider_update_parameters self temperature top_p max_tokens
  end.

(** *** The three variants side by side *)

Inductive Variant : Type := Ollama | OpenAI | Gemini.

Definition class_of (inst : Instance) : option Variant :=
  match inst with
  | OllamaInst _ => Some Ollama
  | OpenAIInst _ => Some OpenAI
  | GeminiInst _ => Some Gemini
  | InheritingInst _ _ => None
  end.

(** The attribute [_llm] of an instance. *)
Definition client_of (inst : Instance) : BaseChatModel :=
  match inst with
  | OllamaInst o => OllamaClient (OllamaProvider._llm o)
  | OpenAIInst o => OpenAIClient (OpenAIProvider._llm o)
  | GeminiInst o => GeminiClient (GeminiProvider._llm o)
  | InheritingInst _ llm => llm
  end.

(** The methods each class defines. *)
Definition invoke_of (v : Variant) : Backend -> nat -> Prompt -> M string :=
  match v with
  | Ollama => OllamaProvider_invoke
  | OpenAI => OpenAIProvider_invoke
  | Gemini => GeminiProvider_invoke
  end.

Definition stream_of (v : Variant) : Backend -> nat -> Prompt -> Generator string :=
  match v with
  | Ollama => OllamaProvider_stream
  | OpenAI => OpenAIProvider_stream
  | Gemini => GeminiProvider_stream
  end.

Definition batch_of (v : Variant) : Backend -> nat -> list string -> M (list string) :=
  match v with
  | Ollama => OllamaProvider_batch
  | OpenAI => OpenAIProvider_batch
  | Gemini => GeminiProvider_batch
  end.

Definition update_parameters_of (v : Variant)
  : ClientCheck -> nat -> option float -> option float -> option Z -> M nat :=
  match v with
  | Ollama => OllamaProvider_update_parameters
  | OpenAI => OpenAIProvider_update_parameters
  | Gemini => GeminiProvider_update_parameters
  end.

(** The configuration an instance shows in its attributes.  The maximum
    output length is [num_predict], [max_tokens] or [max_output_tokens];
    [GeminiProvider] has no endpoint and [OllamaProvider] no API key. *)
Record Configuration : Type := {
  cfg_model : string;
  cfg_endpoint : option string;
  cfg_api_key : option string;
  cfg_temperature : float;
  cfg_top_p : float;
  cfg_max_tokens : option Z
}.

Definition configuration (inst : Instance) : option Configuration :=
  match inst with
  | OllamaInst o =>
      Some {| cfg_model := OllamaProvider.model_name o;
              cfg_endpoint := Some (OllamaProvider.base_url o);
              cfg_api_key := None;
              cfg_temperature := OllamaProvider.temperature o;
              cfg_top_p := OllamaProvider.top_p o;
              cfg_max_tokens := OllamaProvider.num_predict o |}
  | OpenAIInst o =>
      Some {| cfg_model := OpenAIProvider.model_name o;
              cfg_endpoint := OpenAIProvider.base_url o;
              cfg_api_key := OpenAIProvider.api_key o;
              cfg_temperature := OpenAIProvider.temperature o;
              cfg_top_p := OpenAIProvider.top_p o;
              cfg_max_tokens := OpenAIProvider.max_tokens o |}
  | GeminiInst o =>
      Some {| cfg_model := GeminiProvider.model_name o;
              cfg_endpoint := None;
              cfg_api_key := GeminiProvider.api_key o;
              cfg_temperature := GeminiProvider.temperature o;
              cfg_top_p := GeminiProvider.top_p o;
              cfg_max_tokens := GeminiProvider.max_output_tokens o |}
  | InheritingInst _ _ => None
  end.

(** ** Configuration ([prompts/llm_config.py]) *)

Module OllamaConfig.
Record t : Type := {
  model : string;
  base_url : string;
  temperature : float;
  top_p : float;
  num_predict : option Z
}.
End OllamaConfig.

Module OpenAIConfig.
Record t : Type := {
  model : string;
  api_key : option string;
  base_url : option string;
  temperature : float;
  top_p : float;
  max_tokens : option Z
}.
End OpenAIConfig.

Module GeminiConfig.
Record t : Type := {
  model : string;
  api_key : option string;
  temperature : float;
  top_p : float;
  max_output_tokens : option Z
}.
End GeminiConfig.

(** [LLMConfig].  The attribute [provider] is a string: its annotation
    [Literal["ollama", "openai", "gemini"]] is checked when the settings
    object is built ([provider_validate]), not when the attribute is
    assigned later. *)
Module LLMConfig.
Record t : Type := {
  provider : string;
  ollama_model : string;
  ollama_base_url : string;
  ollama_temperature : float;
  ollama_top_p : float;
  ollama_num_predict : option Z;
  openai_model : string;
  openai_api_key : option string;
  openai_base_url : option string;
  openai_temperature : float;
  openai_top_p : float;
  openai_max_tokens : option Z;
  gemini_model : string;
  gemini_api_key : option string;
  gemini_temperature : float;
  gemini_top_p : float;
  gemini_max_output_tokens : option Z
}.
End LLMConfig.

Definition provider_literal : list string := ["ollama"; "openai"; "gemini"].

(** The check of the [Literal] annotation on [provider]. *)
Definition provider_validate (value : string) : result string :=
  if bool_decide (value ∈ provider_literal)
  then Ok value
  else Raise (ValidationError "Input should be 'ollama', 'openai' or 'gemini'").

(** [LLMConfig.get_ollama_config]. *)
Definition LLMConfig_get_ollama_config (self : LLMConfig.t) : M OllamaConfig.t :=
  mret {| OllamaConfig.model := LLMConfig.ollama_model self;
          OllamaConfig.base_url := LLMConfig.ollama_base_url self;
          OllamaConfig.temperature := LLMConfig.ollama_temperature self;
          OllamaConfig.top_p := LLMConfig.ollama_top_p self;
          OllamaConfig.num_predict := LLMConfig.ollama_num_predict self |}.

(** [LLMConfig.get_openai_config]:
    [api_key = self.openai_api_key or os.getenv("OPENAI_API_KEY")]. *)
Definition LLMConfig_get_openai_config (self : LLMConfig.t) : M OpenAIConfig.t :=
  api_key ←
    (if truthy_opt_str (LLMConfig.openai_api_key self)
     then mret (LLMConfig.openai_api_key self)
     else getenv "OPENAI_API_KEY");
  mret {| OpenAIConfig.model := LLMConfig.openai_model self;
          OpenAIConfig.api_key := api_key;
          OpenAIConfig.base_url := LLMConfig.openai_base_url self;
          OpenAIConfig.temperature := LLMConfig.openai_temperature self;
          OpenAIConfig.top_p := LLMConfig.openai_top_p self;
          OpenAIConfig.max_tokens := LLMConfig.openai_max_tokens self |}.

(** [LLMConfig.get_gemini_config]:
    [api_key = self.gemini_api_key or os.getenv("GOOGLE_API_KEY")]. *)
Definition LLMConfig_get_gemini_config (self : LLMConfig.t) : M GeminiConfig.t :=
  api_key ←
    (if truthy_opt_str (LLMConfig.gemini_api_key self)
     then mret (LLMConfig.gemini_api_key self)
     else getenv "GOOGLE_API_KEY");
  mret {| GeminiConfig.model := LLMConfig.gemini_model self;
          GeminiConfig.api_key := api_key;
          GeminiConfig.temperature := LLMConfig.gemini_temperature self;
          GeminiConfig.top_p := LLMConfig.gemini_top_p self;
          GeminiConfig.max_output_tokens := LLMConfig.gemini_max_output_tokens self |}.

(** [LLMConfig.create_provider]. *)
Definition LLMConfig_create_provider (K : ClientCheck) (self : LLMConfig.t) : M nat :=
  if String.eqb (LLMConfig.provider self) "ollama" then
    config ← LLMConfig_get_ollama_config self;
    OllamaProvider_new K
      (OllamaConfig.model config)
      (OllamaConfig.base_url config)
      (OllamaConfig.temperature config)
      (OllamaConfig.top_p config)
      (OllamaConfig.num_predict config)
  else if String.eqb (LLMConfig.provider self) "openai" then
    config ← LLMConfig_get_openai_config self;
    OpenAIProvider_new K
      (OpenAIConfig.model config)
      (OpenAIConfig.api_key config)
      (OpenAIConfig.base_url config)
      (OpenAIConfig.temperature config)
      (OpenAIConfig.top_p config)
      (OpenAIConfig.max_tokens config)
  else if String.eqb (LLMConfig.provider self) "gemini" then
    config ← LLMConfig_get_gemini_config self;
    GeminiProvider_new K
      (GeminiConfig.model config)
      (GeminiConfig.api_key config)
      (GeminiConfig.temperature config)
      (GeminiConfig.top_p config)
      (GeminiConfig.max_output_tokens config)
  else
    raise (ValueError ("Unknown provider: " ++ LLMConfig.provider self)).

(** The chain the specification gives for the API key: the first value
    that is present, of the explicit one and the environment variable. *)
Definition first_present (explicit env_value : option string) : option string :=
  match explicit with
  | Some key => Some key
  | None => env_value
  end.

(** ** Example data *)

Definition ai_message (text : string) : BaseMessage :=
  {| role := AIRole; content := text |}.

(** A backend stub: it answers ["Hello"], streams ["He"] and ["llo"], and
    answers a batch by echoing each conversation's first message. *)
Definition stub_backend : Backend :=
  {| llm_invoke := fun _ _ _ => Ok (ai_message "Hello");
     llm_stream := fun _ _ _ =>
       {| yields := [ai_message "He"; ai_message "llo"]; raises := None |};
     llm_batch := fun _ _ inputs =>
       Ok (map (fun input => ai_message (from_option content "" (head input))) inputs) |}.

Definition stub_ollama : OllamaProvider.t :=
  OllamaProvider.init "llama3" "http://localhost:11434" 0.5%float 0.75%float None.

Definition stub_openai : OpenAIProvider.t :=
  OpenAIProvider.init "gpt-4o-mini" (Some "sk-test") None 0.5%float 1%float (Some 64%Z).

Definition stub_gemini : GeminiProvider.t :=
  GeminiProvider.init "gemini-pro" (Some "g-test") 0.5%float 0.5%float None.

(** A process holding one instance of each class, at addresses 0 to 3. *)
Definition stub_world : World :=
  {| heap :=
       <[0 := OllamaInst stub_ollama]>
         (<[1 := OpenAIInst stub_openai]>
            (<[2 := GeminiInst stub_gemini]>
               (<[3 := InheritingInst "EchoProvider" (OllamaClient (OllamaProvider._llm stub_ollama))]> ∅)));
     environ := <["GOOGLE_API_KEY" := "g-env"]> (<["OPENAI_API_KEY" := "sk-env"]> ∅);
     calls := [] |}.

(** A constructor check in the manner of the client libraries:
    [ChatOllama] takes what it is given; [ChatOpenAI] and
    [ChatGoogleGenerativeAI] want a key, passed as an argument or found
    in their environment variable; [ChatGoogleGenerativeAI] wants a
    temperature between 0 and 2. *)
Definition stub_client_check : ClientCheck := fun llm env =>
  match llm with
  | OllamaClient _ => None
  | OpenAIClient c =>
      match py_or (ChatOpenAI.api_key c) (env !! "OPENAI_API_KEY") with
      | Some _ => None
      | None => Some (ExternalError "The api_key client option must be set")
      end
  | GeminiClient c =>
      if PrimFloat.leb 0 (ChatGoogleGenerativeAI.temperature c)
         && PrimFloat.leb (ChatGoogleGenerativeAI.temperature c) 2
      then
        match py_or (ChatGoogleGenerativeAI.google_api_key c) (env !! "GOOGLE_API_KEY") with
        | Some _ => None
        | None => Some (ExternalError "API key required for Gemini Developer API")
        end
      else Some (ValidationError "temperature must be in the range [0.0, 2.0]")
  end.

Definition stub_config (provider : string) (openai_api_key gemini_api_key : option string)
  : LLMConfig.t :=
  {| LLMConfig.provider := provider;
     LLMConfig.ollama_model := "llama3";
     LLMConfig.ollama_base_url := "http://localhost:11434";
     LLMConfig.ollama_temperature := 0.5%float;
     LLMConfig.ollama_top_p := 0.75%float;
     LLMConfig.ollama_num_predict := None;
     LLMConfig.openai_model := "gpt-4o-mini";
     LLMConfig.openai_api_key := openai_api_key;
     LLMConfig.openai_base_url := None;
     LLMConfig.openai_temperature := 0.5%float;
     LLMConfig.openai_top_p := 1%float;
     LLMConfig.openai_max_tokens := None;
     LLMConfig.gemini_model := "gemini-2.5-flash";
     LLMConfig.gemini_api_key := gemini_api_key;
     LLMConfig.gemini_temperature := 0.5%float;
     LLMConfig.gemini_top_p := 0.5%float;
     LLMConfig.gemini_max_output_tokens := None |}.

(** A stub embedding client and the store it gives for three texts. *)
Definition stub_vector (text : string) : list R :=
  if String.eqb text "apple" then [3; 4]%R
  else if String.eqb text "banana" then [1; 0]%R
  else if String.eqb text "car" then [0; 1]%R
  else [1; 0]%R.

Definition stub_embeddings : Embeddings :=
  {| embed_query := fun text => Ok (stub_vector text);
     embed_documents := fun texts => Ok (map stub_vector texts) |}.

Definition stub_store : SimpleVectorStore :=
  {| store_texts := ["apple"; "banana"; "car"];
     store_embeddings_model := stub_embeddings;
     store_embeddings := map stub_vector ["apple"; "banana"; "car"] |}.

(** [x ** 0.5] as the square root of the machine, which is what the
    interpreter gives on the numbers of the examples below. *)
Definition pow_sqrt (x y : float) : float := PrimFloat.sqrt x.

(** A store of two texts whose embeddings are all but parallel, and a
    client that embeds every query as [[1.0, 1.0]]. *)
Definition close_embeddings : Embeddings_binary64 :=
  {| embed_query_binary64 := fun _ => Ok [1; 1]%float;
     embed_documents_binary64 := fun texts =>
       Ok (map (fun _ => [1; 1]%float) texts) |}.

Definition close_store : SimpleVectorStore_binary64 :=
  {| store_texts_binary64 := ["slanted"; "parallel"];
     store_embeddings_model_binary64 := close_embeddings;
     store_embeddings_binary64 := [[7; 7 + 0x1p-24]; [1; 1]]%float |}.

(** A store with an embedding of very small components, and a client
    that embeds every query as [[1.0, 0.0]]. *)
Definition tiny_embeddings : Embeddings_binary64 :=
  {| embed_query_binary64 := fun _ => Ok [1; 0]%float;
     embed_documents_binary64 := fun texts =>
       Ok (map (fun _ => [1; 0]%float) texts) |}.

Definition tiny_store : SimpleVectorStore_binary64 :=
  {| store_texts_binary64 := ["tiny"; "diagonal"; "across"];
     store_embeddings_model_binary64 := tiny_embeddings;
     store_embeddings_binary64 := [[0x1p-600; 0]; [1; 1]; [0; 1]]%float |}.

(** A store with an embedding whose square overflows, and a client that
    embeds every query as that same vector. *)
Definition huge_embeddings : Embeddings_binary64 :=
  {| embed_query_binary64 := fun _ => Ok [0x1p600]%float;
     embed_documents_binary64 := fun texts =>
       Ok (map (fun _ => [0x1p600]%float) texts) |}.

Definition huge_store : SimpleVectorStore_binary64 :=
  {| store_texts_binary64 := ["huge"; "one"; "spare"];
     store_embeddings_model_binary64 := huge_embeddings;
     store_embeddings_binary64 := [[0x1p600]; [1]]%float |}.

(** * Further definitions *)

(** ** The retriever, continued *)

(** How many elements [xs[:stop]] has, for [xs] of length [n]. *)
Definition slice_count (n : nat) (stop : Z) : nat :=
  Z.to_nat (if (stop <? 0)%Z then Z.max 0 (Z.of_nat n + stop) else Z.min stop (Z.of_nat n)).

(** The ranking [invoke] computes from the similarities, before it looks
    up the texts: pairs of position and similarity. *)
Definition ranking (similarities : list R) (k : Z) : list (nat * R) :=
  slice_to (sort_reverse (fun x y : R => bool_decide (x < y)%R) snd (enumerate similarities)) k.

(** [p] is ranked in front of [p']: its score is greater, or the scores
    are equal and it is stored earlier. *)
Definition ranks_before_binary64 (p p' : nat * float) : Prop :=
  PrimFloat.ltb p'.2 p.2 = true \/ (PrimFloat.eqb p.2 p'.2 = true /\ p.1 < p'.1).

(** The order of the binary64 numbers other than NaN, read off their
    representation: sign, exponent and mantissa compared in this order.
    The two zeros have the same place. *)
Definition binary64_rank (x : spec_float) : Z * Z * Z :=
  match x with
  | S754_zero _ | S754_nan => (0, 0, 0)
  | S754_infinity s => (if s then -2 else 2, 0, 0)
  | S754_finite s m e => if s then (-1, - e, - Z.pos m) else (1, e, Z.pos m)
  end%Z.

Definition rank_lt (p q : Z * Z * Z) : Prop :=
  (p.1.1 < q.1.1 \/
   (p.1.1 = q.1.1 /\ (p.1.2 < q.1.2 \/ (p.1.2 = q.1.2 /\ p.2 < q.2))))%Z.

(** The real number a finite binary64 number stands for. *)
Definition binary64_to_R (x : float) : R :=
  match Prim2SF x with
  | S754_finite s m e =>
      (IZR (if s then Z.neg m else Z.pos m) *
       (if (e <? 0)%Z then / IZR (2 ^ (- e)) else IZR (2 ^ e)))%R
  | _ => 0%R
  end.

(** The line feed, and ["\n\n".join(...)] of [retrieve_docs]. *)
Definition newline : string := String (Ascii.ascii_of_nat 10) EmptyString.

(** [retrieve_docs(query)]; the module-level [retriever] is an argument. *)
Definition retrieve_docs (retriever : SimpleRetriever) (query : string) : result string :=
  docs ← SimpleRetriever_invoke retriever query;
  Ok (String.concat (newline ++ newline) (map page_content docs)).

(** ** Providers, continued *)

Section providers_metadata.
Context (B : Backend).

(** [time.time()]: the clock is outside the program; what it shows is
    some function of the state the process is in when it is read. *)
Context (clock : World -> float).

Definition time_time : M float := fun w => (Ok (clock w), w).

(** [invoke_with_metadata]: the tuple
    [(response.content, response, start_time, end_time)]. *)
Definition OllamaProvider_invoke_with_metadata (self : nat) (prompt : Prompt)
  : M (string * BaseMessage * float * float) :=
  o ← as_ollama self;
  let prompt := wrap_str prompt in
  start_time ← time_time;
  response ← client_invoke B (OllamaClient (OllamaProvider._llm o)) prompt;
  end_time ← time_time;
  mret (content response, response, start_time, end_time).

Definition OpenAIProvider_invoke_with_metadata (self : nat) (prompt : Prompt)
  : M (string * BaseMessage * float * float) :=
  o ← as_openai self;
  let prompt := wrap_str prompt in
  start_time ← time_time;
  response ← client_invoke B (OpenAIClient (OpenAIProvider._llm o)) prompt;
  end_time ← time_time;
  mret (content response, response, start_time, end_time).

Definition GeminiProvider_invoke_with_metadata (self : nat) (prompt : Prompt)
  : M (string * BaseMessage * float * float) :=
  o ← as_gemini self;
  let prompt := wrap_str prompt in
  start_time ← time_time;
  response ← client_invoke B (GeminiClient (GeminiProvider._llm o)) prompt;
  end_time ← time_time;
  mret (content response, response, start_time, end_time).

End providers_metadata.

Definition invoke_with_metadata_of (v : Variant)
  : Backend -> (World -> float) -> nat -> Prompt -> M (string * BaseMessage * float * float) :=
  match v with
  | Ollama => OllamaProvider_invoke_with_metadata
  | OpenAI => OpenAIProvider_invoke_with_metadata
  | Gemini => GeminiProvider_invoke_with_metadata
  end.

Definition get_model_of (v : Variant) : nat -> M BaseChatModel :=
  match v with
  | Ollama => OllamaProvider_get_model
  | OpenAI => OpenAIProvider_get_model
  | Gemini => GeminiProvider_get_model
  end.

(** The receiver is an instance of the class whose method is called. *)
Definition receiver_of (v : Variant) (w : World) (self : nat) (inst : Instance) : Prop :=
  heap w !! self = Some inst /\ class_of inst = Some v.

#[global] Instance Variant_eq_dec : EqDecision Variant.
Proof. solve_decision. Defined.

(** The sampling parameters a client was constructed with. *)
Definition client_temperature (llm : BaseChatModel) : float :=
  match llm with
  | OllamaClient c => ChatOllama.temperature c
  | OpenAIClient c => ChatOpenAI.temperature c
  | GeminiClient c => ChatGoogleGenerativeAI.temperature c
  end.

Definition client_top_p (llm : BaseChatModel) : float :=
  match llm with
  | OllamaClient c => ChatOllama.top_p c
  | OpenAIClient c => ChatOpenAI.top_p c
  | GeminiClient c => ChatGoogleGenerativeAI.top_p c
  end.

Definition client_max_tokens (llm : BaseChatModel) : option Z :=
  match llm with
  | OllamaClient c => ChatOllama.num_predict c
  | OpenAIClient c => ChatOpenAI.max_tokens c
  | GeminiClient c => ChatGoogleGenerativeAI.max_output_tokens c
  end.

Definition client_model (llm : BaseChatModel) : string :=
  match llm with
  | OllamaClient c => ChatOllama.model c
  | OpenAIClient c => ChatOpenAI.model c
  | GeminiClient c => ChatGoogleGenerativeAI.model c
  end.

(** The API key a client was constructed with; none for [ChatOllama]. *)
Definition client_api_key (llm : BaseChatModel) : option string :=
  match llm with
  | OllamaClient _ => None
  | OpenAIClient c => ChatOpenAI.api_key c
  | GeminiClient c => ChatGoogleGenerativeAI.google_api_key c
  end.

(** The client of an instance is the one its constructor builds from the
    attributes the instance shows. *)
Definition client_in_step (inst : Instance) : Prop :=
  match inst with
  | OllamaInst o =>
      o = OllamaProvider.init (OllamaProvider.model_name o) (OllamaProvider.base_url o)
            (OllamaProvider.temperature o) (OllamaProvider.top_p o)
            (OllamaProvider.num_predict o)
  | OpenAIInst o =>
      o = OpenAIProvider.init (OpenAIProvider.model_name o) (OpenAIProvider.api_key o)
            (OpenAIProvider.base_url o) (OpenAIProvider.temperature o)
            (OpenAIProvider.top_p o) (OpenAIProvider.max_tokens o)
  | GeminiInst o =>
      o = GeminiProvider.init (GeminiProvider.model_name o) (GeminiProvider.api_key o)
            (GeminiProvider.temperature o) (GeminiProvider.top_p o)
            (GeminiProvider.max_output_tokens o)
  | InheritingInst _ _ => True
  end.

(** The instance the overriding [update_parameters] of the class of
    [inst] builds from [inst] and the arguments. *)
Definition updated_instance (inst : Instance) (temperature top_p : option float)
  (max_tokens : option Z) : Instance :=
  match inst with
  | OllamaInst o =>
      OllamaInst
        (OllamaProvider.init (OllamaProvider.model_name o) (OllamaProvider.base_url o)
           (if_not_None temperature (OllamaProvider.temperature o))
           (if_not_None top_p (OllamaProvider.top_p o))
           (match max_tokens with
            | Some n => Some n
            | None => OllamaProvider.num_predict o
            end))
  | OpenAIInst o =>
      OpenAIInst
        (OpenAIProvider.init (OpenAIProvider.model_name o) (OpenAIProvider.api_key o)
           (OpenAIProvider.base_url o)
           (if_not_None temperature (OpenAIProvider.temperature o))
           (if_not_None top_p (OpenAIProvider.top_p o))
           (match max_tokens with
            | Some n => Some n
            | None => OpenAIProvider.max_tokens o
            end))
  | GeminiInst o =>
      GeminiInst
        (GeminiProvider.init (GeminiProvider.model_name o) (GeminiProvider.api_key o)
           (if_not_None temperature (GeminiProvider.temperature o))
           (if_not_None top_p (GeminiProvider.top_p o))
           (match max_tokens with
            | Some n => Some n
            | None => GeminiProvider.max_output_tokens o
            end))
  | InheritingInst _ _ => inst
  end.

(** ** Configuration, continued *)

(** The selector value that stands for a class. *)
Definition variant_name (v : Variant) : string :=
  match v with
  | Ollama => "ollama"
  | OpenAI => "openai"
  | Gemini => "gemini"
  end.

(** The instance [create_provider] builds for a configuration, given the
    environment variables; none for a selector it does not know. *)
Definition created_instance (config : LLMConfig.t) (env : gmap string string)
  : option Instance :=
  if String.eqb (LLMConfig.provider config) "ollama" then
    Some (OllamaInst
            (OllamaProvider.init (LLMConfig.ollama_model config)
               (LLMConfig.ollama_base_url config) (LLMConfig.ollama_temperature config)
               (LLMConfig.ollama_top_p config) (LLMConfig.ollama_num_predict config)))
  else if String.eqb (LLMConfig.provider config) "openai" then
    Some (OpenAIInst
            (OpenAIProvider.init (LLMConfig.openai_model config)
               (py_or (LLMConfig.openai_api_key config) (env !! "OPENAI_API_KEY"))
               (LLMConfig.openai_base_url config) (LLMConfig.openai_temperature config)
               (LLMConfig.openai_top_p config) (LLMConfig.openai_max_tokens config)))
  else if String.eqb (LLMConfig.provider config) "gemini" then
    Some (GeminiInst
            (GeminiProvider.init (LLMConfig.gemini_model config)
               (py_or (LLMConfig.gemini_api_key config) (env !! "GOOGLE_API_KEY"))
               (LLMConfig.gemini_temperature config) (LLMConfig.gemini_top_p config)
               (LLMConfig.gemini_max_output_tokens config)))
  else None.

Section settings.

(** [LLMConfig()]: the settings library reads the fields from the
    environment and the [.env] file; how it reads them is outside this
    repository.  The value it read for [provider] is then checked against
    the [Literal] annotation. *)
Context (read_settings : World -> result LLMConfig.t).

Definition LLMConfig_new : M LLMConfig.t := fun w =>
  (config ← read_settings w;
   _ ← provider_validate (LLMConfig.provider config);
   Ok config,
   w).

(** [get_config()]; the module-level [_config] is passed in and handed
    back. *)
Definition get_config (_config : option LLMConfig.t) : M (LLMConfig.t * option LLMConfig.t) :=
  match _config with
  | None =>
      config ← LLMConfig_new;
      mret (config, Some config)
  | Some config => mret (config, Some config)
  end.

(** [get_llm()]: what it returns or raises, the module-level [_config]
    after it, and the state after it.  [get_config] has assigned [_config]
    before [create_provider] runs, so the assignment stays when
    [create_provider] raises; when [get_config] itself raises, nothing was
    assigned. *)
Definition get_llm (K : ClientCheck) (_config : option LLMConfig.t)
  : World -> result nat * option LLMConfig.t * World := fun w =>
  match get_config _config w with
  | (Ok (config, _config'), w1) =>
      let '(r, w2) := LLMConfig_create_provider K config w1 in (r, _config', w2)
  | (Raise e, w1) => (Raise e, _config, w1)
  end.

End settings.

(** ** The provider layer as a transition system *)

(** One call of the provider layer, or the iteration of a generator that
    [stream] returned, from the state before it to the state after it,
    whatever it returns or raises. *)
Inductive step : World -> World -> Prop :=
| step_create_provider (K : ClientCheck) (config : LLMConfig.t) (w : World) :
    step w (LLMConfig_create_provider K config w).2
| step_update_parameters (K : ClientCheck) (self : nat) (temperature top_p : option float)
    (max_tokens : option Z) (w : World) :
    step w (update_parameters K self temperature top_p max_tokens w).2
| step_invoke (v : Variant) (B : Backend) (self : nat) (prompt : Prompt) (w : World) :
    step w (invoke_of v B self prompt w).2
| step_invoke_with_metadata (v : Variant) (B : Backend) (clock : World -> float)
    (self : nat) (prompt : Prompt) (w : World) :
    step w (invoke_with_metadata_of v B clock self prompt w).2
| step_stream (v : Variant) (B : Backend) (self : nat) (prompt : Prompt) (w : World) :
    step w (call_generator (stream_of v B self prompt) w).2
| step_iterate (v : Variant) (B : Backend) (self : nat) (prompt : Prompt) (w : World) :
    step w (stream_of v B self prompt w).2
| step_batch (v : Variant) (B : Backend) (self : nat) (prompts : list string) (w : World) :
    step w (batch_of v B self prompts w).2
| step_get_model (v : Variant) (self : nat) (w : World) :
    step w (get_model_of v self w).2.

(** A state the process can be in when every provider in it came from
    this layer: it started without instances. *)
Definition reachable (w : World) : Prop :=
  exists w0, heap w0 = ∅ /\ rtc step w0 w.

(** Every instance in the process has its client in step with its
    attributes, and is of one of the three classes. *)
Definition heap_in_step (w : World) : Prop :=
  forall self inst, heap w !! self = Some inst ->
    client_in_step inst /\ is_Some (class_of inst).

(** A process that has just started, with the environment of
    [stub_world]. *)
Definition fresh_world : World :=
  {| heap := ∅; environ := environ stub_world; calls := [] |}.

(** ** Demo utilities ([prompts/demo_utils.py]) *)

Section demo_utils.

(** [str.upper], and [str()] of a float and of an int, as an f-string
    uses them: built-ins. *)
Context (upper : string -> string) (str_float : float -> string) (str_int : Z -> string).

(** An [Optional[float]] in an f-string. *)
Definition format_opt_float (x : option float) : string :=
  match x with
  | Some x => str_float x
  | None => "None"
  end.

(** [print_provider_info]: the line it prints.  [config] is what
    [get_config()] returned. *)
Definition print_provider_info (config : LLMConfig.t)
  (provider_name model_name : option string) (temperature top_p : option float)
  (max_tokens : option Z) : string :=
  let provider := LLMConfig.provider config in
  let provider_name :=
    match provider_name with
    | None => upper provider
    | Some name => name
    end in
  let model_name :=
    match model_name with
    | None =>
        if String.eqb provider "ollama" then LLMConfig.ollama_model config
        else if String.eqb provider "openai" then LLMConfig.openai_model config
        else if String.eqb provider "gemini" then LLMConfig.gemini_model config
        else "unknown"
    | Some name => name
    end in
  let temperature :=
    match temperature with
    | None =>
        if String.eqb provider "ollama" then Some (LLMConfig.ollama_temperature config)
        else if String.eqb provider "openai" then Some (LLMConfig.openai_temperature config)
        else if String.eqb provider "gemini" then Some (LLMConfig.gemini_temperature config)
        else None
    | Some t => Some t
    end in
  let top_p :=
    match top_p with
    | None =>
        if String.eqb provider "ollama" then Some (LLMConfig.ollama_top_p config)
        else if String.eqb provider "openai" then Some (LLMConfig.openai_top_p config)
        else if String.eqb provider "gemini" then Some (LLMConfig.gemini_top_p config)
        else None
    | Some p => Some p
    end in
  let max_tokens :=
    match max_tokens with
    | None =>
        if String.eqb provider "ollama" then LLMConfig.ollama_num_predict config
        else if String.eqb provider "openai" then LLMConfig.openai_max_tokens config
        else if String.eqb provider "gemini" then LLMConfig.gemini_max_output_tokens config
        else None
    | Some n => Some n
    end in
  let max_tokens_str :=
    if truthy_opt_int max_tokens then from_option str_int "" max_tokens else "(no limit)" in
  newline ++ "[Provider: " ++ provider_name ++ " | Model: " ++ model_name
    ++ " | Temp: " ++ format_opt_float temperature
    ++ " | Top-p: " ++ format_opt_float top_p
    ++ " | Max Tokens: " ++ max_tokens_str ++ "]".

(** [print_provider_info_for_llm(llm_instance)]: the line it prints. *)
Definition print_provider_info_for_llm (config : LLMConfig.t) (llm_instance : nat) : string :=
  let provider := LLMConfig.provider config in
  let provider_name := upper provider in
  let '(model_name, temperature, top_p, max_tokens) :=
    if String.eqb provider "ollama" then
      (LLMConfig.ollama_model config, Some (LLMConfig.ollama_temperature config),
       Some (LLMConfig.ollama_top_p config), LLMConfig.ollama_num_predict config)
    else if String.eqb provider "openai" then
      (LLMConfig.openai_model config, Some (LLMConfig.openai_temperature config),
       Some (LLMConfig.openai_top_p config), LLMConfig.openai_max_tokens config)
    else if String.eqb provider "gemini" then
      (LLMConfig.gemini_model config, Some (LLMConfig.gemini_temperature config),
       Some (LLMConfig.gemini_top_p config), LLMConfig.gemini_max_output_tokens config)
    else ("unknown", None, None, None) in
  print_provider_info config (Some provider_name) (Some model_name) temperature top_p
    max_tokens.

End demo_utils.

(** ** Further example data *)

(** A backend that fails: [invoke] is refused, the stream breaks after
    ["He"], and a batch gets an answer for its first conversation only. *)
Definition failing_backend : Backend :=
  {| llm_invoke := fun _ _ _ => Raise (ExternalError "rate limit");
     llm_stream := fun _ _ _ =>
       {| yields := [ai_message "He"; ai_message ""];
          raises := Some (ExternalError "connection lost") |};
     llm_batch := fun _ _ inputs =>
       Ok (take 1 (map (fun input => ai_message (from_option content "" (head input))) inputs)) |}.

(** * Properties *)

(** ** Exceptions and comprehensions *)

Lemma comprehension_Ok {A B : Type} (f : A -> result B) (g : A -> B) (l : list A) :
  (forall x, x ∈ l -> f x = Ok (g x)) ->
  comprehension f l = Ok (map g l).
Proof.
  induction l as [|x l IH]; intros Hf; simpl; [reflexivity|].
  rewrite Hf by left. simpl.
  rewrite IH; [reflexivity|].
  intros y Hy. apply Hf. now right.
Qed.

(** ** Cosine similarity *)

Section cosine.
Local Open Scope R_scope.

Lemma fold_left_Rplus_acc (xs : list R) (a : R) :
  fold_left Rplus xs a = a + fold_left Rplus xs 0.
Proof.
  revert a. induction xs as [|x xs IH]; intros a; simpl.
  - lra.
  - rewrite (IH (a + x)), (IH (0 + x)). lra.
Qed.

Lemma py_sum_cons (x : R) (xs : list R) : py_sum (x :: xs) = x + py_sum xs.
Proof.
  unfold py_sum. simpl. rewrite fold_left_Rplus_acc. lra.
Qed.

Lemma sum_squares_nonneg (vec : list R) : 0 <= py_sum (map (fun a => a * a) vec).
Proof.
  induction vec as [|a vec IH]; simpl.
  - unfold py_sum. simpl. lra.
  - rewrite py_sum_cons. nra.
Qed.

Lemma sum_squares_pos (vec : list R) :
  Exists (fun a => a <> 0) vec -> 0 < py_sum (map (fun a => a * a) vec).
Proof.
  induction 1 as [a vec Ha | a vec _ IH]; simpl; rewrite py_sum_cons.
  - pose proof (sum_squares_nonneg vec). nra.
  - nra.
Qed.

Lemma sum_squares_zero (vec : list R) :
  Forall (fun a => a = 0) vec -> py_sum (map (fun a => a * a) vec) = 0.
Proof.
  induction 1 as [|a vec Ha _ IH]; simpl.
  - reflexivity.
  - rewrite py_sum_cons, IH, Ha. lra.
Qed.


Lemma sum_products_self (vec : list R) :
  py_sum (map (fun ab : R * R => ab.1 * ab.2) (zip vec vec)) =
  py_sum (map (fun a => a * a) vec).
Proof.
  induction vec as [|a vec IH]; simpl; [reflexivity|].
  now rewrite !py_sum_cons, IH.
Qed.

Lemma euclidean_norm_zero_vector (vec : list R) :
  Forall (fun a => a = 0) vec -> euclidean_norm vec = 0.
Proof.
  intros H. unfold euclidean_norm, pow_half.
  rewrite sum_squares_zero by assumption. apply sqrt_0.
Qed.

(** The division is reached only with a positive divisor, so the call
    always returns. *)
Lemma cosine_similarity_returns (vec1 vec2 : list R) :
  exists s, cosine_similarity vec1 vec2 = Ok s.
Proof.
  unfold cosine_similarity, truediv.
  case_bool_decide as Hpos; [|eauto].
  destruct (Req_dec_T _ 0) as [Hz|Hnz]; [lra|eauto].
Qed.

(** C3: [cosine_similarity] returns on every pair of vectors and never
    raises [ZeroDivisionError]; when either vector has Euclidean norm 0,
    and so when either is an all-zero vector, it returns exactly 0. *)
Theorem cosine_similarity_zero_norm_guard (vec1 vec2 : list R) :
  (exists s, cosine_similarity vec1 vec2 = Ok s) /\
  cosine_similarity vec1 vec2 <> Raise ZeroDivisionError /\
  (euclidean_norm vec1 = 0 \/ euclidean_norm vec2 = 0 ->
   cosine_similarity vec1 vec2 = Ok 0) /\
  (Forall (fun a => a = 0) vec1 \/ Forall (fun b => b = 0) vec2 ->
   cosine_similarity vec1 vec2 = Ok 0).
Proof.
  assert (Hguard : euclidean_norm vec1 = 0 \/ euclidean_norm vec2 = 0 ->
                   cosine_similarity vec1 vec2 = Ok 0).
  { intros Hzero. unfold cosine_similarity.
    fold (euclidean_norm vec1) (euclidean_norm vec2).
    case_bool_decide as Hpos; [|reflexivity].
    destruct Hzero as [Hz|Hz]; rewrite Hz in Hpos; lra. }
  destruct (cosine_similarity_returns vec1 vec2) as [s Hs].
  repeat split.
  - eauto.
  - rewrite Hs. discriminate.
  - exact Hguard.
  - intros [Hz|Hz]; apply Hguard; [left|right];
      now apply euclidean_norm_zero_vector.
Qed.

Lemma cosine_similarity_zero_norm_guard_witness :
  cosine_similarity [0; 0] [3; 4] = Ok 0.
Proof.
  apply (cosine_similarity_zero_norm_guard [0; 0] [3; 4]).
  left. repeat constructor.
Defined.


Lemma cosine_similarity_self (v : list R) :
  Exists (fun x => x <> 0) v -> cosine_similarity v v = Ok 1.
Proof.
  intros Hv. apply sum_squares_pos in Hv.
  unfold cosine_similarity, truediv, pow_half.
  rewrite sum_products_self, sqrt_sqrt by lra.
  case_bool_decide as Hpos; [|lra].
  destruct (Req_dec_T _ 0) as [Hz|Hnz]; [lra|].
  f_equal. now field.
Qed.

End cosine.

(** ** The guard in binary64

    In binary64 the guard does the same work: a product with a zero is a
    zero or not a number, neither is greater than 0, and a number greater
    than 0 is not equal to 0. *)
Lemma binary64_zero_product (zero x : float) :
  PrimFloat.eqb zero 0 = true ->
  PrimFloat.ltb 0 (PrimFloat.mul zero x) = false /\
  PrimFloat.ltb 0 (PrimFloat.mul x zero) = false.
Proof.
  rewrite FloatAxioms.eqb_spec, !FloatAxioms.ltb_spec, !FloatAxioms.mul_spec.
  change (Prim2SF 0) with (S754_zero false).
  intros Hzero.
  destruct (Prim2SF zero) as [s|s| |s m e];
    try (destruct s; discriminate Hzero); try discriminate Hzero.
  destruct (Prim2SF x) as [s'|s'| |s' m' e'], s; try destruct s'; split; reflexivity.
Qed.

Lemma binary64_positive_nonzero (x : float) :
  PrimFloat.ltb 0 x = true -> PrimFloat.eqb x 0 = false.
Proof.
  rewrite FloatAxioms.ltb_spec, FloatAxioms.eqb_spec. change (Prim2SF 0) with (S754_zero false).
  intros Hpos.
  destruct (Prim2SF x) as [s|s| |s m e]; try discriminate Hpos; try reflexivity;
    destruct s; try discriminate Hpos; reflexivity.
Qed.

Lemma cosine_similarity_binary64_guard (pow : float -> float -> float)
  (vec1 vec2 : list float) :
  (exists s, cosine_similarity_binary64 pow vec1 vec2 = Ok s) /\
  (PrimFloat.eqb (pow (sum_binary64 (map (fun a => PrimFloat.mul a a) vec1)) 0.5%float) 0 = true \/
   PrimFloat.eqb (pow (sum_binary64 (map (fun b => PrimFloat.mul b b) vec2)) 0.5%float) 0 = true ->
   cosine_similarity_binary64 pow vec1 vec2 = Ok 0%float).
Proof.
  unfold cosine_similarity_binary64, truediv_binary64. split.
  - destruct (PrimFloat.ltb 0 _) eqn:Hpos; [|eauto].
    rewrite (binary64_positive_nonzero _ Hpos). eauto.
  - intros [Hz|Hz].
    + now rewrite (proj1 (binary64_zero_product _ _ Hz)).
    + now rewrite (proj2 (binary64_zero_product _ _ Hz)).
Qed.

Lemma SF64mul_comm (x y : spec_float) : SF64mul x y = SF64mul y x.
Proof.
  unfold SF64mul, SFmul.
  destruct x as [sx|sx| |sx mx ex], y as [sy|sy| |sy my ey];
    try reflexivity; try (now rewrite xorb_comm).
  now rewrite xorb_comm, Pos.mul_comm, Z.add_comm.
Qed.

Lemma binary64_mul_comm (x y : float) : PrimFloat.mul x y = PrimFloat.mul y x.
Proof.
  rewrite <- (FloatAxioms.SF2Prim_Prim2SF (PrimFloat.mul x y)).
  rewrite <- (FloatAxioms.SF2Prim_Prim2SF (PrimFloat.mul y x)).
  now rewrite !FloatAxioms.mul_spec, SF64mul_comm.
Qed.

Lemma binary64_products_comm (vec1 vec2 : list float) :
  map (fun ab : float * float => PrimFloat.mul ab.1 ab.2) (zip vec1 vec2) =
  map (fun ab : float * float => PrimFloat.mul ab.1 ab.2) (zip vec2 vec1).
Proof.
  revert vec2. induction vec1 as [|a vec1 IH]; intros [|b vec2]; simpl; try reflexivity.
  f_equal; [apply binary64_mul_comm|apply IH].
Qed.

(** ** Binary64 numbers: the order away from NaN *)

Lemma SFcompare_rank (x y : spec_float) :
  x <> S754_nan -> y <> S754_nan ->
  (SFltb x y = true <-> rank_lt (binary64_rank x) (binary64_rank y)) /\
  (SFeqb x y = true <-> binary64_rank x = binary64_rank y) /\
  (SFleb x y = true <-> ~ rank_lt (binary64_rank y) (binary64_rank x)).
Proof.
  intros Hx Hy. unfold SFltb, SFeqb, SFleb, rank_lt.
  destruct x as [sx|sx| |sx mx ex], y as [sy|sy| |sy my ey]; try congruence;
    try destruct sx; try destruct sy; simpl.
  all: try change (PosDef.Pos.compare_cont Eq mx my) with (Pos.compare mx my);
    try destruct (Z.compare_spec ex ey) as [->|Hlt|Hlt];
    try destruct (Pos.compare_spec mx my) as [->|Hm|Hm]; simpl.
  all: split; [|split]; split; intros H; try discriminate H; try reflexivity; try lia;
    try (inversion H; exfalso; lia); try congruence.
Qed.

Lemma binary64_not_nan (x : float) :
  PrimFloat.is_nan x = false <-> Prim2SF x <> S754_nan.
Proof.
  unfold PrimFloat.is_nan. rewrite FloatAxioms.eqb_spec. unfold SFeqb.
  destruct (Prim2SF x) as [s|s| |s m e]; simpl.
  - split; [discriminate|reflexivity].
  - destruct s; (split; [discriminate|reflexivity]).
  - split; [discriminate|congruence].
  - change (PosDef.Pos.compare_cont Eq m m) with (Pos.compare m m).
    destruct s; rewrite Z.compare_refl, Pos.compare_refl; simpl;
      (split; [discriminate|reflexivity]).
Qed.

(** Away from NaN, [<], [==] and [<=] on binary64 numbers are those of a
    total order with ties. *)
Lemma binary64_order (x y : float) :
  PrimFloat.is_nan x = false -> PrimFloat.is_nan y = false ->
  (PrimFloat.ltb x y = true <->
   rank_lt (binary64_rank (Prim2SF x)) (binary64_rank (Prim2SF y))) /\
  (PrimFloat.eqb x y = true <->
   binary64_rank (Prim2SF x) = binary64_rank (Prim2SF y)) /\
  (PrimFloat.leb x y = true <->
   ~ rank_lt (binary64_rank (Prim2SF y)) (binary64_rank (Prim2SF x))).
Proof.
  rewrite !binary64_not_nan, FloatAxioms.ltb_spec, FloatAxioms.eqb_spec,
    FloatAxioms.leb_spec.
  apply SFcompare_rank.
Qed.

Lemma binary64_ltb_false (x y : float) :
  PrimFloat.is_nan x = false -> PrimFloat.is_nan y = false ->
  (PrimFloat.ltb x y = false <->
   ~ rank_lt (binary64_rank (Prim2SF x)) (binary64_rank (Prim2SF y))).
Proof.
  intros Hx Hy. destruct (binary64_order x y Hx Hy) as (Hlt & _).
  rewrite <- Hlt. now rewrite not_true_iff_false.
Qed.

Lemma rank_lt_cases (p q : Z * Z * Z) : rank_lt p q \/ p = q \/ rank_lt q p.
Proof.
  destruct p as [[a b] c], q as [[a' b'] c']. unfold rank_lt. simpl.
  destruct (Z.lt_trichotomy a a') as [?|[->|?]]; [lia| |lia].
  destruct (Z.lt_trichotomy b b') as [?|[->|?]]; [lia| |lia].
  destruct (Z.lt_trichotomy c c') as [?|[->|?]]; [lia| |lia]. auto.
Qed.

Lemma binary64_ltb_asym (x y : float) :
  PrimFloat.is_nan x = false -> PrimFloat.is_nan y = false ->
  PrimFloat.ltb x y = true -> PrimFloat.ltb y x = false.
Proof.
  intros Hx Hy. rewrite (binary64_ltb_false y x Hy Hx).
  rewrite (proj1 (binary64_order x y Hx Hy)). unfold rank_lt. lia.
Qed.

Lemma binary64_ltb_negtrans (x y z : float) :
  PrimFloat.is_nan x = false -> PrimFloat.is_nan y = false -> PrimFloat.is_nan z = false ->
  PrimFloat.ltb x y = false -> PrimFloat.ltb y z = false -> PrimFloat.ltb x z = false.
Proof.
  intros Hx Hy Hz.
  rewrite (binary64_ltb_false x y Hx Hy), (binary64_ltb_false y z Hy Hz),
    (binary64_ltb_false x z Hx Hz).
  unfold rank_lt. lia.
Qed.

Lemma binary64_ltb_leb (x y : float) :
  PrimFloat.is_nan x = false -> PrimFloat.is_nan y = false ->
  PrimFloat.ltb x y = false <-> PrimFloat.leb y x = true.
Proof.
  intros Hx Hy. rewrite (binary64_ltb_false x y Hx Hy).
  now rewrite (proj2 (proj2 (binary64_order y x Hy Hx))).
Qed.

Lemma binary64_ltb_eqb (x y : float) :
  PrimFloat.is_nan x = false -> PrimFloat.is_nan y = false ->
  (PrimFloat.ltb x y = false /\ PrimFloat.ltb y x = false) <-> PrimFloat.eqb x y = true.
Proof.
  intros Hx Hy.
  rewrite (binary64_ltb_false x y Hx Hy), (binary64_ltb_false y x Hy Hx).
  rewrite (proj1 (proj2 (binary64_order x y Hx Hy))).
  split.
  - intros [H1 H2]. destruct (rank_lt_cases (binary64_rank (Prim2SF x))
                                (binary64_rank (Prim2SF y))) as [?|[?|?]]; tauto.
  - intros ->. unfold rank_lt. lia.
Qed.

(** ** Cosine similarity: symmetry and the similarity of a vector with
       itself *)




(** X1: what the function computes on some vectors, with the square
    root of the machine for [** 0.5].  The result is not confined to the
    numbers between -1 and 1 and changes when a vector is scaled: a
    similarity below 1 for a vector with itself, one above 1 for the same
    vector times 3, a 1 for vectors that are not parallel, a 0 where the
    squares underflow and NaN where they overflow. *)
Example cosine_similarity_binary64_values :
  cosine_similarity_binary64 pow_sqrt [1; 1]%float [1; 1]%float
    = Ok 0x1.ffffffffffffep-1%float /\
  cosine_similarity_binary64 pow_sqrt [3; 3]%float [3; 3]%float
    = Ok 0x1.0000000000001p+0%float /\
  cosine_similarity_binary64 pow_sqrt [1; 1]%float [3; 3]%float = Ok 1%float /\
  cosine_similarity_binary64 pow_sqrt [1; 1]%float [7; 7 + 0x1p-24]%float = Ok 1%float /\
  cosine_similarity_binary64 pow_sqrt [0x1p-600]%float [0x1p-600]%float = Ok 0%float /\
  cosine_similarity_binary64 pow_sqrt [0x1p600]%float [0x1p600]%float = Ok nan.
Proof. repeat split. Qed.

(** ** Sorting in reverse *)

Section sort_reverse_facts.
Context {A K : Type} (lt : K -> K -> bool) (key : A -> K).

(** The keys that [lt] orders: all of them over the reals, all but NaN
    among the binary64 numbers. *)
Context (ordered : K -> Prop).
Hypothesis lt_asym :
  forall x y, ordered x -> ordered y -> lt x y = true -> lt y x = false.
Hypothesis lt_negtrans :
  forall x y z, ordered x -> ordered y -> ordered z ->
    lt x y = false -> lt y z = false -> lt x z = false.

(** [x] may stand in front of [y]: its key is not smaller. *)
Let not_below (x y : A) : Prop := lt (key x) (key y) = false.

Lemma insert_reverse_Permutation (x : A) (l : list A) :
  insert_reverse lt key x l ≡ₚ x :: l.
Proof.
  induction l as [|y l IH]; simpl; [reflexivity|].
  destruct (lt (key x) (key y)); [|reflexivity].
  rewrite IH. apply Permutation_swap.
Qed.

Lemma sort_reverse_Permutation (l : list A) : sort_reverse lt key l ≡ₚ l.
Proof.
  induction l as [|x l IH]; simpl; [reflexivity|].
  fold (sort_reverse lt key l).
  now rewrite insert_reverse_Permutation, IH.
Qed.

Lemma insert_reverse_sorted (x : A) (l : list A) :
  ordered (key x) ->
  Forall (fun y => ordered (key y)) l ->
  StronglySorted not_below l -> StronglySorted not_below (insert_reverse lt key x l).
Proof.
  intros Hx. induction l as [|y l IH]; simpl; intros Hl Hs.
  - repeat constructor.
  - apply Forall_cons in Hl as [Hy Hl].
    apply StronglySorted_cons in Hs as [Hyl Hs].
    destruct (lt (key x) (key y)) eqn:Hxy.
    + apply StronglySorted_cons. split; [|auto].
      rewrite (insert_reverse_Permutation x l).
      constructor; [|assumption].
      now apply lt_asym.
    + apply StronglySorted_cons. split.
      * constructor; [assumption|].
        rewrite Forall_forall in Hyl, Hl |- *. intros z Hz.
        apply (lt_negtrans _ (key y)); auto. now apply Hyl.
      * apply StronglySorted_cons. now split.
Qed.

Lemma sort_reverse_sorted (l : list A) :
  Forall (fun y => ordered (key y)) l ->
  StronglySorted not_below (sort_reverse lt key l).
Proof.
  induction l as [|x l IH]; simpl; intros Hl.
  - constructor.
  - apply Forall_cons in Hl as [Hx Hl].
    fold (sort_reverse lt key l).
    apply insert_reverse_sorted; [assumption| |auto].
    now rewrite sort_reverse_Permutation.
Qed.

End sort_reverse_facts.

Lemma StronglySorted_weaken_elem_of {A : Type} (R R' : relation A) (l : list A) :
  (forall x y, x ∈ l -> y ∈ l -> R x y -> R' x y) ->
  StronglySorted R l -> StronglySorted R' l.
Proof.
  intros HR Hs. induction Hs as [|x l _ IH Hx]; constructor.
  - apply IH. intros y z Hy Hz. apply HR; now right.
  - rewrite Forall_forall in Hx |- *. intros y Hy.
    apply HR; [left|now right|now apply Hx].
Qed.

Lemma StronglySorted_take {A : Type} (R : relation A) (n : nat) (l : list A) :
  StronglySorted R l -> StronglySorted R (take n l).
Proof.
  intros Hs. rewrite <- (take_drop n l) in Hs.
  now apply StronglySorted_app_1_l in Hs.
Qed.

(** ** The retriever *)

Lemma cosine_similarity_similarity (vec1 vec2 : list R) :
  cosine_similarity vec1 vec2 = Ok (similarity vec1 vec2).
Proof.
  unfold similarity.
  destruct (cosine_similarity_returns vec1 vec2) as [s ->]. reflexivity.
Qed.

Lemma enumerate_fst {A : Type} (xs : list A) : (enumerate xs).*1 = seq 0 (length xs).
Proof. unfold enumerate. apply fst_zip. now rewrite length_seq. Qed.

Lemma enumerate_length {A : Type} (xs : list A) : length (enumerate xs) = length xs.
Proof. unfold enumerate. rewrite length_zip, length_seq. lia. Qed.

Lemma elem_of_enumerate {A : Type} (xs : list A) (i : nat) (x : A) :
  (i, x) ∈ enumerate xs -> xs !! i = Some x.
Proof.
  unfold enumerate. intros Hin.
  apply list_elem_of_lookup in Hin as [j Hj].
  apply lookup_zip_Some in Hj as [Hseq Hx].
  apply lookup_seq in Hseq as [-> _]. exact Hx.
Qed.

Lemma enumerate_elem_of {A : Type} (xs : list A) (i : nat) (x : A) :
  xs !! i = Some x -> (i, x) ∈ enumerate xs.
Proof.
  intros Hx. unfold enumerate. apply (list_elem_of_lookup_2 _ i).
  apply lookup_zip_Some. split; [|exact Hx].
  apply lookup_lt_Some in Hx. now rewrite lookup_seq_lt.
Qed.

Lemma enumerate_from_increasing {A : Type} (xs : list A) (start : nat) :
  StronglySorted (fun p p' : nat * A => p.1 < p'.1) (zip (seq start (length xs)) xs).
Proof.
  revert start. induction xs as [|x xs IH]; intros start; simpl.
  - constructor.
  - constructor; [apply IH|].
    apply Forall_forall. intros [i y] Hin. simpl.
    apply elem_of_zip_l, elem_of_seq in Hin. lia.
Qed.

Lemma StronglySorted_fmap_inv {A B : Type} (R : relation B) (f : A -> B) (l : list A) :
  StronglySorted R (f <$> l) -> StronglySorted (fun x y => R (f x) (f y)) l.
Proof.
  induction l as [|x l IH]; intros Hs; [constructor|].
  rewrite fmap_cons in Hs. apply StronglySorted_cons in Hs as [Hx Hl].
  constructor; [auto|]. rewrite Forall_fmap in Hx. exact Hx.
Qed.

(** ** The retriever on binary64 numbers *)

Lemma slice_to_take {A : Type} (xs : list A) (stop : Z) :
  slice_to xs stop = take (slice_count (length xs) stop) xs.
Proof. reflexivity. Qed.

Lemma cosine_similarity_binary64_similarity (pow : float -> float -> float)
  (vec1 vec2 : list float) :
  cosine_similarity_binary64 pow vec1 vec2 = Ok (similarity_binary64 pow vec1 vec2).
Proof.
  unfold similarity_binary64.
  destruct (proj1 (cosine_similarity_binary64_guard pow vec1 vec2)) as [s ->].
  reflexivity.
Qed.

(** The stable sort in descending order is one of the sorts the contract
    allows. *)
Lemma sort_reverse_sorts_in_reverse : sorts_in_reverse (sort_reverse PrimFloat.ltb snd).
Proof. intros l. split; [apply sort_reverse_Permutation|reflexivity]. Qed.

Lemma insert_reverse_ranks (x : nat * float) (l : list (nat * float)) :
  PrimFloat.is_nan x.2 = false ->
  Forall (fun y => PrimFloat.is_nan y.2 = false) l ->
  Forall (fun y => x.1 < y.1) l ->
  StronglySorted ranks_before_binary64 l ->
  StronglySorted ranks_before_binary64 (insert_reverse PrimFloat.ltb snd x l).
Proof.
  intros Hx. induction l as [|y l IH]; simpl; intros Hnan Hidx Hs.
  - repeat constructor.
  - apply Forall_cons in Hnan as [Hy Hnan]. apply Forall_cons in Hidx as [Hxy Hidx].
    apply StronglySorted_cons in Hs as [Hyl Hl].
    destruct (PrimFloat.ltb x.2 y.2) eqn:Hlt.
    + apply StronglySorted_cons. split; [|auto].
      rewrite (insert_reverse_Permutation _ snd x l).
      constructor; [now left|assumption].
    + apply StronglySorted_cons. split.
      * constructor.
        -- unfold ranks_before_binary64.
           destruct (PrimFloat.ltb y.2 x.2) eqn:Hgt; [now left|].
           right. split; [|exact Hxy]. now apply binary64_ltb_eqb.
        -- rewrite Forall_forall in Hyl, Hidx, Hnan |- *. intros z Hz.
           specialize (Hyl z Hz). specialize (Hidx z Hz). specialize (Hnan z Hz).
           unfold ranks_before_binary64 in *.
           destruct (PrimFloat.ltb z.2 x.2) eqn:Hzx; [now left|].
           right. split; [|exact Hidx]. apply binary64_ltb_eqb; [assumption..|].
           split; [|exact Hzx].
           apply (binary64_ltb_negtrans _ y.2); try assumption.
           destruct Hyl as [Hzy|[Heq _]].
           ++ now apply binary64_ltb_asym.
           ++ now apply (binary64_ltb_eqb y.2 z.2).
      * apply StronglySorted_cons. now split.
Qed.

Lemma sort_reverse_ranks (l : list (nat * float)) :
  Forall (fun y => PrimFloat.is_nan y.2 = false) l ->
  StronglySorted (fun p p' : nat * float => p.1 < p'.1) l ->
  StronglySorted ranks_before_binary64 (sort_reverse PrimFloat.ltb snd l).
Proof.
  intros Hnan Hs. induction Hs as [|x l _ IH Hx]; simpl.
  - constructor.
  - apply Forall_cons in Hnan as [Hnx Hnan].
    fold (sort_reverse PrimFloat.ltb snd l).
    apply insert_reverse_ranks; [assumption| | |auto].
    + now rewrite (sort_reverse_Permutation _ snd l).
    + now rewrite (sort_reverse_Permutation _ snd l).
Qed.

(** What [invoke] computes between the similarities and the documents:
    positions of the store with their scores, as sorted and cut at [k]. *)
Lemma ranked_positions (list_sort : list (nat * float) -> list (nat * float))
  (sims : list float) (k : Z) :
  sorts_in_reverse list_sort ->
  let ranked := slice_to (list_sort (enumerate sims)) k in
  Forall (fun p => sims !! p.1 = Some p.2) ranked /\
  NoDup ranked.*1 /\
  length ranked = slice_count (length sims) k /\
  (slice_count (length sims) k = length sims -> ranked.*1 ≡ₚ seq 0 (length sims)) /\
  (Forall (fun s => PrimFloat.is_nan s = false) sims ->
   StronglySorted (fun p p' : nat * float => PrimFloat.leb p'.2 p.2 = true) ranked /\
   StronglySorted ranks_before_binary64 ranked /\
   (forall i s, sims !! i = Some s -> i ∉ ranked.*1 ->
      Forall (fun p : nat * float => PrimFloat.leb s p.2 = true) ranked)).
Proof.
  intros Hsort ranked. subst ranked.
  destruct (Hsort (enumerate sims)) as [Hperm Hfixed].
  set (sorted := list_sort (enumerate sims)) in *.
  assert (Hfst : sorted.*1 ≡ₚ seq 0 (length sims)).
  { rewrite Hperm. now rewrite enumerate_fst. }
  assert (Hlen : length sorted = length sims).
  { rewrite Hperm. apply enumerate_length. }
  rewrite slice_to_take, Hlen.
  split; [|split; [|split; [|split]]].
  - apply Forall_take, Forall_forall. intros [i s] Hin. simpl.
    apply elem_of_enumerate. now rewrite <- Hperm.
  - rewrite fmap_take. eapply sublist_NoDup; [|apply sublist_take].
    rewrite Hfst. apply NoDup_seq.
  - rewrite length_take, Hlen. unfold slice_count.
    destruct (Z.ltb_spec k 0); lia.
  - intros Hall. rewrite take_ge by lia. exact Hfst.
  - intros Hnan.
    assert (Hnan' : Forall (fun p : nat * float => PrimFloat.is_nan p.2 = false)
                      (enumerate sims)).
    { apply Forall_forall. intros [i s] Hin. simpl.
      apply elem_of_enumerate in Hin. rewrite Forall_forall in Hnan.
      apply Hnan. now apply list_elem_of_lookup_2 in Hin. }
    assert (Hnan'' : Forall (fun p : nat * float => PrimFloat.is_nan p.2 = false) sorted)
      by now rewrite Hperm.
    assert (Hsorted : StronglySorted
              (fun p p' : nat * float => PrimFloat.ltb p.2 p'.2 = false) sorted).
    { rewrite (Hfixed Hnan').
      apply (sort_reverse_sorted PrimFloat.ltb snd
               (fun s => PrimFloat.is_nan s = false)
               binary64_ltb_asym binary64_ltb_negtrans (enumerate sims) Hnan'). }
    assert (Hleb : forall p p' : nat * float, p ∈ sorted -> p' ∈ sorted ->
              PrimFloat.ltb p.2 p'.2 = false -> PrimFloat.leb p'.2 p.2 = true).
    { rewrite Forall_forall in Hnan''. intros p p' Hp Hp'.
      apply binary64_ltb_leb; now apply Hnan''. }
    assert (Hprefix : forall p p' : nat * float,
              p ∈ take (slice_count (length sims) k) sorted ->
              p' ∈ drop (slice_count (length sims) k) sorted ->
              PrimFloat.leb p'.2 p.2 = true).
    { intros p p' Hp Hp'.
      apply Hleb;
        [rewrite <- (take_drop (slice_count (length sims) k) sorted);
         apply elem_of_app; now left
        |rewrite <- (take_drop (slice_count (length sims) k) sorted);
         apply elem_of_app; now right|].
      rewrite <- (take_drop (slice_count (length sims) k) sorted) in Hsorted.
      exact (StronglySorted_app_1_elem_of _ _ _ _ _ Hsorted Hp Hp'). }
    split; [|split].
    + apply StronglySorted_take.
      exact (StronglySorted_weaken_elem_of _ _ sorted Hleb Hsorted).
    + apply StronglySorted_take. rewrite (Hfixed Hnan').
      apply sort_reverse_ranks; [exact Hnan'|apply enumerate_from_increasing].
    + intros i s Hi Hout. apply Forall_forall. intros p Hp.
      apply enumerate_elem_of in Hi. rewrite <- Hperm in Hi.
      rewrite <- (take_drop (slice_count (length sims) k) sorted) in Hi.
      apply elem_of_app in Hi as [Hi|Hi].
      * exfalso. apply Hout.
        change i with (i, s).1. now apply list_elem_of_fmap_2.
      * exact (Hprefix p (i, s) Hp Hi).
Qed.

(** The documents found, with their positions and scores, when no
    embedding is without a text. *)
Lemma invoke_hits_binary64 (pow : float -> float -> float)
  (list_sort : list (nat * float) -> list (nat * float))
  (self : SimpleRetriever_binary64) (query : string) (query_embedding : list float) :
  let store := retriever_store_binary64 self in
  sorts_in_reverse list_sort ->
  length (store_embeddings_binary64 store) <= length (store_texts_binary64 store) ->
  embed_query_binary64 (store_embeddings_model_binary64 store) query = Ok query_embedding ->
  exists hits : list (nat * string * float),
    SimpleRetriever_invoke_binary64 pow list_sort self query
      = Ok (map (fun hit => {| page_content := hit.1.2 |}) hits) /\
    Forall (stored_at_binary64 pow store query_embedding) hits /\
    (fun hit : nat * string * float => (hit.1.1, hit.2)) <$> hits =
      slice_to
        (list_sort (enumerate (map (similarity_binary64 pow query_embedding)
                                 (store_embeddings_binary64 store))))
        (retriever_k_binary64 self).
Proof.
  intros store Hsort Hlen Hq.
  set (sims := map (similarity_binary64 pow query_embedding)
                 (store_embeddings_binary64 store)).
  set (ranked := slice_to (list_sort (enumerate sims)) (retriever_k_binary64 self)).
  set (text_at := fun i : nat => default "" (store_texts_binary64 store !! i)).
  destruct (ranked_positions list_sort sims (retriever_k_binary64 self) Hsort)
    as (Hat & _). fold ranked in Hat.
  rewrite Forall_forall in Hat.
  assert (Htext : forall p, p ∈ ranked ->
            store_texts_binary64 store !! p.1 = Some (text_at p.1) /\
            exists emb, store_embeddings_binary64 store !! p.1 = Some emb /\
                        similarity_binary64 pow query_embedding emb = p.2).
  { intros p Hp. specialize (Hat p Hp). unfold sims in Hat.
    change (map ?f ?l) with (f <$> l) in Hat. rewrite list_lookup_fmap in Hat.
    destruct (store_embeddings_binary64 store !! p.1) as [emb|] eqn:Hemb; [|discriminate].
    apply lookup_lt_Some in Hemb.
    destruct (lookup_lt_is_Some_2 (store_texts_binary64 store) p.1) as [t Ht]; [lia|].
    unfold text_at. rewrite Ht. split; [reflexivity|].
    exists emb. split; [reflexivity|]. simpl in Hat. congruence. }
  exists (map (fun p : nat * float => (p.1, text_at p.1, p.2)) ranked).
  split; [|split].
  - unfold SimpleRetriever_invoke_binary64. fold store. rewrite Hq. simpl.
    rewrite (comprehension_Ok _ (similarity_binary64 pow query_embedding))
      by (intros; apply cosine_similarity_binary64_similarity).
    simpl. fold sims. fold ranked.
    rewrite (comprehension_Ok _ (fun i => {| page_content := text_at i |})).
    + f_equal. now rewrite !map_map.
    + intros i Hi. apply list_elem_of_fmap in Hi as (p & -> & Hp).
      destruct (Htext p Hp) as [Ht _]. unfold getitem. now rewrite Ht.
  - apply Forall_fmap, Forall_forall. intros p Hp.
    destruct (Htext p Hp) as (Ht & emb & Hemb & Hs).
    split; [exact Ht|]. exists emb. split; [exact Hemb|].
    simpl. rewrite <- Hs. apply cosine_similarity_binary64_similarity.
  - change (?f <$> map ?g ?l) with (map f (map g l)).
    rewrite map_map. simpl. rewrite <- (map_id ranked) at 2.
    apply map_ext. now intros [i s].
Qed.

(** C1, as the code has it.  On a store with one embedding per text, and
    a query that the embedding client embeds, [invoke] with [0 <= k]
    returns min(k, n) documents, n the size of the store: exactly k when
    k <= n, and every stored document when k >= n.  The documents come
    from pairwise distinct positions of the store, and each carries the
    text stored at its position.  When none of the scores computed is
    NaN, the documents are in non-increasing order of the score computed
    in binary64 arithmetic for the query embedding and the embedding at
    their position, and no position left out has a greater score than one
    returned. *)
Theorem SimpleRetriever_invoke_binary64_top_k (pow : float -> float -> float)
  (list_sort : list (nat * float) -> list (nat * float))
  (self : SimpleRetriever_binary64) (query : string) (query_embedding : list float) :
  let store := retriever_store_binary64 self in
  let k := Z.to_nat (retriever_k_binary64 self) in
  let n := length (store_texts_binary64 store) in
  sorts_in_reverse list_sort ->
  length (store_embeddings_binary64 store) = n ->
  embed_query_binary64 (store_embeddings_model_binary64 store) query = Ok query_embedding ->
  (0 <= retriever_k_binary64 self)%Z ->
  exists hits : list (nat * string * float),
    SimpleRetriever_invoke_binary64 pow list_sort self query
      = Ok (map (fun hit => {| page_content := hit.1.2 |}) hits) /\
    Forall (stored_at_binary64 pow store query_embedding) hits /\
    NoDup (map (fun hit => hit.1.1) hits) /\
    length hits = Nat.min k n /\
    (k <= n -> length hits = k) /\
    (n <= k -> map (fun hit => hit.1.1) hits ≡ₚ seq 0 n) /\
    (Forall (fun emb => PrimFloat.is_nan (similarity_binary64 pow query_embedding emb) = false)
       (store_embeddings_binary64 store) ->
     StronglySorted
       (fun hit hit' : nat * string * float => PrimFloat.leb hit'.2 hit.2 = true) hits /\
     (forall i emb score,
        store_embeddings_binary64 store !! i = Some emb ->
        cosine_similarity_binary64 pow query_embedding emb = Ok score ->
        i ∉ map (fun hit => hit.1.1) hits ->
        Forall (fun hit : nat * string * float => PrimFloat.leb score hit.2 = true) hits)).
Proof.
  intros store k n Hsort Hn Hq Hk.
  destruct (invoke_hits_binary64 pow list_sort self query query_embedding Hsort)
    as (hits & Hrun & Hat & Hrank); [fold store; lia|exact Hq|].
  fold store in Hrun, Hat, Hrank.
  set (sims := map (similarity_binary64 pow query_embedding)
                 (store_embeddings_binary64 store)) in *.
  assert (Hsims : length sims = n) by (unfold sims; now rewrite length_map).
  destruct (ranked_positions list_sort sims (retriever_k_binary64 self) Hsort)
    as (_ & Hnodup & Hlen & Hall & Hordered).
  rewrite <- Hrank in Hnodup, Hlen, Hall, Hordered.
  assert (Hcount : slice_count n (retriever_k_binary64 self) = Nat.min k n).
  { unfold slice_count, k. destruct (Z.ltb_spec (retriever_k_binary64 self) 0); lia. }
  assert (Hfst : ((fun hit : nat * string * float => (hit.1.1, hit.2)) <$> hits).*1
                 = map (fun hit => hit.1.1) hits).
  { change (?f <$> (?g <$> ?l)) with (map f (map g l)). now rewrite map_map. }
  rewrite Hfst in Hnodup, Hall, Hordered.
  rewrite length_fmap, Hsims, Hcount in Hlen. rewrite Hsims, Hcount in Hall.
  exists hits. split; [exact Hrun|]. split; [exact Hat|]. split; [exact Hnodup|].
  split; [exact Hlen|]. split; [lia|]. split; [intros Hge; apply Hall; lia|].
  intros Hnan.
  destruct Hordered as (Hsorted & _ & Hbest).
  { unfold sims. now apply Forall_fmap. }
  split.
  - exact (StronglySorted_fmap_inv _ _ hits Hsorted).
  - intros i emb score Hemb Hscore Hout.
    rewrite cosine_similarity_binary64_similarity in Hscore. injection Hscore as <-.
    assert (Hi : sims !! i = Some (similarity_binary64 pow query_embedding emb)).
    { unfold sims. change (map ?f ?l) with (f <$> l).
      now rewrite list_lookup_fmap, Hemb. }
    pose proof (Hbest i _ Hi Hout) as Hb. apply Forall_fmap in Hb. exact Hb.
Qed.

Lemma SimpleRetriever_invoke_binary64_top_k_witness :
  exists hits : list (nat * string * float),
    SimpleRetriever_invoke_binary64 pow_sqrt (sort_reverse PrimFloat.ltb snd)
      {| retriever_store_binary64 := tiny_store; retriever_k_binary64 := 2 |} "query"
      = Ok (map (fun hit => {| page_content := hit.1.2 |}) hits) /\
    Forall (stored_at_binary64 pow_sqrt tiny_store [1; 0]%float) hits /\
    NoDup (map (fun hit => hit.1.1) hits) /\
    length hits = 2 /\
    StronglySorted
      (fun hit hit' : nat * string * float => PrimFloat.leb hit'.2 hit.2 = true) hits.
Proof.
  destruct (SimpleRetriever_invoke_binary64_top_k pow_sqrt (sort_reverse PrimFloat.ltb snd)
              {| retriever_store_binary64 := tiny_store; retriever_k_binary64 := 2 |}
              "query" [1; 0]%float sort_reverse_sorts_in_reverse eq_refl eq_refl)
    as (hits & Hrun & Hat & Hnodup & Hlen & _ & _ & Hordered).
  { simpl. lia. }
  exists hits. repeat (split; [assumption|]).
  apply Hordered. repeat constructor.
Defined.

(** The real numbers the components of the examples stand for. *)
Ltac binary64_value x :=
  let sf := eval vm_compute in (Prim2SF x) in
  lazymatch sf with
  | S754_finite ?s ?m ?e =>
      let z := eval vm_compute in (if s then Z.neg m else Z.pos m) in
      let d := eval vm_compute in (2 ^ (- e))%Z in
      change (binary64_to_R x) with (IZR z * / IZR d)%R
  end.

Lemma similarity_diagonal (a b : R) :
  a <> b -> (similarity [1; 1] [a; b] < 1)%R.
Proof.
  intros Hab. unfold similarity, cosine_similarity, truediv, pow_half, py_sum. simpl.
  set (num := (0 + 1 * a + 1 * b)%R).
  set (norm1 := sqrt (0 + 1 * 1 + 1 * 1)).
  set (norm2 := sqrt (0 + a * a + b * b)).
  assert (Hlt : (0 < norm1 * norm2 -> num < norm1 * norm2)%R).
  { intros Hpos. destruct (Rle_lt_dec num 0) as [Hneg|Hnum]; [lra|].
    unfold norm1, norm2. rewrite <- sqrt_mult by nra.
    rewrite <- (sqrt_square num) by lra.
    assert (Hsq : (0 < (a - b) * (a - b))%R) by (apply Rsqr_pos_lt; lra).
    assert (Heq : ((0 + 1 * 1 + 1 * 1) * (0 + a * a + b * b) - num * num
                   = (a - b) * (a - b))%R) by (unfold num; ring).
    apply sqrt_lt_1; [nra|nra|].
    apply Rlt_0_minus. now rewrite Heq. }
  case_bool_decide as Hpos; [|lra].
  destruct (Req_dec_T _ 0) as [Hz|Hnz]; [lra|].
  apply (Rmult_lt_reg_r (norm1 * norm2)); [exact Hpos|].
  unfold Rdiv. rewrite Rmult_assoc, Rinv_l by exact Hnz.
  specialize (Hlt Hpos). lra.
Qed.

(** C1 as the specification words it fails.  The store holds
    [[7.0, 7.0 + 2 ** -24]] and [[1.0, 1.0]] and the query is embedded as
    [[1.0, 1.0]]: the second embedding is parallel to the query and the
    first is not, so that the cosine similarity of the second is 1 and
    that of the first is less.  In binary64 arithmetic the first scores
    1.0 and the second 0.9999999999999998, and [invoke] returns the first
    in front. *)
Lemma SimpleRetriever_invoke_cosine_order_counterexample :
  SimpleRetriever_invoke_binary64 pow_sqrt (sort_reverse PrimFloat.ltb snd)
    {| retriever_store_binary64 := close_store; retriever_k_binary64 := 2 |} "query"
  = Ok [{| page_content := "slanted" |}; {| page_content := "parallel" |}] /\
  (similarity (map binary64_to_R [1; 1]%float) (map binary64_to_R [7; 7 + 0x1p-24]%float)
   < similarity (map binary64_to_R [1; 1]%float) (map binary64_to_R [1; 1]%float))%R.
Proof.
  split; [reflexivity|].
  cbn [map].
  binary64_value 1%float. binary64_value 7%float. binary64_value (7 + 0x1p-24)%float.
  replace (IZR 4503599627370496 * / IZR 4503599627370496)%R with 1%R by lra.
  unfold similarity at 2. rewrite cosine_similarity_self by (left; lra).
  apply similarity_diagonal. lra.
Qed.

(** The scores behind this, and the same on a store with an embedding
    whose squares underflow: that one is parallel to the query and scores
    0, behind an embedding that is not. *)
Example SimpleRetriever_invoke_binary64_examples :
  map (similarity_binary64 pow_sqrt [1; 1]%float) (store_embeddings_binary64 close_store)
    = [1; 0x1.ffffffffffffep-1]%float /\
  map (similarity_binary64 pow_sqrt [1; 0]%float) (store_embeddings_binary64 tiny_store)
    = [0; 0x1.6a09e667f3bccp-1; 0]%float /\
  SimpleRetriever_invoke_binary64 pow_sqrt (sort_reverse PrimFloat.ltb snd)
    {| retriever_store_binary64 := tiny_store; retriever_k_binary64 := 2 |} "query"
  = Ok [{| page_content := "diagonal" |}; {| page_content := "tiny" |}].
Proof. repeat split. Qed.

(** ** Providers *)

Lemma yield_contents_filter (chunks : list BaseMessage) :
  yield_contents chunks = filter (fun s => s <> "") (content <$> chunks).
Proof.
  induction chunks as [|chunk chunks IH]; simpl; [reflexivity|].
  unfold truthy_str, filter. simpl.
  destruct (String.eqb_spec (content chunk) "") as [Heq|Hne]; simpl.
  - rewrite decide_False by (intros H; now apply H).
    exact IH.
  - rewrite decide_True by assumption. now rewrite IH.
Qed.

(** Every method starts by reading the receiver. *)
Ltac run_method Hself :=
  unfold mbind, M_bind, mret, M_ret, deref, raise; simpl;
  rewrite ?Hself; simpl.

Ltac by_variant v inst Hclass :=
  destruct v, inst; try discriminate Hclass; simpl in *.

(** What [invoke] sends for a bare string and what it hands back. *)
Lemma invoke_str_request (v : Variant) (B : Backend) (self : nat) (s : string)
  (w : World) (inst : Instance) :
  heap w !! self = Some inst ->
  class_of inst = Some v ->
  invoke_of v B self (PromptStr s) w =
    (content <$> llm_invoke B (calls w) (client_of inst) [HumanMessage s],
     log_call (InvokeRequest (client_of inst) [HumanMessage s]) w).
Proof.
  intros Hself Hclass. by_variant v inst Hclass.
  - unfold OllamaProvider_invoke, as_ollama, client_invoke. run_method Hself.
    destruct (llm_invoke B (calls w) _ _); reflexivity.
  - unfold OpenAIProvider_invoke, as_openai, client_invoke. run_method Hself.
    destruct (llm_invoke B (calls w) _ _); reflexivity.
  - unfold GeminiProvider_invoke, as_gemini, client_invoke. run_method Hself.
    destruct (llm_invoke B (calls w) _ _); reflexivity.
Qed.

(** C5: for each of the three classes, [invoke] on a string [s] and
    [invoke] on the one-message sequence [[HumanMessage(content=s)]] are
    the same computation: from every state of the process they end with
    the same result and the same log of requests.  The string is wrapped
    before the call on the client: the request the client gets is the
    one-message sequence. *)
Theorem invoke_str_equiv_single_human_message (v : Variant) (B : Backend)
  (self : nat) (s : string) (w : World) :
  invoke_of v B self (PromptStr s) w =
  invoke_of v B self (PromptMessages [HumanMessage s]) w /\
  wrap_str (PromptStr s) = [HumanMessage s] /\
  (forall inst : Instance,
     heap w !! self = Some inst ->
     class_of inst = Some v ->
     invoke_of v B self (PromptStr s) w =
       (content <$> llm_invoke B (calls w) (client_of inst) [HumanMessage s],
        log_call (InvokeRequest (client_of inst) [HumanMessage s]) w)).
Proof.
  split; [destruct v; reflexivity|].
  split; [reflexivity|].
  intros inst. apply invoke_str_request.
Qed.

Lemma invoke_str_equiv_single_human_message_witness :
  invoke_of Gemini stub_backend 2 (PromptStr "hi") stub_world =
    (Ok "Hello",
     log_call (InvokeRequest (GeminiClient (GeminiProvider._llm stub_gemini))
                 [HumanMessage "hi"]) stub_world).
Proof.
  apply (proj2 (proj2
    (invoke_str_equiv_single_human_message Gemini stub_backend 2 "hi" stub_world))
    (GeminiInst stub_gemini)).
  - reflexivity.
  - reflexivity.
Defined.

(** C6: for each of the three classes, [batch] on N prompts sends the
    client one batch request with N one-message conversations,
    [[HumanMessage(content=p)]] for each prompt [p], in the order of the
    prompts.  When the client answers with one response per input, [batch]
    returns N texts, the i-th being the content of the i-th response. *)
Theorem batch_in_input_order (v : Variant) (B : Backend) (self : nat)
  (prompts : list string) (w : World) (inst : Instance)
  (responses : list BaseMessage) :
  let inputs := map (fun p => [HumanMessage p]) prompts in
  heap w !! self = Some inst ->
  class_of inst = Some v ->
  llm_batch B (calls w) (client_of inst) inputs = Ok responses ->
  length responses = length prompts ->
  exists texts : list string,
    batch_of v B self prompts w =
      (Ok texts, log_call (BatchRequest (client_of inst) inputs) w) /\
    length inputs = length prompts /\
    (forall i p, prompts !! i = Some p -> inputs !! i = Some [HumanMessage p]) /\
    length texts = length prompts /\
    (forall i r, responses !! i = Some r -> texts !! i = Some (content r)).
Proof.
  intros inputs Hself Hclass Hbatch Hlen.
  exists (map content responses).
  assert (Hrun : batch_of v B self prompts w =
                 (Ok (map content responses),
                  log_call (BatchRequest (client_of inst) inputs) w)).
  { by_variant v inst Hclass.
    - unfold OllamaProvider_batch, as_ollama, client_batch. run_method Hself.
      fold inputs. now rewrite Hbatch.
    - unfold OpenAIProvider_batch, as_openai, client_batch. run_method Hself.
      fold inputs. now rewrite Hbatch.
    - unfold GeminiProvider_batch, as_gemini, client_batch. run_method Hself.
      fold inputs. now rewrite Hbatch. }
  repeat split.
  - exact Hrun.
  - unfold inputs. now rewrite length_map.
  - intros i p Hp. unfold inputs.
    change (map ?f ?l) with (f <$> l). now rewrite list_lookup_fmap, Hp.
  - now rewrite length_map.
  - intros i r Hr.
    change (map ?f ?l) with (f <$> l). now rewrite list_lookup_fmap, Hr.
Qed.

Lemma batch_in_input_order_witness :
  exists texts : list string,
    batch_of OpenAI stub_backend 1 ["one"; "two"; "three"] stub_world =
      (Ok texts,
       log_call (BatchRequest (client_of (OpenAIInst stub_openai))
                   [[HumanMessage "one"]; [HumanMessage "two"]; [HumanMessage "three"]])
         stub_world) /\
    length [[HumanMessage "one"]; [HumanMessage "two"]; [HumanMessage "three"]] = 3 /\
    (forall i p, ["one"; "two"; "three"] !! i = Some p ->
       [[HumanMessage "one"]; [HumanMessage "two"]; [HumanMessage "three"]] !! i
         = Some [HumanMessage p]) /\
    length texts = 3 /\
    (forall i r, [ai_message "one"; ai_message "two"; ai_message "three"] !! i = Some r ->
       texts !! i = Some (content r)).
Proof.
  apply (batch_in_input_order OpenAI stub_backend 1 ["one"; "two"; "three"] stub_world
           (OpenAIInst stub_openai)
           [ai_message "one"; ai_message "two"; ai_message "three"]).
  - reflexivity.
  - reflexivity.
  - reflexivity.
  - reflexivity.
Defined.

(** C8: for each of the three classes, [stream] yields the contents of the
    chunks the client's stream produces, in their order, leaving out the
    empty ones, and ends as the client's stream ends.  Over a client that
    streams ["He"] and ["llo"], it yields those two fragments in order, and
    joined they read ["Hello"]. *)
Theorem stream_yields_nonempty_fragments (v : Variant) (B : Backend) (self : nat)
  (prompt : Prompt) (w : World) (inst : Instance) :
  let chunks := llm_stream B (calls w) (client_of inst) (wrap_str prompt) in
  let fragments := filter (fun s => s <> "") (content <$> yields chunks) in
  heap w !! self = Some inst ->
  class_of inst = Some v ->
  stream_of v B self prompt w =
    (Ok {| yields := fragments; raises := raises chunks |},
     log_call (StreamRequest (client_of inst) (wrap_str prompt)) w) /\
  (content <$> yields chunks = ["He"; "llo"] ->
   fragments = ["He"; "llo"] /\ String.concat "" fragments = "Hello").
Proof.
  intros chunks fragments Hself Hclass. split.
  - unfold fragments. rewrite <- yield_contents_filter. subst chunks.
    by_variant v inst Hclass.
    + unfold OllamaProvider_stream, as_ollama, client_stream. now run_method Hself.
    + unfold OpenAIProvider_stream, as_openai, client_stream. now run_method Hself.
    + unfold GeminiProvider_stream, as_gemini, client_stream. now run_method Hself.
  - intros Hstub. unfold fragments. rewrite Hstub. split; reflexivity.
Qed.

Lemma stream_yields_nonempty_fragments_witness :
  stream_of Ollama stub_backend 0 (PromptStr "hi") stub_world =
    (Ok {| yields := ["He"; "llo"]; raises := None |},
     log_call (StreamRequest (OllamaClient (OllamaProvider._llm stub_ollama))
                 [HumanMessage "hi"]) stub_world) /\
  String.concat "" ["He"; "llo"] = "Hello".
Proof.
  pose proof (stream_yields_nonempty_fragments Ollama stub_backend 0 (PromptStr "hi")
                stub_world (OllamaInst stub_ollama) eq_refl eq_refl) as [Hrun Hstub].
  split.
  - exact Hrun.
  - apply Hstub. reflexivity.
Defined.

(** Empty fragments are left out. *)
Example yield_contents_drops_empty :
  yield_contents [ai_message "He"; ai_message ""; ai_message "llo"; ai_message ""]
  = ["He"; "llo"].
Proof. reflexivity. Qed.

(** *** [update_parameters] *)

Lemma update_parameters_dispatch (K : ClientCheck) (v : Variant) (self : nat)
  (temperature top_p : option float) (max_tokens : option Z) (w : World)
  (inst : Instance) :
  heap w !! self = Some inst ->
  class_of inst = Some v ->
  update_parameters K self temperature top_p max_tokens w =
  update_parameters_of v K self temperature top_p max_tokens w.
Proof.
  intros Hself Hclass. unfold update_parameters.
  by_variant v inst Hclass; run_method Hself; reflexivity.
Qed.

(** What the three overriding methods do: read the receiver, call the
    constructor of its class on its attributes and the arguments, and,
    when the client's constructor accepts them, put the new instance at a
    fresh address. *)
Lemma update_parameters_run (K : ClientCheck) (v : Variant) (self : nat)
  (temperature top_p : option float) (max_tokens : option Z) (w : World)
  (inst : Instance) :
  receiver_of v w self inst ->
  let inst' := updated_instance inst temperature top_p max_tokens in
  let self' := fresh (dom (heap w)) in
  let w' := {| heap := <[self' := inst']> (heap w);
               environ := environ w; calls := calls w |} in
  update_parameters K self temperature top_p max_tokens w =
    update_parameters_of v K self temperature top_p max_tokens w /\
  update_parameters_of v K self temperature top_p max_tokens w =
    match K (client_of inst') (environ w) with
    | None => (Ok self', w')
    | Some e => (Raise e, w)
    end /\
  receiver_of v w' self' inst' /\
  heap w !! self' = None /\
  self' <> self.
Proof.
  intros [Hself Hclass] inst' self' w'.
  assert (Hfresh : heap w !! self' = None) by apply not_elem_of_dom, is_fresh.
  split; [exact (update_parameters_dispatch K v self _ _ _ w inst Hself Hclass)|].
  split.
  { subst inst' self' w'. by_variant v inst Hclass.
    - unfold OllamaProvider_update_parameters, OllamaProvider_new, as_ollama,
        construct_client.
      run_method Hself. now destruct (K _ _).
    - unfold OpenAIProvider_update_parameters, OpenAIProvider_new, as_openai,
        construct_client.
      run_method Hself. now destruct (K _ _).
    - unfold GeminiProvider_update_parameters, GeminiProvider_new, as_gemini,
        construct_client.
      run_method Hself. now destruct (K _ _). }
  repeat split; try assumption.
  - apply lookup_insert_eq.
  - subst inst'. by_variant v inst Hclass; reflexivity.
  - intros Heq. congruence.
Qed.

Lemma configuration_updated (v : Variant) (inst : Instance) (c : Configuration)
  (temperature top_p : option float) (max_tokens : option Z) :
  class_of inst = Some v ->
  configuration inst = Some c ->
  configuration (updated_instance inst temperature top_p max_tokens) =
    Some {| cfg_model := cfg_model c;
            cfg_endpoint := cfg_endpoint c;
            cfg_api_key := cfg_api_key c;
            cfg_temperature := if_not_None temperature (cfg_temperature c);
            cfg_top_p := if_not_None top_p (cfg_top_p c);
            cfg_max_tokens :=
              match max_tokens with
              | Some n => Some n
              | None => cfg_max_tokens c
              end |}.
Proof.
  intros Hclass Hc. by_variant v inst Hclass; injection Hc as <-; reflexivity.
Qed.

(** C2: for each of the three classes, [update_parameters] calls the
    constructor of the receiver's class with the receiver's attributes,
    each replaced by the argument that was given for it.  When the
    client's constructor accepts these, [update_parameters] returns an
    instance of the same class at an address that held no object before,
    so not the receiver.  In the new instance every argument that was
    given has the given value, and every parameter without an argument,
    like the model name, the endpoint and the API key, has the receiver's
    value.  The receiver and every other object are as they were, nothing
    is sent to the backend, and with no argument at all the new instance
    shows the receiver's configuration.  When the client's constructor
    refuses them, [update_parameters] raises the constructor's error and
    everything, the receiver included, is as it was. *)
Theorem update_parameters_new_instance (K : ClientCheck) (v : Variant) (self : nat)
  (temperature top_p : option float) (max_tokens : option Z) (w : World)
  (inst : Instance) (c : Configuration) :
  heap w !! self = Some inst ->
  class_of inst = Some v ->
  configuration inst = Some c ->
  let llm' := client_of (updated_instance inst temperature top_p max_tokens) in
  (K llm' (environ w) = None ->
   exists (self' : nat) (inst' : Instance) (c' : Configuration) (w' : World),
     update_parameters K self temperature top_p max_tokens w = (Ok self', w') /\
     update_parameters_of v K self temperature top_p max_tokens w = (Ok self', w') /\
     (self' <> self /\ heap w !! self' = None /\ heap w' !! self' = Some inst' /\
      class_of inst' = Some v /\ configuration inst' = Some c' /\
      client_of inst' = llm') /\
     ((forall x, temperature = Some x -> cfg_temperature c' = x) /\
      (forall x, top_p = Some x -> cfg_top_p c' = x) /\
      (forall n, max_tokens = Some n -> cfg_max_tokens c' = Some n)) /\
     ((temperature = None -> cfg_temperature c' = cfg_temperature c) /\
      (top_p = None -> cfg_top_p c' = cfg_top_p c) /\
      (max_tokens = None -> cfg_max_tokens c' = cfg_max_tokens c) /\
      cfg_model c' = cfg_model c /\
      cfg_endpoint c' = cfg_endpoint c /\
      cfg_api_key c' = cfg_api_key c) /\
     (heap w' !! self = Some inst /\
      (forall other, other <> self' -> heap w' !! other = heap w !! other) /\
      environ w' = environ w /\
      calls w' = calls w) /\
     (temperature = None -> top_p = None -> max_tokens = None -> c' = c)) /\
  (forall e : PyError,
     K llm' (environ w) = Some e ->
     update_parameters K self temperature top_p max_tokens w = (Raise e, w) /\
     update_parameters_of v K self temperature top_p max_tokens w = (Raise e, w)).
Proof.
  intros Hself Hclass Hc llm'.
  destruct (update_parameters_run K v self temperature top_p max_tokens w inst
              (conj Hself Hclass)) as (Hdispatch & Hrun & [Hself' Hclass'] & Hfresh & Hne).
  fold llm' in Hrun.
  pose proof (configuration_updated v inst c temperature top_p max_tokens Hclass Hc)
    as Hc'.
  split.
  - intros Haccept. rewrite Haccept in Hrun.
    eexists _, _, _, _.
    split; [rewrite Hdispatch; exact Hrun|].
    split; [exact Hrun|].
    split; [repeat split; try eassumption; reflexivity|].
    split; [simpl; repeat split; intros x ->; reflexivity|].
    split; [simpl; repeat split; try reflexivity; intros ->; reflexivity|].
    split.
    + simpl. repeat split.
      * rewrite lookup_insert_ne by exact Hne. exact Hself.
      * intros other Hother. now rewrite lookup_insert_ne by congruence.
    + intros -> -> ->. simpl. now destruct c.
  - intros e Hrefuse. rewrite Hrefuse in Hrun.
    split; [rewrite Hdispatch|]; exact Hrun.
Qed.

Lemma update_parameters_new_instance_witness :
  exists (self' : nat) (inst' : Instance) (c' : Configuration) (w' : World),
    update_parameters stub_client_check 1 (Some 0.25%float) None None stub_world
      = (Ok self', w') /\
    update_parameters_of OpenAI stub_client_check 1 (Some 0.25%float) None None stub_world
      = (Ok self', w') /\
    (self' <> 1 /\ heap stub_world !! self' = None /\ heap w' !! self' = Some inst' /\
     class_of inst' = Some OpenAI /\ configuration inst' = Some c' /\
     client_of inst' =
       client_of (updated_instance (OpenAIInst stub_openai) (Some 0.25%float) None None)) /\
    ((forall x, Some 0.25%float = Some x -> cfg_temperature c' = x) /\
     (forall x, None = Some x -> cfg_top_p c' = x) /\
     (forall n, None = Some n -> cfg_max_tokens c' = Some n)) /\
    ((Some 0.25%float = None -> cfg_temperature c' = 0.5%float) /\
     (@None float = None -> cfg_top_p c' = 1%float) /\
     (@None Z = None -> cfg_max_tokens c' = Some 64%Z) /\
     cfg_model c' = "gpt-4o-mini" /\
     cfg_endpoint c' = None /\
     cfg_api_key c' = Some "sk-test") /\
    (heap w' !! 1 = Some (OpenAIInst stub_openai) /\
     (forall other, other <> self' -> heap w' !! other = heap stub_world !! other) /\
     environ w' = environ stub_world /\
     calls w' = calls stub_world) /\
    (Some 0.25%float = None -> @None float = None -> @None Z = None ->
     c' = {| cfg_model := "gpt-4o-mini";
             cfg_endpoint := None;
             cfg_api_key := Some "sk-test";
             cfg_temperature := 0.5%float;
             cfg_top_p := 1%float;
             cfg_max_tokens := Some 64%Z |}).
Proof.
  exact (proj1 (update_parameters_new_instance stub_client_check OpenAI 1
                  (Some 0.25%float) None None stub_world (OpenAIInst stub_openai) _
                  eq_refl eq_refl eq_refl) eq_refl).
Defined.

(** A temperature the client's constructor refuses: nothing is returned
    and nothing has changed. *)
Example update_parameters_refused :
  update_parameters stub_client_check 2 (Some 5%float) None None stub_world =
    (Raise (ValidationError "temperature must be in the range [0.0, 2.0]"), stub_world).
Proof. reflexivity. Qed.

(** C10: the default [LLMProvider.update_parameters] returns the receiver,
    the very address it was called on, whatever the arguments, and
    changes nothing: no object is created.  So [update_parameters] on an
    instance of a subclass that does not override it returns that same
    instance. *)
Theorem LLMProvider_update_parameters_returns_self (K : ClientCheck) (self : nat)
  (temperature top_p : option float) (max_tokens : option Z) (w : World) :
  LLMProvider_update_parameters self temperature top_p max_tokens w = (Ok self, w) /\
  (forall (class_name : string) (llm : BaseChatModel),
     heap w !! self = Some (InheritingInst class_name llm) ->
     update_parameters K self temperature top_p max_tokens w = (Ok self, w)).
Proof.
  split; [reflexivity|].
  intros class_name llm Hself. unfold update_parameters.
  run_method Hself. reflexivity.
Qed.

Lemma LLMProvider_update_parameters_returns_self_witness :
  update_parameters stub_client_check 3 (Some 0.25%float) (Some 0.5%float) (Some 100%Z)
    stub_world
  = (Ok 3, stub_world).
Proof.
  apply (proj2 (LLMProvider_update_parameters_returns_self stub_client_check 3
                  (Some 0.25%float) (Some 0.5%float) (Some 100%Z) stub_world)
           "EchoProvider" (OllamaClient (OllamaProvider._llm stub_ollama))).
  reflexivity.
Defined.

(** ** Configuration *)

Lemma provider_validate_spec (value : string) :
  (value ∈ provider_literal -> provider_validate value = Ok value) /\
  (value ∉ provider_literal -> exists msg, provider_validate value = Raise (ValidationError msg)).
Proof.
  unfold provider_validate. split; intros H.
  - now rewrite bool_decide_eq_true_2.
  - rewrite bool_decide_eq_false_2 by assumption. eauto.
Qed.

Lemma provider_literal_cases (value : string) :
  value ∉ provider_literal <->
  String.eqb value "ollama" = false /\ String.eqb value "openai" = false /\
  String.eqb value "gemini" = false.
Proof.
  unfold provider_literal. rewrite !not_elem_of_cons, !String.eqb_neq.
  split; [intros (? & ? & ? & _); auto | intros (? & ? & ?); repeat split; auto].
  apply not_elem_of_nil.
Qed.

Lemma create_provider_run (K : ClientCheck) (config : LLMConfig.t) (w : World) :
  LLMConfig_create_provider K config w =
    match created_instance config (environ w) with
    | Some inst =>
        match K (client_of inst) (environ w) with
        | None => new inst w
        | Some e => (Raise e, w)
        end
    | None => (Raise (ValueError ("Unknown provider: " ++ LLMConfig.provider config)), w)
    end.
Proof.
  unfold LLMConfig_create_provider, created_instance.
  destruct (String.eqb _ "ollama").
  { unfold OllamaProvider_new, construct_client. run_method I. now destruct (K _ _). }
  destruct (String.eqb _ "openai").
  { unfold LLMConfig_get_openai_config, OpenAIProvider_new, construct_client, py_or.
    destruct (truthy_opt_str (LLMConfig.openai_api_key config));
      run_method I; now destruct (K _ _). }
  destruct (String.eqb _ "gemini"); [|reflexivity].
  unfold LLMConfig_get_gemini_config, GeminiProvider_new, construct_client, py_or.
  destruct (truthy_opt_str (LLMConfig.gemini_api_key config));
    run_method I; now destruct (K _ _).
Qed.

Lemma created_instance_class (config : LLMConfig.t) (env : gmap string string)
  (inst : Instance) :
  created_instance config env = Some inst ->
  exists v, class_of inst = Some v /\ LLMConfig.provider config = variant_name v.
Proof.
  unfold created_instance.
  destruct (String.eqb_spec (LLMConfig.provider config) "ollama") as [->|_].
  { intros [= <-]. now exists Ollama. }
  destruct (String.eqb_spec (LLMConfig.provider config) "openai") as [->|_].
  { intros [= <-]. now exists OpenAI. }
  destruct (String.eqb_spec (LLMConfig.provider config) "gemini") as [->|_].
  { intros [= <-]. now exists Gemini. }
  discriminate.
Qed.

Lemma created_instance_known (config : LLMConfig.t) (env : gmap string string) :
  LLMConfig.provider config ∈ provider_literal ->
  is_Some (created_instance config env).
Proof.
  unfold provider_literal, created_instance. intros Hin.
  apply elem_of_cons in Hin as [->|Hin]; [simpl; eauto|].
  apply elem_of_cons in Hin as [->|Hin]; [simpl; eauto|].
  apply list_elem_of_singleton in Hin as ->. simpl; eauto.
Qed.

(** C4: when the selector is none of ["ollama"], ["openai"], ["gemini"],
    [create_provider] raises [ValueError] and leaves the process as it
    was: no constructor has been called, no instance created and no
    request sent.  For each of the three values it calls the constructor
    of the class of that name on the fields for that provider.  When the
    client's constructor accepts them, [create_provider] returns the new
    instance, at an address that held no object before, and sends no
    request; when it refuses them, for want of a key for instance,
    [create_provider] raises the constructor's error and the process is
    as it was. *)
Theorem create_provider_selector (K : ClientCheck) (self : LLMConfig.t) (w : World) :
  (LLMConfig.provider self ∉ provider_literal ->
   LLMConfig_create_provider K self w =
     (Raise (ValueError ("Unknown provider: " ++ LLMConfig.provider self)), w)) /\
  (LLMConfig.provider self ∈ provider_literal ->
   exists (inst : Instance) (c : Configuration),
     created_instance self (environ w) = Some inst /\
     configuration inst = Some c /\
     (LLMConfig.provider self = "ollama" ->
      class_of inst = Some Ollama /\ cfg_model c = LLMConfig.ollama_model self) /\
     (LLMConfig.provider self = "openai" ->
      class_of inst = Some OpenAI /\ cfg_model c = LLMConfig.openai_model self) /\
     (LLMConfig.provider self = "gemini" ->
      class_of inst = Some Gemini /\ cfg_model c = LLMConfig.gemini_model self) /\
     (K (client_of inst) (environ w) = None ->
      exists addr : nat,
        LLMConfig_create_provider K self w =
          (Ok addr,
           {| heap := <[addr := inst]> (heap w);
              environ := environ w; calls := calls w |}) /\
        heap w !! addr = None) /\
     (forall e : PyError,
        K (client_of inst) (environ w) = Some e ->
        LLMConfig_create_provider K self w = (Raise e, w))).
Proof.
  split.
  - intros Hunknown. apply provider_literal_cases in Hunknown as (H1 & H2 & H3).
    unfold LLMConfig_create_provider. now rewrite H1, H2, H3.
  - intros Hknown. rewrite create_provider_run.
    assert (Hinst : exists inst c,
      created_instance self (environ w) = Some inst /\
      configuration inst = Some c /\
      (LLMConfig.provider self = "ollama" ->
       class_of inst = Some Ollama /\ cfg_model c = LLMConfig.ollama_model self) /\
      (LLMConfig.provider self = "openai" ->
       class_of inst = Some OpenAI /\ cfg_model c = LLMConfig.openai_model self) /\
      (LLMConfig.provider self = "gemini" ->
       class_of inst = Some Gemini /\ cfg_model c = LLMConfig.gemini_model self)).
    { unfold provider_literal in Hknown. unfold created_instance.
      apply elem_of_cons in Hknown as [Hp|Hknown];
        [|apply elem_of_cons in Hknown as [Hp|Hknown];
          [|apply list_elem_of_singleton in Hknown as Hp]];
        rewrite Hp; simpl; eexists _, _;
        (split; [reflexivity|]); (split; [reflexivity|]);
        repeat split; intros; try discriminate; reflexivity. }
    destruct Hinst as (inst & c & Hinst & Hc & Hollama & Hopenai & Hgemini).
    exists inst, c. rewrite Hinst.
    split; [reflexivity|]. repeat (split; [assumption|]). split.
    + intros ->. exists (fresh (dom (heap w))).
      split; [reflexivity|]. apply not_elem_of_dom, is_fresh.
    + now intros e ->.
Qed.

Lemma create_provider_selector_witness :
  LLMConfig_create_provider stub_client_check (stub_config "unknown_value" None None)
    stub_world =
    (Raise (ValueError "Unknown provider: unknown_value"), stub_world) /\
  exists (inst : Instance) (c : Configuration),
    created_instance (stub_config "openai" None None) (environ stub_world) = Some inst /\
    configuration inst = Some c /\
    class_of inst = Some OpenAI /\ cfg_model c = "gpt-4o-mini" /\
    exists addr : nat,
      LLMConfig_create_provider stub_client_check (stub_config "openai" None None)
        stub_world =
        (Ok addr,
         {| heap := <[addr := inst]> (heap stub_world);
            environ := environ stub_world;
            calls := calls stub_world |}) /\
      heap stub_world !! addr = None.
Proof.
  split.
  - apply (proj1 (create_provider_selector stub_client_check
                    (stub_config "unknown_value" None None) stub_world)).
    apply provider_literal_cases. repeat split; reflexivity.
  - destruct (proj2 (create_provider_selector stub_client_check
                       (stub_config "openai" None None) stub_world))
      as (inst & c & Hinst & Hc & _ & Hopenai & _ & Haccept & _).
    { unfold provider_literal. simpl. right. left. }
    exists inst, c. split; [exact Hinst|]. split; [exact Hc|].
    destruct (Hopenai eq_refl) as [Hclass Hmodel].
    split; [exact Hclass|]. split; [exact Hmodel|].
    apply Haccept. injection Hinst as <-. reflexivity.
Defined.

(** Without a key, in the settings or in the environment, the client's
    constructor refuses and [create_provider] raises its error. *)
Example create_provider_refused :
  LLMConfig_create_provider stub_client_check (stub_config "openai" None None)
    {| heap := ∅; environ := ∅; calls := [] |} =
    (Raise (ExternalError "The api_key client option must be set"),
     {| heap := ∅; environ := ∅; calls := [] |}).
Proof. reflexivity. Qed.

(** The selector is checked against its [Literal] annotation: a settings
    object built with another value is refused. *)
Example provider_validate_unknown :
  exists msg, provider_validate "unknown_value" = Raise (ValidationError msg).
Proof. eexists. reflexivity. Qed.

Lemma get_openai_config_run (self : LLMConfig.t) (w : World) :
  exists config : OpenAIConfig.t,
    LLMConfig_get_openai_config self w = (Ok config, w) /\
    OpenAIConfig.api_key config =
      py_or (LLMConfig.openai_api_key self) (environ w !! "OPENAI_API_KEY").
Proof.
  unfold LLMConfig_get_openai_config, py_or.
  destruct (truthy_opt_str (LLMConfig.openai_api_key self));
    eexists; split; reflexivity.
Qed.

Lemma get_gemini_config_run (self : LLMConfig.t) (w : World) :
  exists config : GeminiConfig.t,
    LLMConfig_get_gemini_config self w = (Ok config, w) /\
    GeminiConfig.api_key config =
      py_or (LLMConfig.gemini_api_key self) (environ w !! "GOOGLE_API_KEY").
Proof.
  unfold LLMConfig_get_gemini_config, py_or.
  destruct (truthy_opt_str (LLMConfig.gemini_api_key self));
    eexists; split; reflexivity.
Qed.

Lemma py_or_cases (x y : option string) :
  (forall key, x = Some key -> key <> "" -> py_or x y = Some key) /\
  (x = None \/ x = Some "" -> py_or x y = y).
Proof.
  unfold py_or, truthy_opt_str, truthy_str. split.
  - intros key -> Hkey. apply String.eqb_neq in Hkey. now rewrite Hkey.
  - intros [->| ->]; reflexivity.
Qed.

(** C9, as the code has it: the key in the per-provider configuration is
    the explicit value when that is present and not the empty string;
    otherwise it is the value of the environment variable,
    [OPENAI_API_KEY] or [GOOGLE_API_KEY], when that is set; otherwise
    it is absent.  Reading the configuration changes nothing. *)
Theorem api_key_precedence (self : LLMConfig.t) (w : World) :
  exists (openai : OpenAIConfig.t) (gemini : GeminiConfig.t),
    LLMConfig_get_openai_config self w = (Ok openai, w) /\
    LLMConfig_get_gemini_config self w = (Ok gemini, w) /\
    (forall key, LLMConfig.openai_api_key self = Some key -> key <> "" ->
       OpenAIConfig.api_key openai = Some key) /\
    (LLMConfig.openai_api_key self = None \/ LLMConfig.openai_api_key self = Some "" ->
       OpenAIConfig.api_key openai = environ w !! "OPENAI_API_KEY") /\
    (forall key, LLMConfig.gemini_api_key self = Some key -> key <> "" ->
       GeminiConfig.api_key gemini = Some key) /\
    (LLMConfig.gemini_api_key self = None \/ LLMConfig.gemini_api_key self = Some "" ->
       GeminiConfig.api_key gemini = environ w !! "GOOGLE_API_KEY").
Proof.
  destruct (get_openai_config_run self w) as (openai & Hopenai & Hkey1).
  destruct (get_gemini_config_run self w) as (gemini & Hgemini & Hkey2).
  exists openai, gemini. rewrite Hkey1, Hkey2.
  repeat split; try assumption; apply py_or_cases.
Qed.

Lemma api_key_precedence_witness :
  exists (openai : OpenAIConfig.t) (gemini : GeminiConfig.t),
    LLMConfig_get_openai_config (stub_config "openai" (Some "sk-explicit") None) stub_world
      = (Ok openai, stub_world) /\
    LLMConfig_get_gemini_config (stub_config "openai" (Some "sk-explicit") None) stub_world
      = (Ok gemini, stub_world) /\
    OpenAIConfig.api_key openai = Some "sk-explicit" /\
    GeminiConfig.api_key gemini = Some "g-env".
Proof.
  destruct (api_key_precedence (stub_config "openai" (Some "sk-explicit") None) stub_world)
    as (openai & gemini & Hopenai & Hgemini & Hexplicit & _ & _ & Henv).
  exists openai, gemini. repeat split.
  - exact Hopenai.
  - exact Hgemini.
  - apply Hexplicit; [reflexivity|discriminate].
  - rewrite Henv; [reflexivity|left; reflexivity].
Defined.

(** C9 as the specification words it fails when the explicit value is the
    empty string: that value is present, and first in the chain, yet the
    key taken is the environment variable's. *)
Lemma api_key_first_present_counterexample :
  ~ (exists gemini : GeminiConfig.t,
       LLMConfig_get_gemini_config (stub_config "gemini" None (Some "")) stub_world
         = (Ok gemini, stub_world) /\
       GeminiConfig.api_key gemini =
         first_present (LLMConfig.gemini_api_key (stub_config "gemini" None (Some "")))
           (environ stub_world !! "GOOGLE_API_KEY")).
Proof.
  intros (gemini & Hrun & Hkey).
  injection Hrun as <-. discriminate Hkey.
Qed.

Example api_key_empty_explicit_value :
  GeminiConfig.api_key <$>
    (LLMConfig_get_gemini_config (stub_config "gemini" None (Some "")) stub_world).1
  = Ok (Some "g-env").
Proof. reflexivity. Qed.

(** ** The retriever on the stub store *)

Section stub_retrieval.
Local Open Scope R_scope.

Lemma cosine_similarity_value (vec1 vec2 : list R) (norm1 norm2 : R) :
  0 < norm1 -> 0 < norm2 ->
  py_sum (map (fun a => a * a) vec1) = norm1 * norm1 ->
  py_sum (map (fun b => b * b) vec2) = norm2 * norm2 ->
  cosine_similarity vec1 vec2 =
    Ok (py_sum (map (fun ab : R * R => ab.1 * ab.2) (zip vec1 vec2)) / (norm1 * norm2)).
Proof.
  intros H1 H2 Hsq1 Hsq2. unfold cosine_similarity, truediv, pow_half.
  rewrite Hsq1, Hsq2, !sqrt_square by lra.
  assert (0 < norm1 * norm2) by nra.
  rewrite bool_decide_eq_true_2 by assumption.
  destruct (Req_dec_T _ 0) as [Hz|_]; [lra|reflexivity].
Qed.

Lemma stub_similarities :
  comprehension (cosine_similarity (stub_vector "fruit")) (store_embeddings stub_store)
  = Ok [3 / 5; 1; 0].
Proof.
  simpl.
  change (stub_vector "fruit") with [1; 0].
  change (stub_vector "apple") with [3; 4].
  change (stub_vector "banana") with [1; 0].
  change (stub_vector "car") with [0; 1].
  rewrite (cosine_similarity_value [1; 0] [3; 4] 1 5), (cosine_similarity_value [1; 0] [1; 0] 1 1),
    (cosine_similarity_value [1; 0] [0; 1] 1 1);
    try lra; try (unfold py_sum; simpl; lra).
  simpl. unfold py_sum. simpl. repeat f_equal; lra.
Qed.

(** The scenario of the specification: of "apple", "banana" and "car",
    the two nearest to "fruit", nearest first. *)
Example stub_retrieval_top_2 :
  SimpleRetriever_invoke (as_retriever stub_store (Some 2%Z)) "fruit"
  = Ok [{| page_content := "banana" |}; {| page_content := "apple" |}].
Proof.
  unfold SimpleRetriever_invoke. simpl retriever_store. simpl embed_query.
  change (Ok (stub_vector "fruit") ≫= ?f) with (f (stub_vector "fruit")).
  cbv beta. rewrite stub_similarities.
  change (Ok [3 / 5; 1; 0] ≫= ?f) with (f [3 / 5; 1; 0]).
  cbv beta. unfold enumerate, sort_reverse. simpl.
  repeat (case_bool_decide; try lra; simpl).
  reflexivity.
Qed.

(** A negative [k] counts from the end of the ranking and more than the
    store holds gives the whole ranking. *)
Example slice_to_examples :
  slice_to ["a"; "b"; "c"] 2 = ["a"; "b"] /\
  slice_to ["a"; "b"; "c"] 5 = ["a"; "b"; "c"] /\
  slice_to ["a"; "b"; "c"] (-1) = ["a"; "b"].
Proof. repeat split. Qed.

End stub_retrieval.

(** * Further properties *)

(** ** Cosine similarity on binary64 numbers *)

(** X3: on binary64 numbers, with any function for [**], the function
    never raises: the division is reached only with a divisor that is not
    zero.  It returns 0 when either norm is a zero, and it is symmetric to
    the last bit: both orders of the arguments return the same number. *)
Theorem cosine_similarity_binary64_safe_symmetric (pow : float -> float -> float)
  (vec1 vec2 : list float) :
  (exists s, cosine_similarity_binary64 pow vec1 vec2 = Ok s) /\
  (PrimFloat.eqb (pow (sum_binary64 (map (fun a => PrimFloat.mul a a) vec1)) 0.5%float) 0 = true \/
   PrimFloat.eqb (pow (sum_binary64 (map (fun b => PrimFloat.mul b b) vec2)) 0.5%float) 0 = true ->
   cosine_similarity_binary64 pow vec1 vec2 = Ok 0%float) /\
  cosine_similarity_binary64 pow vec1 vec2 = cosine_similarity_binary64 pow vec2 vec1.
Proof.
  split; [|split].
  - unfold cosine_similarity_binary64, truediv_binary64.
    destruct (PrimFloat.ltb 0 _) eqn:Hpos; [|eauto].
    rewrite (binary64_positive_nonzero _ Hpos). eauto.
  - unfold cosine_similarity_binary64. intros [Hz|Hz].
    + now rewrite (proj1 (binary64_zero_product _ _ Hz)).
    + now rewrite (proj2 (binary64_zero_product _ _ Hz)).
  - unfold cosine_similarity_binary64.
    rewrite (binary64_products_comm vec1 vec2).
    now rewrite (binary64_mul_comm
                   (pow (sum_binary64 (map (fun a => PrimFloat.mul a a) vec1)) 0.5%float)).
Qed.

Lemma cosine_similarity_binary64_safe_symmetric_witness :
  cosine_similarity_binary64 (fun x _ => PrimFloat.sqrt x) [0%float; 0%float] [3%float; 4%float]
  = Ok 0%float.
Proof.
  apply (proj1 (proj2 (cosine_similarity_binary64_safe_symmetric
                         (fun x _ => PrimFloat.sqrt x)
                         [0%float; 0%float] [3%float; 4%float]))).
  left. reflexivity.
Defined.

(** ** The retriever: any [k], ties, stores out of step *)

Lemma comprehension_raise {A B : Type} (f : A -> result B) (e : PyError) (l : list A) :
  (forall x, x ∈ l -> f x = Raise e \/ exists y, f x = Ok y) ->
  (exists x, x ∈ l /\ f x = Raise e) ->
  comprehension f l = Raise e.
Proof.
  induction l as [|x l IH]; intros Hall (x0 & Hin & Hx0).
  - now apply elem_of_nil in Hin.
  - simpl. destruct (Hall x) as [Hx|[y Hx]]; [left| |]; rewrite Hx; simpl; [reflexivity|].
    rewrite IH; [reflexivity| |].
    + intros z Hz. apply Hall. now right.
    + apply elem_of_cons in Hin as [->|Hin]; [congruence|eauto].
Qed.

(** [invoke] up to the lookup of the texts. *)
Lemma invoke_ranking (self : SimpleRetriever) (query : string) (query_embedding : list R) :
  let store := retriever_store self in
  embed_query (store_embeddings_model store) query = Ok query_embedding ->
  SimpleRetriever_invoke self query =
    comprehension
      (fun i => text ← getitem (store_texts store) i; Ok {| page_content := text |})
      (ranking (map (similarity query_embedding) (store_embeddings store))
         (retriever_k self)).*1.
Proof.
  intros store Hq. unfold SimpleRetriever_invoke. fold store. rewrite Hq. simpl.
  rewrite (comprehension_Ok _ (similarity query_embedding))
    by (intros; apply cosine_similarity_similarity).
  reflexivity.
Qed.

Lemma ranking_take (sims : list R) (k : Z) :
  ranking sims k =
  take (slice_count (length sims) k)
    (sort_reverse (fun x y : R => bool_decide (x < y)%R) snd (enumerate sims)).
Proof.
  unfold ranking, slice_to, slice_count.
  rewrite (Permutation_length (sort_reverse_Permutation _ snd (enumerate sims))).
  now rewrite enumerate_length.
Qed.

Lemma ranking_length (sims : list R) (k : Z) :
  length (ranking sims k) = slice_count (length sims) k.
Proof.
  rewrite ranking_take, length_take.
  rewrite (Permutation_length (sort_reverse_Permutation _ snd (enumerate sims))).
  rewrite enumerate_length. unfold slice_count.
  destruct (Z.ltb_spec k 0); lia.
Qed.

Lemma ranking_lookup (sims : list R) (k : Z) :
  Forall (fun p => sims !! p.1 = Some p.2) (ranking sims k).
Proof.
  rewrite ranking_take. apply Forall_take, Forall_forall. intros [i s] Hin.
  apply elem_of_enumerate.
  now rewrite <- (sort_reverse_Permutation (fun x y : R => bool_decide (x < y)%R) snd).
Qed.

(** The documents found, with their positions and similarities, when no
    embedding is without a text. *)
Lemma invoke_hits (self : SimpleRetriever) (query : string) (query_embedding : list R) :
  let store := retriever_store self in
  length (store_embeddings store) <= length (store_texts store) ->
  embed_query (store_embeddings_model store) query = Ok query_embedding ->
  exists hits : list (nat * string * R),
    SimpleRetriever_invoke self query
      = Ok (map (fun hit => {| page_content := hit.1.2 |}) hits) /\
    Forall (stored_at store query_embedding) hits /\
    map (fun hit => (hit.1.1, hit.2)) hits =
      ranking (map (similarity query_embedding) (store_embeddings store)) (retriever_k self).
Proof.
  intros store Hlen Hq.
  set (sims := map (similarity query_embedding) (store_embeddings store)).
  set (ranked := ranking sims (retriever_k self)).
  set (text_at := fun i : nat => default "" (store_texts store !! i)).
  pose proof (ranking_lookup sims (retriever_k self)) as Hat. fold ranked in Hat.
  rewrite Forall_forall in Hat.
  assert (Htext : forall p, p ∈ ranked ->
            store_texts store !! p.1 = Some (text_at p.1) /\
            exists emb, store_embeddings store !! p.1 = Some emb /\
                        similarity query_embedding emb = p.2).
  { intros p Hp. specialize (Hat p Hp). unfold sims in Hat.
    change (map ?f ?l) with (f <$> l) in Hat. rewrite list_lookup_fmap in Hat.
    destruct (store_embeddings store !! p.1) as [emb|] eqn:Hemb; [|discriminate].
    apply lookup_lt_Some in Hemb.
    destruct (lookup_lt_is_Some_2 (store_texts store) p.1) as [t Ht]; [lia|].
    unfold text_at. rewrite Ht. split; [reflexivity|].
    exists emb. split; [reflexivity|]. simpl in Hat. congruence. }
  exists (map (fun p : nat * R => (p.1, text_at p.1, p.2)) ranked).
  split; [|split].
  - rewrite (invoke_ranking self query query_embedding Hq). fold store sims ranked.
    rewrite (comprehension_Ok _ (fun i => {| page_content := text_at i |})).
    + f_equal. change (ranked.*1) with (map fst ranked). now rewrite !map_map.
    + intros i Hi. apply list_elem_of_fmap in Hi as (p & -> & Hp).
      destruct (Htext p Hp) as [Ht _]. unfold getitem. now rewrite Ht.
  - apply Forall_fmap, Forall_forall. intros p Hp.
    destruct (Htext p Hp) as (Ht & emb & Hemb & Hs).
    split; [exact Ht|]. exists emb. split; [exact Hemb|].
    simpl. rewrite <- Hs. apply cosine_similarity_similarity.
  - rewrite map_map. simpl. rewrite <- (map_id ranked) at 2.
    apply map_ext. now intros [i s].
Qed.

(** X4: when no embedding is without a text, [invoke] returns for every
    integer [k], also 0 and negative ones, and for an empty store.  With
    m embeddings it returns min(k, m) documents for [0 <= k], and m - |k|
    documents, or none when that is negative, for [k < 0]: a negative [k]
    drops the |k| least similar.  Every document returned carries the
    text stored at the position of an embedding. *)
Theorem SimpleRetriever_invoke_any_k (self : SimpleRetriever) (query : string)
  (query_embedding : list R) :
  let store := retriever_store self in
  let k := retriever_k self in
  let m := length (store_embeddings store) in
  m <= length (store_texts store) ->
  embed_query (store_embeddings_model store) query = Ok query_embedding ->
  exists hits : list (nat * string * R),
    SimpleRetriever_invoke self query
      = Ok (map (fun hit => {| page_content := hit.1.2 |}) hits) /\
    Forall (stored_at store query_embedding) hits /\
    ((0 <= k)%Z -> length hits = Nat.min (Z.to_nat k) m) /\
    ((k < 0)%Z -> length hits = m - Z.to_nat (- k)).
Proof.
  intros store k m Hlen Hq.
  destruct (invoke_hits self query query_embedding Hlen Hq) as (hits & Hrun & Hat & Hrank).
  exists hits. split; [exact Hrun|]. split; [exact Hat|].
  assert (Hcount : length hits = slice_count m k).
  { rewrite <- (length_map (fun hit : nat * string * R => (hit.1.1, hit.2)) hits).
    rewrite Hrank, ranking_length. now rewrite length_map. }
  rewrite Hcount. unfold slice_count. split; intros Hk.
  - destruct (Z.ltb_spec k 0); lia.
  - destruct (Z.ltb_spec k 0); lia.
Qed.

Lemma SimpleRetriever_invoke_any_k_witness :
  exists hits : list (nat * string * R),
    SimpleRetriever_invoke (as_retriever stub_store (Some (-1)%Z)) "fruit"
      = Ok (map (fun hit => {| page_content := hit.1.2 |}) hits) /\
    Forall (stored_at stub_store (stub_vector "fruit")) hits /\
    ((0 <= -1)%Z -> length hits = Nat.min (Z.to_nat (-1)) 3) /\
    ((-1 < 0)%Z -> length hits = 3 - Z.to_nat (- -1)).
Proof.
  apply (SimpleRetriever_invoke_any_k (as_retriever stub_store (Some (-1)%Z)) "fruit"
           (stub_vector "fruit")).
  - simpl. lia.
  - reflexivity.
Defined.

(** X5: when none of the scores computed is NaN, the order of the
    documents is fixed by the scores and the positions in the store: a
    document comes before another when its score is greater, or the
    scores are equal and it is stored earlier.  Ties are broken by the
    order of the store, for every [k]. *)
Theorem SimpleRetriever_invoke_tie_break (pow : float -> float -> float)
  (list_sort : list (nat * float) -> list (nat * float))
  (self : SimpleRetriever_binary64) (query : string) (query_embedding : list float) :
  let store := retriever_store_binary64 self in
  sorts_in_reverse list_sort ->
  length (store_embeddings_binary64 store) <= length (store_texts_binary64 store) ->
  embed_query_binary64 (store_embeddings_model_binary64 store) query = Ok query_embedding ->
  Forall (fun emb => PrimFloat.is_nan (similarity_binary64 pow query_embedding emb) = false)
    (store_embeddings_binary64 store) ->
  exists hits : list (nat * string * float),
    SimpleRetriever_invoke_binary64 pow list_sort self query
      = Ok (map (fun hit => {| page_content := hit.1.2 |}) hits) /\
    Forall (stored_at_binary64 pow store query_embedding) hits /\
    StronglySorted
      (fun hit hit' : nat * string * float =>
         PrimFloat.ltb hit'.2 hit.2 = true \/
         (PrimFloat.eqb hit.2 hit'.2 = true /\ hit.1.1 < hit'.1.1))
      hits.
Proof.
  intros store Hsort Hlen Hq Hnan.
  destruct (invoke_hits_binary64 pow list_sort self query query_embedding Hsort Hlen Hq)
    as (hits & Hrun & Hat & Hrank).
  exists hits. split; [exact Hrun|]. split; [exact Hat|].
  destruct (ranked_positions list_sort
              (map (similarity_binary64 pow query_embedding)
                 (store_embeddings_binary64 (retriever_store_binary64 self)))
              (retriever_k_binary64 self) Hsort) as (_ & _ & _ & _ & Hordered).
  destruct Hordered as (_ & Hranks & _); [now apply Forall_fmap|].
  rewrite <- Hrank in Hranks.
  exact (StronglySorted_fmap_inv ranks_before_binary64 _ hits Hranks).
Qed.

Lemma SimpleRetriever_invoke_tie_break_witness :
  exists hits : list (nat * string * float),
    SimpleRetriever_invoke_binary64 pow_sqrt (sort_reverse PrimFloat.ltb snd)
      {| retriever_store_binary64 := tiny_store; retriever_k_binary64 := 3 |} "query"
      = Ok (map (fun hit => {| page_content := hit.1.2 |}) hits) /\
    Forall (stored_at_binary64 pow_sqrt tiny_store [1; 0]%float) hits /\
    StronglySorted
      (fun hit hit' : nat * string * float =>
         PrimFloat.ltb hit'.2 hit.2 = true \/
         (PrimFloat.eqb hit.2 hit'.2 = true /\ hit.1.1 < hit'.1.1))
      hits.
Proof.
  apply (SimpleRetriever_invoke_tie_break pow_sqrt (sort_reverse PrimFloat.ltb snd)
           {| retriever_store_binary64 := tiny_store; retriever_k_binary64 := 3 |}
           "query" [1; 0]%float sort_reverse_sorts_in_reverse).
  - simpl. lia.
  - reflexivity.
  - repeat constructor.
Defined.

(** The tie on the store of the example: the first and the last
    embedding both score 0, and the first comes first. *)
Example SimpleRetriever_invoke_tie :
  SimpleRetriever_invoke_binary64 pow_sqrt (sort_reverse PrimFloat.ltb snd)
    {| retriever_store_binary64 := tiny_store; retriever_k_binary64 := 3 |} "query"
  = Ok [{| page_content := "diagonal" |}; {| page_content := "tiny" |};
        {| page_content := "across" |}].
Proof. reflexivity. Qed.

(** X19: whatever the scores are, NaN included, and however the sort
    arranges them then, [invoke] on binary64 numbers returns for every
    integer [k] when no embedding is without a text and the query can be
    embedded.  With m embeddings it returns min(k, m) documents for
    [0 <= k] and m - |k|, or none when that is negative, for [k < 0].
    The documents come from pairwise distinct positions, and each carries
    the text stored at its position. *)
Theorem SimpleRetriever_invoke_binary64_any_k (pow : float -> float -> float)
  (list_sort : list (nat * float) -> list (nat * float))
  (self : SimpleRetriever_binary64) (query : string) (query_embedding : list float) :
  let store := retriever_store_binary64 self in
  let k := retriever_k_binary64 self in
  let m := length (store_embeddings_binary64 store) in
  sorts_in_reverse list_sort ->
  m <= length (store_texts_binary64 store) ->
  embed_query_binary64 (store_embeddings_model_binary64 store) query = Ok query_embedding ->
  exists hits : list (nat * string * float),
    SimpleRetriever_invoke_binary64 pow list_sort self query
      = Ok (map (fun hit => {| page_content := hit.1.2 |}) hits) /\
    Forall (stored_at_binary64 pow store query_embedding) hits /\
    NoDup (map (fun hit => hit.1.1) hits) /\
    ((0 <= k)%Z -> length hits = Nat.min (Z.to_nat k) m) /\
    ((k < 0)%Z -> length hits = m - Z.to_nat (- k)).
Proof.
  intros store k m Hsort Hlen Hq.
  destruct (invoke_hits_binary64 pow list_sort self query query_embedding Hsort Hlen Hq)
    as (hits & Hrun & Hat & Hrank).
  exists hits. split; [exact Hrun|]. split; [exact Hat|].
  destruct (ranked_positions list_sort
              (map (similarity_binary64 pow query_embedding)
                 (store_embeddings_binary64 (retriever_store_binary64 self)))
              (retriever_k_binary64 self) Hsort) as (_ & Hnodup & Hcount & _).
  rewrite <- Hrank in Hnodup, Hcount.
  rewrite length_fmap, length_map in Hcount. fold store m k in Hcount.
  split.
  { change (?f <$> (?g <$> ?l)) with (map f (map g l)) in Hnodup.
    now rewrite map_map in Hnodup. }
  rewrite Hcount. unfold slice_count. split; intros Hk.
  - destruct (Z.ltb_spec k 0); lia.
  - destruct (Z.ltb_spec k 0); lia.
Qed.

Lemma SimpleRetriever_invoke_binary64_any_k_witness :
  PrimFloat.is_nan (similarity_binary64 pow_sqrt [0x1p600]%float [0x1p600]%float) = true /\
  exists hits : list (nat * string * float),
    SimpleRetriever_invoke_binary64 pow_sqrt (sort_reverse PrimFloat.ltb snd)
      {| retriever_store_binary64 := huge_store; retriever_k_binary64 := (-1) |} "query"
      = Ok (map (fun hit => {| page_content := hit.1.2 |}) hits) /\
    Forall (stored_at_binary64 pow_sqrt huge_store [0x1p600]%float) hits /\
    NoDup (map (fun hit => hit.1.1) hits) /\
    length hits = 1.
Proof.
  split; [reflexivity|].
  destruct (SimpleRetriever_invoke_binary64_any_k pow_sqrt (sort_reverse PrimFloat.ltb snd)
              {| retriever_store_binary64 := huge_store; retriever_k_binary64 := (-1) |}
              "query" [0x1p600]%float sort_reverse_sorts_in_reverse)
    as (hits & Hrun & Hat & Hnodup & _ & Hcount).
  - simpl. lia.
  - reflexivity.
  - exists hits. repeat (split; [assumption|]). exact (Hcount eq_refl).
Defined.

(** X6: a store with more embeddings than texts breaks [invoke] as soon
    as [k] reaches the number of embeddings: every position is ranked,
    one of them has no text, and the lookup raises [IndexError]. *)
Theorem SimpleRetriever_invoke_IndexError (self : SimpleRetriever) (query : string)
  (query_embedding : list R) :
  let store := retriever_store self in
  length (store_texts store) < length (store_embeddings store) ->
  (Z.of_nat (length (store_embeddings store)) <= retriever_k self)%Z ->
  embed_query (store_embeddings_model store) query = Ok query_embedding ->
  SimpleRetriever_invoke self query = Raise IndexError.
Proof.
  intros store Hlen Hk Hq.
  rewrite (invoke_ranking self query query_embedding Hq). fold store.
  set (sims := map (similarity query_embedding) (store_embeddings store)).
  assert (Hsims : length sims = length (store_embeddings store))
    by (unfold sims; now rewrite length_map).
  apply comprehension_raise.
  - intros i _. unfold getitem.
    destruct (store_texts store !! i); simpl; eauto.
  - exists (length (store_texts store)). split.
    + rewrite ranking_take, take_ge.
      * rewrite (sort_reverse_Permutation _ snd (enumerate sims)), enumerate_fst.
        apply elem_of_seq. lia.
      * rewrite (Permutation_length (sort_reverse_Permutation _ snd (enumerate sims))).
        rewrite enumerate_length. unfold slice_count.
        destruct (Z.ltb_spec (retriever_k self) 0); lia.
    + unfold getitem. now rewrite lookup_ge_None_2.
Qed.

Lemma SimpleRetriever_invoke_IndexError_witness :
  SimpleRetriever_invoke
    {| retriever_store :=
         {| store_texts := ["apple"];
            store_embeddings_model := stub_embeddings;
            store_embeddings := [[3; 4]; [1; 0]]%R |};
       retriever_k := 2 |}
    "fruit"
  = Raise IndexError.
Proof.
  apply (SimpleRetriever_invoke_IndexError _ "fruit" (stub_vector "fruit")).
  - simpl. lia.
  - simpl. lia.
  - reflexivity.
Defined.

(** ** Providers: what a call leaves untouched *)

Ltac run_provider Hself :=
  simpl;
  unfold OllamaProvider_invoke, OllamaProvider_stream, OllamaProvider_batch,
    OllamaProvider_get_model, OllamaProvider_invoke_with_metadata, as_ollama,
    OpenAIProvider_invoke, OpenAIProvider_stream, OpenAIProvider_batch,
    OpenAIProvider_get_model, OpenAIProvider_invoke_with_metadata, as_openai,
    GeminiProvider_invoke, GeminiProvider_stream, GeminiProvider_batch,
    GeminiProvider_get_model, GeminiProvider_invoke_with_metadata, as_gemini,
    client_invoke, client_stream, client_batch, time_time;
  run_method Hself.

Lemma invoke_run (v : Variant) (B : Backend) (self : nat) (prompt : Prompt)
  (w : World) (inst : Instance) :
  receiver_of v w self inst ->
  invoke_of v B self prompt w =
    (content <$> llm_invoke B (calls w) (client_of inst) (wrap_str prompt),
     log_call (InvokeRequest (client_of inst) (wrap_str prompt)) w).
Proof.
  intros [Hself Hclass]. by_variant v inst Hclass.
  all: run_provider Hself; destruct (llm_invoke B (calls w) _ _); reflexivity.
Qed.

Lemma invoke_with_metadata_run (v : Variant) (B : Backend) (clock : World -> float)
  (self : nat) (prompt : Prompt) (w : World) (inst : Instance) :
  receiver_of v w self inst ->
  let w' := log_call (InvokeRequest (client_of inst) (wrap_str prompt)) w in
  invoke_with_metadata_of v B clock self prompt w =
    ((fun response => (content response, response, clock w, clock w'))
       <$> llm_invoke B (calls w) (client_of inst) (wrap_str prompt),
     w').
Proof.
  intros [Hself Hclass] w'. subst w'. by_variant v inst Hclass.
  all: run_provider Hself; destruct (llm_invoke B (calls w) _ _); reflexivity.
Qed.

Lemma stream_run (v : Variant) (B : Backend) (self : nat) (prompt : Prompt)
  (w : World) (inst : Instance) :
  receiver_of v w self inst ->
  let chunks := llm_stream B (calls w) (client_of inst) (wrap_str prompt) in
  stream_of v B self prompt w =
    (Ok {| yields := yield_contents (yields chunks); raises := raises chunks |},
     log_call (StreamRequest (client_of inst) (wrap_str prompt)) w).
Proof.
  intros [Hself Hclass] chunks. subst chunks. by_variant v inst Hclass.
  all: now run_provider Hself.
Qed.

Lemma batch_run (v : Variant) (B : Backend) (self : nat) (prompts : list string)
  (w : World) (inst : Instance) :
  receiver_of v w self inst ->
  let inputs := map (fun p => [HumanMessage p]) prompts in
  batch_of v B self prompts w =
    (map content <$> llm_batch B (calls w) (client_of inst) inputs,
     log_call (BatchRequest (client_of inst) inputs) w).
Proof.
  intros [Hself Hclass] inputs. subst inputs. by_variant v inst Hclass.
  all: run_provider Hself; destruct (llm_batch B (calls w) _ _); reflexivity.
Qed.

Lemma get_model_run (v : Variant) (self : nat) (w : World) (inst : Instance) :
  receiver_of v w self inst ->
  get_model_of v self w = (Ok (client_of inst), w).
Proof.
  intros [Hself Hclass]. by_variant v inst Hclass.
  all: now run_provider Hself.
Qed.

(** A call on something that is not an instance of the class fails on
    the first attribute and reaches no client. *)
Lemma no_receiver (v : Variant) (B : Backend) (clock : World -> float) (self : nat)
  (prompt : Prompt) (prompts : list string) (w : World) :
  (forall inst, ~ receiver_of v w self inst) ->
  invoke_of v B self prompt w = (Raise AttributeError, w) /\
  invoke_with_metadata_of v B clock self prompt w = (Raise AttributeError, w) /\
  stream_of v B self prompt w = (Raise AttributeError, w) /\
  batch_of v B self prompts w = (Raise AttributeError, w) /\
  get_model_of v self w = (Raise AttributeError, w).
Proof.
  intros Hno. unfold receiver_of in Hno.
  destruct (heap w !! self) as [inst|] eqn:Hself.
  - specialize (Hno inst).
    destruct v, inst; try (exfalso; apply Hno; now split); simpl in *;
      repeat split; now run_provider Hself.
  - destruct v; repeat split; now run_provider Hself.
Qed.

Lemma receiver_dec (v : Variant) (w : World) (self : nat) :
  (exists inst, receiver_of v w self inst) \/ (forall inst, ~ receiver_of v w self inst).
Proof.
  unfold receiver_of. destruct (heap w !! self) as [inst|] eqn:Hself.
  - destruct (class_of inst) as [v'|] eqn:Hclass.
    + destruct (decide (v' = v)) as [->|Hne]; [left; eauto|].
      right. intros inst' [Heq Hc]. congruence.
    + right. intros inst' [Heq Hc]. congruence.
  - right. intros inst' [Heq _]. discriminate.
Qed.

Lemma method_heap (v : Variant) (B : Backend) (clock : World -> float) (self : nat)
  (prompt : Prompt) (prompts : list string) (w : World) :
  heap (invoke_of v B self prompt w).2 = heap w /\
  heap (invoke_with_metadata_of v B clock self prompt w).2 = heap w /\
  heap (stream_of v B self prompt w).2 = heap w /\
  heap (batch_of v B self prompts w).2 = heap w /\
  heap (get_model_of v self w).2 = heap w.
Proof.
  destruct (receiver_dec v w self) as [[inst Hrecv]|Hnone].
  - rewrite (invoke_run v B self prompt w inst Hrecv).
    rewrite (invoke_with_metadata_run v B clock self prompt w inst Hrecv).
    rewrite (stream_run v B self prompt w inst Hrecv).
    rewrite (batch_run v B self prompts w inst Hrecv).
    rewrite (get_model_run v self w inst Hrecv).
    repeat split.
  - destruct (no_receiver v B clock self prompt prompts w Hnone)
      as (-> & -> & -> & -> & ->).
    repeat split.
Qed.



(** A stream that is called and never iterated has sent nothing; once
    iterated it has sent its one request. *)
Example stream_sends_when_iterated :
  (call_generator (stream_of OpenAI stub_backend 1 (PromptStr "hi")) stub_world).2
    = stub_world /\
  calls (stream_of OpenAI stub_backend 1 (PromptStr "hi") stub_world).2
    = [StreamRequest (client_of (OpenAIInst stub_openai)) [HumanMessage "hi"]].
Proof. split; reflexivity. Qed.

(** X8: [invoke_with_metadata] does what [invoke] does and tells more:
    from every state both send the same request and leave the same state,
    both raise the same error or return the same text, and the tuple
    holds the response that text is the content of, with the clock read
    before and after the request. *)
Theorem invoke_with_metadata_agrees (v : Variant) (B : Backend)
  (clock : World -> float) (self : nat) (prompt : Prompt) (w : World) :
  let with_metadata := invoke_with_metadata_of v B clock self prompt w in
  let plain := invoke_of v B self prompt w in
  with_metadata.2 = plain.2 /\
  (fun tuple : string * BaseMessage * float * float => tuple.1.1.1) <$> with_metadata.1
    = plain.1 /\
  (forall text response start_time end_time,
     with_metadata.1 = Ok (text, response, start_time, end_time) ->
     content response = text /\ start_time = clock w /\ end_time = clock plain.2).
Proof.
  intros with_metadata plain. subst with_metadata plain.
  destruct (receiver_dec v w self) as [[inst Hrecv]|Hnone].
  - rewrite (invoke_run v B self prompt w inst Hrecv).
    rewrite (invoke_with_metadata_run v B clock self prompt w inst Hrecv). simpl.
    destruct (llm_invoke B (calls w) (client_of inst) (wrap_str prompt)) as [response|e];
      simpl; repeat split; try discriminate; intros; simplify_eq; reflexivity.
  - destruct (no_receiver v B clock self prompt [] w Hnone) as (-> & -> & _).
    simpl. repeat split; discriminate.
Qed.

Lemma invoke_with_metadata_agrees_witness :
  content (ai_message "Hello") = "Hello" /\
  0%float = 0%float /\
  0%float = (fun _ : World => 0%float) (invoke_of Ollama stub_backend 0 (PromptStr "hi") stub_world).2.
Proof.
  apply (proj2 (proj2
    (invoke_with_metadata_agrees Ollama stub_backend (fun _ => 0%float) 0 (PromptStr "hi")
       stub_world)) "Hello" (ai_message "Hello") 0%float 0%float).
  reflexivity.
Defined.

(** X9: what the client does wrong reaches the caller as it is.  An
    exception from the client's [invoke] or [batch] is raised by the
    method, after the one request.  [batch] returns as many texts as the
    client gave responses, be that more or fewer than the prompts.
    [stream] does not raise when it is called: it yields the fragments
    before the failure, then fails as the client's stream does. *)
Theorem client_failures_pass_through (v : Variant) (B : Backend)
  (clock : World -> float) (self : nat) (prompt : Prompt) (prompts : list string)
  (w : World) (inst : Instance) :
  receiver_of v w self inst ->
  let llm := client_of inst in
  let inputs := map (fun p => [HumanMessage p]) prompts in
  (forall e, llm_invoke B (calls w) llm (wrap_str prompt) = Raise e ->
     (invoke_of v B self prompt w).1 = Raise e /\
     (invoke_with_metadata_of v B clock self prompt w).1 = Raise e) /\
  (forall e, llm_batch B (calls w) llm inputs = Raise e ->
     (batch_of v B self prompts w).1 = Raise e) /\
  (forall responses, llm_batch B (calls w) llm inputs = Ok responses ->
     exists texts, (batch_of v B self prompts w).1 = Ok texts /\
                   length texts = length responses) /\
  (exists fragments,
     (stream_of v B self prompt w).1 = Ok fragments /\
     raises fragments = raises (llm_stream B (calls w) llm (wrap_str prompt)) /\
     yields fragments =
       filter (fun s => s <> "") (content <$> yields (llm_stream B (calls w) llm (wrap_str prompt)))).
Proof.
  intros Hrecv llm inputs. subst llm inputs.
  rewrite (invoke_run v B self prompt w inst Hrecv).
  rewrite (invoke_with_metadata_run v B clock self prompt w inst Hrecv).
  rewrite (stream_run v B self prompt w inst Hrecv).
  rewrite (batch_run v B self prompts w inst Hrecv). simpl.
  split; [|split; [|split]].
  - intros e ->. split; reflexivity.
  - intros e ->. reflexivity.
  - intros responses ->. eexists. split; [reflexivity|]. now rewrite length_map.
  - eexists. split; [reflexivity|]. split; [reflexivity|].
    apply yield_contents_filter.
Qed.

Lemma client_failures_pass_through_witness :
  (invoke_of Gemini failing_backend 2 (PromptStr "hi") stub_world).1
    = Raise (ExternalError "rate limit") /\
  (invoke_with_metadata_of Gemini failing_backend (fun _ => 0%float) 2 (PromptStr "hi")
     stub_world).1 = Raise (ExternalError "rate limit").
Proof.
  apply (proj1 (client_failures_pass_through Gemini failing_backend (fun _ => 0%float) 2
                  (PromptStr "hi") ["a"; "b"] stub_world (GeminiInst stub_gemini)
                  (conj eq_refl eq_refl))).
  reflexivity.
Defined.

(** ** Providers: new parameters and the client *)

(** X10: the parameters given to [update_parameters] reach the backend.
    When [update_parameters] returns, the client of the instance it
    returns, the one [get_model] returns and every request of that
    instance is sent with, has the given temperature and top-p, or the
    receiver's where none is given, and the receiver's model.  Its output
    limit is the new instance's for [OllamaProvider]; for the other two
    it is the new instance's unless that is 0, in which case the client
    is built without a limit. *)
Theorem update_parameters_reaches_client (K : ClientCheck) (v : Variant) (B : Backend)
  (self : nat) (temperature top_p : option float) (max_tokens : option Z)
  (prompt : Prompt) (w : World) (inst : Instance) (c : Configuration)
  (self' : nat) (w' : World) :
  receiver_of v w self inst ->
  configuration inst = Some c ->
  update_parameters K self temperature top_p max_tokens w = (Ok self', w') ->
  exists llm : BaseChatModel,
    get_model_of v self' w' = (Ok llm, w') /\
    calls (invoke_of v B self' prompt w').2
      = (calls w ++ [InvokeRequest llm (wrap_str prompt)])%list /\
    client_model llm = cfg_model c /\
    client_temperature llm = if_not_None temperature (cfg_temperature c) /\
    client_top_p llm = if_not_None top_p (cfg_top_p c) /\
    client_max_tokens llm =
      (let limit := match max_tokens with
                    | Some n => Some n
                    | None => cfg_max_tokens c
                    end in
       match v with
       | Ollama => limit
       | OpenAI | Gemini => if truthy_opt_int limit then limit else None
       end).
Proof.
  intros Hrecv Hc Hreturned.
  destruct (update_parameters_run K v self temperature top_p max_tokens w inst Hrecv)
    as (Hdispatch & Hrun & Hrecv' & _ & _).
  rewrite Hdispatch, Hrun in Hreturned.
  destruct (K _ _); [discriminate Hreturned|]. injection Hreturned as <- <-.
  destruct Hrecv as [Hself Hclass].
  eexists. split; [exact (get_model_run _ _ _ _ Hrecv')|].
  split; [now rewrite (invoke_run v B _ prompt _ _ Hrecv')|].
  by_variant v inst Hclass; injection Hc as <-; repeat split.
Qed.

Lemma update_parameters_reaches_client_witness :
  exists llm : BaseChatModel,
    get_model_of OpenAI 4
      (update_parameters stub_client_check 1 (Some 0.25%float) None (Some 0%Z) stub_world).2
      = (Ok llm,
         (update_parameters stub_client_check 1 (Some 0.25%float) None (Some 0%Z)
            stub_world).2) /\
    calls (invoke_of OpenAI stub_backend 4 (PromptStr "hi")
             (update_parameters stub_client_check 1 (Some 0.25%float) None (Some 0%Z)
                stub_world).2).2
      = (calls stub_world ++ [InvokeRequest llm [HumanMessage "hi"]])%list /\
    client_model llm = "gpt-4o-mini" /\
    client_temperature llm = 0.25%float /\
    client_top_p llm = 1%float /\
    client_max_tokens llm = None.
Proof.
  exact (update_parameters_reaches_client stub_client_check OpenAI stub_backend 1
           (Some 0.25%float) None (Some 0%Z) (PromptStr "hi") stub_world
           (OpenAIInst stub_openai) _ 4 _ (conj eq_refl eq_refl) eq_refl eq_refl).
Defined.

(** ** Providers: the client stays in step with the attributes *)

Lemma updated_instance_in_step (inst : Instance) (temperature top_p : option float)
  (max_tokens : option Z) :
  client_in_step inst -> client_in_step (updated_instance inst temperature top_p max_tokens).
Proof. destruct inst; simpl; intros H; try reflexivity; exact H. Qed.

Lemma update_parameters_heap (K : ClientCheck) (self : nat)
  (temperature top_p : option float) (max_tokens : option Z) (w : World) :
  let w' := (update_parameters K self temperature top_p max_tokens w).2 in
  w' = w \/
  exists inst, heap w !! self = Some inst /\ is_Some (class_of inst) /\
    heap w' = <[fresh (dom (heap w)) := updated_instance inst temperature top_p max_tokens]>
                (heap w).
Proof.
  intros w'. subst w'.
  destruct (heap w !! self) as [inst|] eqn:Hself.
  - destruct (class_of inst) as [v|] eqn:Hclass.
    + destruct (update_parameters_run K v self temperature top_p max_tokens w inst
                  (conj Hself Hclass)) as (-> & -> & _).
      destruct (K _ _); [now left|].
      right. exists inst. split; [reflexivity|]. split; [eauto|]. reflexivity.
    + left. destruct inst; try discriminate Hclass.
      unfold update_parameters. run_method Hself. reflexivity.
  - left. unfold update_parameters. run_method Hself. reflexivity.
Qed.

Lemma created_instance_in_step (config : LLMConfig.t) (env : gmap string string)
  (inst : Instance) :
  created_instance config env = Some inst -> client_in_step inst.
Proof.
  unfold created_instance.
  destruct (String.eqb _ "ollama"); [now intros [= <-]|].
  destruct (String.eqb _ "openai"); [now intros [= <-]|].
  destruct (String.eqb _ "gemini"); [now intros [= <-]|discriminate].
Qed.

Lemma create_provider_heap (K : ClientCheck) (config : LLMConfig.t) (w : World) :
  let w' := (LLMConfig_create_provider K config w).2 in
  w' = w \/
  exists inst, client_in_step inst /\ is_Some (class_of inst) /\
    heap w' = <[fresh (dom (heap w)) := inst]> (heap w).
Proof.
  intros w'. subst w'. rewrite create_provider_run.
  destruct (created_instance config (environ w)) as [inst|] eqn:Hinst; [|now left].
  destruct (K _ _); [now left|].
  right. exists inst. split; [exact (created_instance_in_step _ _ _ Hinst)|].
  split; [|reflexivity].
  destruct (created_instance_class _ _ _ Hinst) as (v & -> & _). eauto.
Qed.

Lemma heap_in_step_insert (w w' : World) (inst : Instance) :
  heap_in_step w ->
  client_in_step inst -> is_Some (class_of inst) ->
  heap w' = <[fresh (dom (heap w)) := inst]> (heap w) ->
  heap_in_step w'.
Proof.
  intros Hw Hinst Hclass Hheap self inst' Hself. rewrite Hheap in Hself.
  destruct (decide (fresh (dom (heap w)) = self)) as [<-|Hne].
  - rewrite lookup_insert_eq in Hself. injection Hself as <-. now split.
  - rewrite lookup_insert_ne in Hself by exact Hne. now apply (Hw self).
Qed.

Lemma step_in_step (w w' : World) : step w w' -> heap_in_step w -> heap_in_step w'.
Proof.
  intros Hstep Hw.
  destruct Hstep as [K config w|K self t p m w|v B self prompt w|v B clock self prompt w
                    |v B self prompt w|v B self prompt w|v B self prompts w|v self w].
  - destruct (create_provider_heap K config w) as [->|(inst & ? & ? & ?)]; [exact Hw|].
    now apply (heap_in_step_insert w _ inst).
  - destruct (update_parameters_heap K self t p m w)
      as [->|(inst & Hself & Hclass & Hheap)]; [exact Hw|].
    apply (heap_in_step_insert w _ _ Hw) in Hheap; [exact Hheap| |].
    + apply updated_instance_in_step. now apply (Hw self).
    + destruct inst; simpl in *; eauto.
  - intros a inst.
    rewrite (proj1 (method_heap v B (fun _ => 0%float) self prompt [] w)). apply Hw.
  - intros a inst.
    rewrite (proj1 (proj2 (method_heap v B clock self prompt [] w))). apply Hw.
  - exact Hw.
  - intros a inst.
    rewrite (proj1 (proj2 (proj2 (method_heap v B (fun _ => 0%float) self prompt [] w)))).
    apply Hw.
  - intros a inst.
    rewrite (proj1 (proj2 (proj2 (proj2
      (method_heap v B (fun _ => 0%float) self (PromptStr "") prompts w))))).
    apply Hw.
  - intros a inst.
    rewrite (proj2 (proj2 (proj2 (proj2
      (method_heap v stub_backend (fun _ => 0%float) self (PromptStr "") [] w))))).
    apply Hw.
Qed.

Lemma client_in_step_fields (inst : Instance) (c : Configuration) :
  client_in_step inst ->
  configuration inst = Some c ->
  client_model (client_of inst) = cfg_model c /\
  client_temperature (client_of inst) = cfg_temperature c /\
  client_top_p (client_of inst) = cfg_top_p c /\
  client_max_tokens (client_of inst) =
    match inst with
    | OllamaInst _ => cfg_max_tokens c
    | _ => if truthy_opt_int (cfg_max_tokens c) then cfg_max_tokens c else None
    end.
Proof.
  destruct inst as [o|o|o|]; simpl; intros Hstep Hc; try discriminate;
    injection Hc as <-; rewrite Hstep; repeat split.
Qed.

Lemma steps_in_step (w0 w : World) :
  rtc step w0 w -> heap_in_step w0 -> heap_in_step w.
Proof.
  induction 1 as [w0|w0 w1 w2 Hstep _ IH]; intros Hw0; [exact Hw0|].
  apply IH. now apply (step_in_step w0 w1).
Qed.

(** X11: in a process that started without instances and went through
    calls of this layer only ([create_provider], [update_parameters],
    [invoke], [invoke_with_metadata], [stream], [batch], [get_model], in
    any number and order, failing or not), every instance is of one of
    the three classes and its client is the one its constructor builds
    from the attributes the instance shows: same model, temperature and
    top-p, and the same output limit but for a limit of 0 in
    [OpenAIProvider] and [GeminiProvider]. *)
Theorem reachable_client_in_step (w : World) (self : nat) (inst : Instance) :
  reachable w ->
  heap w !! self = Some inst ->
  exists (v : Variant) (c : Configuration),
    class_of inst = Some v /\
    configuration inst = Some c /\
    client_in_step inst /\
    client_model (client_of inst) = cfg_model c /\
    client_temperature (client_of inst) = cfg_temperature c /\
    client_top_p (client_of inst) = cfg_top_p c /\
    client_max_tokens (client_of inst) =
      match v with
      | Ollama => cfg_max_tokens c
      | OpenAI | Gemini =>
          if truthy_opt_int (cfg_max_tokens c) then cfg_max_tokens c else None
      end.
Proof.
  intros (w0 & Hempty & Hsteps) Hself.
  assert (Hw : heap_in_step w).
  { apply (steps_in_step w0 w Hsteps).
    intros a i Ha. rewrite Hempty in Ha. discriminate. }
  destruct (Hw self inst Hself) as [Hstep [v Hclass]].
  assert (Hc : exists c, configuration inst = Some c).
  { destruct inst; try discriminate Hclass; simpl; eauto. }
  destruct Hc as [c Hc].
  exists v, c. split; [exact Hclass|]. split; [exact Hc|]. split; [exact Hstep|].
  destruct (client_in_step_fields inst c Hstep Hc) as (? & ? & ? & Hmax).
  repeat split; try assumption.
  rewrite Hmax. by_variant v inst Hclass; reflexivity.
Qed.

Lemma reachable_client_in_step_witness :
  exists (v : Variant) (c : Configuration),
    class_of (OpenAIInst (OpenAIProvider.init "gpt-4o-mini" (Some "sk-env") None
                            0.5%float 1%float None)) = Some v /\
    configuration (OpenAIInst (OpenAIProvider.init "gpt-4o-mini" (Some "sk-env") None
                                 0.5%float 1%float None)) = Some c /\
    client_in_step (OpenAIInst (OpenAIProvider.init "gpt-4o-mini" (Some "sk-env") None
                                  0.5%float 1%float None)) /\
    client_model (OpenAIClient (OpenAIProvider._llm
       (OpenAIProvider.init "gpt-4o-mini" (Some "sk-env") None 0.5%float 1%float None)))
      = cfg_model c /\
    client_temperature (OpenAIClient (OpenAIProvider._llm
       (OpenAIProvider.init "gpt-4o-mini" (Some "sk-env") None 0.5%float 1%float None)))
      = cfg_temperature c /\
    client_top_p (OpenAIClient (OpenAIProvider._llm
       (OpenAIProvider.init "gpt-4o-mini" (Some "sk-env") None 0.5%float 1%float None)))
      = cfg_top_p c /\
    client_max_tokens (OpenAIClient (OpenAIProvider._llm
       (OpenAIProvider.init "gpt-4o-mini" (Some "sk-env") None 0.5%float 1%float None)))
      = match v with
        | Ollama => cfg_max_tokens c
        | OpenAI | Gemini =>
            if truthy_opt_int (cfg_max_tokens c) then cfg_max_tokens c else None
        end.
Proof.
  apply (reachable_client_in_step
           (LLMConfig_create_provider stub_client_check (stub_config "openai" None None)
              fresh_world).2 0).
  - exists fresh_world. split; [reflexivity|].
    apply rtc_once. apply step_create_provider.
  - reflexivity.
Defined.

(** X12: two [update_parameters] in a row that both return, the second
    on the result of the first, give three live instances at three
    addresses.  In the last one a parameter has the value of the second
    call when that gave one, else the value of the first call when that
    gave one, else the receiver's; model, endpoint and key are the
    receiver's.  The receiver and the instance in between keep their
    configuration. *)
Theorem update_parameters_twice (K : ClientCheck) (v : Variant) (self : nat)
  (temperature1 top_p1 : option float) (max_tokens1 : option Z)
  (temperature2 top_p2 : option float) (max_tokens2 : option Z)
  (w : World) (inst : Instance) (c : Configuration)
  (self1 self2 : nat) (w1 w2 : World) :
  receiver_of v w self inst ->
  configuration inst = Some c ->
  update_parameters K self temperature1 top_p1 max_tokens1 w = (Ok self1, w1) ->
  update_parameters K self1 temperature2 top_p2 max_tokens2 w1 = (Ok self2, w2) ->
  exists (inst1 inst2 : Instance) (c1 c2 : Configuration),
    (self1 <> self /\ self2 <> self /\ self2 <> self1) /\
    (heap w2 !! self = Some inst /\ heap w2 !! self1 = Some inst1 /\
     heap w2 !! self2 = Some inst2 /\ heap w1 !! self1 = Some inst1) /\
    (configuration inst1 = Some c1 /\ configuration inst2 = Some c2) /\
    cfg_temperature c2 =
      if_not_None temperature2 (if_not_None temperature1 (cfg_temperature c)) /\
    cfg_top_p c2 = if_not_None top_p2 (if_not_None top_p1 (cfg_top_p c)) /\
    cfg_max_tokens c2 =
      match max_tokens2, max_tokens1 with
      | Some n, _ => Some n
      | None, Some n => Some n
      | None, None => cfg_max_tokens c
      end /\
    (cfg_model c2 = cfg_model c /\ cfg_endpoint c2 = cfg_endpoint c /\
     cfg_api_key c2 = cfg_api_key c).
Proof.
  intros Hrecv Hc Hreturned1 Hreturned2.
  destruct (update_parameters_run K v self temperature1 top_p1 max_tokens1 w inst Hrecv)
    as (Hdispatch1 & Hrun1 & Hrecv1 & Hfresh1 & Hne1).
  rewrite Hdispatch1, Hrun1 in Hreturned1.
  destruct (K _ _); [discriminate Hreturned1|]. injection Hreturned1 as <- <-.
  set (inst1 := updated_instance inst temperature1 top_p1 max_tokens1) in *.
  set (self1 := fresh (dom (heap w))) in *.
  set (w1 := {| heap := <[self1 := inst1]> (heap w);
                environ := environ w; calls := calls w |}) in *.
  destruct (update_parameters_run K v self1 temperature2 top_p2 max_tokens2 w1 inst1 Hrecv1)
    as (Hdispatch2 & Hrun2 & Hrecv2 & Hfresh2 & Hne2).
  rewrite Hdispatch2, Hrun2 in Hreturned2.
  destruct (K _ _); [discriminate Hreturned2|]. injection Hreturned2 as <- <-.
  set (inst2 := updated_instance inst1 temperature2 top_p2 max_tokens2) in *.
  set (self2 := fresh (dom (heap w1))) in *.
  destruct Hrecv as [Hself Hclass]. destruct Hrecv1 as [Hself1 Hclass1].
  pose proof (configuration_updated v inst c temperature1 top_p1 max_tokens1 Hclass Hc)
    as Hc1. fold inst1 in Hc1.
  pose proof (configuration_updated v inst1 _ temperature2 top_p2 max_tokens2 Hclass1 Hc1)
    as Hc2. fold inst2 in Hc2.
  assert (Hne : self2 <> self).
  { intros Heq. rewrite Heq in Hfresh2. simpl in Hfresh2.
    rewrite lookup_insert_ne in Hfresh2 by exact Hne1. congruence. }
  eexists inst1, inst2, _, _.
  split; [auto|].
  split.
  { simpl. rewrite !lookup_insert_eq.
    rewrite (lookup_insert_ne _ self2 self) by exact Hne.
    rewrite (lookup_insert_ne _ self1 self) by exact Hne1.
    rewrite (lookup_insert_ne _ self2 self1) by exact Hne2.
    rewrite lookup_insert_eq. auto. }
  split; [split; [exact Hc1|exact Hc2]|].
  simpl. repeat split; now destruct max_tokens2, max_tokens1.
Qed.

Lemma update_parameters_twice_witness :
  exists (inst1 inst2 : Instance) (c1 c2 : Configuration),
    (4 <> 0 /\ 5 <> 0 /\ 5 <> 4) /\
    (heap (update_parameters stub_client_check 4 None (Some 0.5%float) None
             (update_parameters stub_client_check 0 (Some 0.25%float) None (Some 50%Z)
                stub_world).2).2 !! 0 = Some (OllamaInst stub_ollama) /\
     heap (update_parameters stub_client_check 4 None (Some 0.5%float) None
             (update_parameters stub_client_check 0 (Some 0.25%float) None (Some 50%Z)
                stub_world).2).2 !! 4 = Some inst1 /\
     heap (update_parameters stub_client_check 4 None (Some 0.5%float) None
             (update_parameters stub_client_check 0 (Some 0.25%float) None (Some 50%Z)
                stub_world).2).2 !! 5 = Some inst2 /\
     heap (update_parameters stub_client_check 0 (Some 0.25%float) None (Some 50%Z)
             stub_world).2 !! 4 = Some inst1) /\
    (configuration inst1 = Some c1 /\ configuration inst2 = Some c2) /\
    cfg_temperature c2 = 0.25%float /\
    cfg_top_p c2 = 0.5%float /\
    cfg_max_tokens c2 = Some 50%Z /\
    (cfg_model c2 = "llama3" /\ cfg_endpoint c2 = Some "http://localhost:11434" /\
     cfg_api_key c2 = None).
Proof.
  exact (update_parameters_twice stub_client_check Ollama 0
           (Some 0.25%float) None (Some 50%Z) None (Some 0.5%float) None
           stub_world (OllamaInst stub_ollama) _ 4 5 _ _
           (conj eq_refl eq_refl) eq_refl eq_refl eq_refl).
Defined.

(** ** Configuration: what [create_provider] builds *)

(** X13: the provider [create_provider] returns, when it returns one,
    is a new object that shows the settings of the selected provider and
    nothing of the other two: model, endpoint, temperature, top-p and
    output limit are the fields with the selector's prefix, and the key
    is the resolved one.  An Ollama provider has no key, whatever the
    environment holds, and a Gemini provider no endpoint. *)
Theorem create_provider_configuration (K : ClientCheck) (config : LLMConfig.t)
  (w : World) (self : nat) (w' : World) :
  LLMConfig_create_provider K config w = (Ok self, w') ->
  exists (inst : Instance) (c : Configuration),
    LLMConfig.provider config ∈ provider_literal /\
    heap w !! self = None /\
    w' = {| heap := <[self := inst]> (heap w); environ := environ w; calls := calls w |} /\
    K (client_of inst) (environ w) = None /\
    configuration inst = Some c /\
    (LLMConfig.provider config = "ollama" ->
     c = {| cfg_model := LLMConfig.ollama_model config;
            cfg_endpoint := Some (LLMConfig.ollama_base_url config);
            cfg_api_key := None;
            cfg_temperature := LLMConfig.ollama_temperature config;
            cfg_top_p := LLMConfig.ollama_top_p config;
            cfg_max_tokens := LLMConfig.ollama_num_predict config |}) /\
    (LLMConfig.provider config = "openai" ->
     c = {| cfg_model := LLMConfig.openai_model config;
            cfg_endpoint := LLMConfig.openai_base_url config;
            cfg_api_key :=
              py_or (LLMConfig.openai_api_key config) (environ w !! "OPENAI_API_KEY");
            cfg_temperature := LLMConfig.openai_temperature config;
            cfg_top_p := LLMConfig.openai_top_p config;
            cfg_max_tokens := LLMConfig.openai_max_tokens config |}) /\
    (LLMConfig.provider config = "gemini" ->
     c = {| cfg_model := LLMConfig.gemini_model config;
            cfg_endpoint := None;
            cfg_api_key :=
              py_or (LLMConfig.gemini_api_key config) (environ w !! "GOOGLE_API_KEY");
            cfg_temperature := LLMConfig.gemini_temperature config;
            cfg_top_p := LLMConfig.gemini_top_p config;
            cfg_max_tokens := LLMConfig.gemini_max_output_tokens config |}).
Proof.
  rewrite create_provider_run. intros Hreturned.
  destruct (created_instance config (environ w)) as [inst|] eqn:Hinst;
    [|discriminate Hreturned].
  destruct (K (client_of inst) (environ w)) eqn:Haccept; [discriminate Hreturned|].
  injection Hreturned as <- <-.
  destruct (created_instance_class _ _ _ Hinst) as (v & Hclass & Hname).
  assert (Hc : exists c, configuration inst = Some c)
    by (destruct inst; try discriminate Hclass; simpl; eauto).
  destruct Hc as [c Hc]. exists inst, c.
  split.
  { rewrite Hname. unfold provider_literal. destruct v; simpl; set_solver. }
  split; [apply not_elem_of_dom, is_fresh|].
  split; [reflexivity|]. split; [exact Haccept|]. split; [exact Hc|].
  unfold created_instance in Hinst.
  repeat split; intros Hp; rewrite Hp in Hinst; simpl in Hinst;
    injection Hinst as <-; simpl in Hc; now injection Hc as <-.
Qed.

Lemma create_provider_configuration_witness :
  exists (inst : Instance) (c : Configuration),
    "gemini" ∈ provider_literal /\
    heap stub_world !! 4 = None /\
    (LLMConfig_create_provider stub_client_check (stub_config "gemini" None (Some ""))
       stub_world).2 =
      {| heap := <[4 := inst]> (heap stub_world);
         environ := environ stub_world; calls := calls stub_world |} /\
    stub_client_check (client_of inst) (environ stub_world) = None /\
    configuration inst = Some c /\
    ("gemini" = "ollama" ->
     c = {| cfg_model := "llama3";
            cfg_endpoint := Some "http://localhost:11434";
            cfg_api_key := None;
            cfg_temperature := 0.5%float;
            cfg_top_p := 0.75%float;
            cfg_max_tokens := None |}) /\
    ("gemini" = "openai" ->
     c = {| cfg_model := "gpt-4o-mini";
            cfg_endpoint := None;
            cfg_api_key := Some "sk-env";
            cfg_temperature := 0.5%float;
            cfg_top_p := 1%float;
            cfg_max_tokens := None |}) /\
    ("gemini" = "gemini" ->
     c = {| cfg_model := "gemini-2.5-flash";
            cfg_endpoint := None;
            cfg_api_key := Some "g-env";
            cfg_temperature := 0.5%float;
            cfg_top_p := 0.5%float;
            cfg_max_tokens := None |}).
Proof.
  exact (create_provider_configuration stub_client_check
           (stub_config "gemini" None (Some "")) stub_world 4 _ eq_refl).
Defined.

(** X14: the key the backend client is built with, in the provider
    [create_provider] returns when it returns one.  [ChatOpenAI] gets
    the resolved key whenever there is one, even an empty one;
    [ChatGoogleGenerativeAI] gets it only when it is not empty, and is
    otherwise built without a key; [ChatOllama] gets none.  Likewise an
    empty [openai_base_url] is not passed on. *)
Theorem create_provider_client_key (K : ClientCheck) (config : LLMConfig.t)
  (w : World) (self : nat) (w' : World) :
  LLMConfig_create_provider K config w = (Ok self, w') ->
  exists inst : Instance,
    heap w' !! self = Some inst /\
    (LLMConfig.provider config = "ollama" -> client_api_key (client_of inst) = None) /\
    (LLMConfig.provider config = "openai" ->
     client_api_key (client_of inst) =
       py_or (LLMConfig.openai_api_key config) (environ w !! "OPENAI_API_KEY") /\
     exists c, client_of inst = OpenAIClient c /\
       ChatOpenAI.base_url c =
         match LLMConfig.openai_base_url config with
         | Some "" | None => None
         | Some url => Some url
         end) /\
    (LLMConfig.provider config = "gemini" ->
     client_api_key (client_of inst) =
       match py_or (LLMConfig.gemini_api_key config) (environ w !! "GOOGLE_API_KEY") with
       | Some "" | None => None
       | Some key => Some key
       end).
Proof.
  rewrite create_provider_run. intros Hreturned.
  destruct (created_instance config (environ w)) as [inst|] eqn:Hinst;
    [|discriminate Hreturned].
  destruct (K (client_of inst) (environ w)); [discriminate Hreturned|].
  injection Hreturned as <- <-.
  exists inst. split; [apply lookup_insert_eq|].
  unfold created_instance in Hinst.
  split; [|split]; intros Hp; rewrite Hp in Hinst; simpl in Hinst;
    injection Hinst as <-; simpl.
  - reflexivity.
  - split; [reflexivity|]. eexists. split; [reflexivity|]. simpl.
    destruct (LLMConfig.openai_base_url config) as [[|a url]|]; reflexivity.
  - destruct (py_or _ _) as [[|a key]|]; reflexivity.
Qed.

Lemma create_provider_client_key_witness :
  exists inst : Instance,
    heap (LLMConfig_create_provider stub_client_check (stub_config "gemini" None (Some ""))
            fresh_world).2 !! 0 = Some inst /\
    ("gemini" = "ollama" -> client_api_key (client_of inst) = None) /\
    ("gemini" = "openai" ->
     client_api_key (client_of inst) = Some "sk-env" /\
     exists c, client_of inst = OpenAIClient c /\ ChatOpenAI.base_url c = None) /\
    ("gemini" = "gemini" -> client_api_key (client_of inst) = Some "g-env").
Proof.
  exact (create_provider_client_key stub_client_check
           (stub_config "gemini" None (Some "")) fresh_world 0 _ eq_refl).
Defined.

(** ** Configuration: the settings object of the process *)

Lemma LLMConfig_new_run (read_settings : World -> result LLMConfig.t) (w : World) :
  (exists config, LLMConfig_new read_settings w = (Ok config, w) /\
                  read_settings w = Ok config /\
                  LLMConfig.provider config ∈ provider_literal) \/
  (exists e, LLMConfig_new read_settings w = (Raise e, w) /\
             (read_settings w = Raise e \/
              exists config msg, read_settings w = Ok config /\
                (LLMConfig.provider config ∉ provider_literal) /\
                e = ValidationError msg)).
Proof.
  unfold LLMConfig_new. destruct (read_settings w) as [config|e] eqn:Hread; simpl.
  - unfold provider_validate. case_bool_decide as Hin; simpl.
    + left. exists config. auto.
    + right. eexists. split; [reflexivity|]. right. eauto.
  - right. exists e. auto.
Qed.

(** X15: [get_config] reads the settings once.  When the first call
    succeeds, the selector it read is one of the three values, and every
    later call returns that same object without reading anything, also
    when the environment has changed since or reading would now fail.
    When the first call fails, nothing is kept, and the error is the one
    from reading the settings or the one from checking the selector. *)
Theorem get_config_cached (read_settings : World -> result LLMConfig.t) (w : World) :
  (forall config _config w',
     get_config read_settings None w = (Ok (config, _config), w') ->
     w' = w /\ _config = Some config /\
     read_settings w = Ok config /\
     LLMConfig.provider config ∈ provider_literal /\
     forall read_settings2 w2,
       get_config read_settings2 _config w2 = (Ok (config, _config), w2)) /\
  (forall e w',
     get_config read_settings None w = (Raise e, w') ->
     w' = w /\
     (read_settings w = Raise e \/
      exists config msg, read_settings w = Ok config /\
        (LLMConfig.provider config ∉ provider_literal) /\ e = ValidationError msg)).
Proof.
  unfold get_config.
  destruct (LLMConfig_new_run read_settings w)
    as [(config & Hnew & Hread & Hin)|(e & Hnew & Hwhy)];
    unfold mbind, M_bind, mret, M_ret; rewrite Hnew; split.
  - intros config' _config w' [= <- <- <-]. auto.
  - intros e w' [=].
  - intros config _config w' [=].
  - intros e' w' [= <- <-]. auto.
Qed.

Lemma get_config_cached_witness :
  fresh_world = fresh_world /\
  Some (stub_config "openai" None None) = Some (stub_config "openai" None None) /\
  (fun _ : World => Ok (stub_config "openai" None None)) fresh_world
    = Ok (stub_config "openai" None None) /\
  "openai" ∈ provider_literal /\
  forall read_settings2 w2,
    get_config read_settings2 (Some (stub_config "openai" None None)) w2
    = (Ok (stub_config "openai" None None, Some (stub_config "openai" None None)), w2).
Proof.
  apply (proj1 (get_config_cached (fun _ => Ok (stub_config "openai" None None))
                  fresh_world)).
  reflexivity.
Defined.

(** X16: in a process that has no settings object yet, [get_llm] either
    returns a new provider of the class the selector names, keeping the
    settings object it read, or fails and creates no instance.  It fails
    with the error of reading or checking the settings, and then keeps no
    settings object; or with the error of the client's constructor, and
    then the settings object it read is kept, so that a later call does
    not read the settings again.  The [ValueError] for an unknown selector
    comes from neither: the check on reading comes first.  After a
    [get_llm] that returned, a second one reads no settings and returns
    another instance, at another address, equal to the first. *)
Theorem get_llm_fresh_process (read_settings : World -> result LLMConfig.t)
  (K : ClientCheck) (w : World) :
  (forall self _config w',
     get_llm read_settings K None w = (Ok self, _config, w') ->
     exists (config : LLMConfig.t) (inst : Instance) (v : Variant),
       _config = Some config /\ read_settings w = Ok config /\
       heap w !! self = None /\
       w' = {| heap := <[self := inst]> (heap w); environ := environ w; calls := calls w |} /\
       class_of inst = Some v /\ LLMConfig.provider config = variant_name v /\
       forall read_settings2,
         exists (self2 : nat) (w2 : World),
           get_llm read_settings2 K _config w' = (Ok self2, _config, w2) /\
           self2 <> self /\
           heap w2 !! self2 = Some inst /\ heap w2 !! self = Some inst) /\
  (forall e _config w',
     get_llm read_settings K None w = (Raise e, _config, w') ->
     w' = w /\
     ((_config = None /\
       (read_settings w = Raise e \/
        exists config msg, read_settings w = Ok config /\
          (LLMConfig.provider config ∉ provider_literal) /\ e = ValidationError msg)) \/
      (exists (config : LLMConfig.t) (inst : Instance),
         _config = Some config /\ read_settings w = Ok config /\
         LLMConfig.provider config ∈ provider_literal /\
         created_instance config (environ w) = Some inst /\
         K (client_of inst) (environ w) = Some e /\
         forall read_settings2,
           get_llm read_settings2 K _config w = (Raise e, _config, w)))).
Proof.
  unfold get_llm, get_config.
  destruct (LLMConfig_new_run read_settings w)
    as [(config & Hnew & Hread & Hin)|(e & Hnew & Hwhy)];
    unfold mbind, M_bind, mret, M_ret; rewrite Hnew; simpl; split.
  - destruct (created_instance_known config (environ w) Hin) as [inst Hinst].
    destruct (created_instance_class config (environ w) inst Hinst) as (v & Hclass & Hname).
    rewrite create_provider_run, Hinst.
    destruct (K (client_of inst) (environ w)) eqn:Haccept; [intros ? ? ? [=]|].
    unfold new. simpl.
    intros self _config w' [= <- <- <-].
    exists config, inst, v.
    assert (Hfresh : heap w !! fresh (dom (heap w)) = None)
      by apply not_elem_of_dom, is_fresh.
    repeat split; try assumption.
    intros read_settings2. rewrite create_provider_run. simpl. rewrite Hinst, Haccept.
    unfold new. simpl. eexists _, _. split; [reflexivity|].
    set (self := fresh (dom (heap w))) in *.
    set (self2 := fresh (dom (<[self := inst]> (heap w)))).
    assert (Hne : self2 <> self).
    { intros Heq.
      pose proof (is_fresh (dom (<[self := inst]> (heap w)))) as Hnot.
      fold self2 in Hnot. rewrite Heq in Hnot. apply Hnot.
      apply elem_of_dom. rewrite lookup_insert_eq. eauto. }
    split; [exact Hne|]. simpl.
    rewrite lookup_insert_eq, lookup_insert_ne by exact Hne.
    now rewrite lookup_insert_eq.
  - rewrite create_provider_run.
    destruct (created_instance_known config (environ w) Hin) as [inst Hinst].
    rewrite Hinst.
    destruct (K (client_of inst) (environ w)) as [e|] eqn:Hrefuse; [|intros ? ? ? [=]].
    intros e' _config w' [= <- <- <-]. split; [reflexivity|].
    right. exists config, inst. repeat split; try assumption.
    intros read_settings2. rewrite create_provider_run, Hinst, Hrefuse. reflexivity.
  - intros self _config w' [=].
  - intros e' _config w' [= <- <- <-]. split; [reflexivity|]. left. auto.
Qed.

Lemma get_llm_fresh_process_witness :
  exists (config : LLMConfig.t) (inst : Instance) (v : Variant),
    Some (stub_config "openai" None None) = Some config /\
    (fun _ : World => Ok (stub_config "openai" None None)) fresh_world = Ok config /\
    heap fresh_world !! 0 = None /\
    (get_llm (fun _ => Ok (stub_config "openai" None None)) stub_client_check None
       fresh_world).2 =
      {| heap := <[0 := inst]> (heap fresh_world);
         environ := environ fresh_world; calls := calls fresh_world |} /\
    class_of inst = Some v /\ LLMConfig.provider config = variant_name v /\
    forall read_settings2,
      exists (self2 : nat) (w2 : World),
        get_llm read_settings2 stub_client_check (Some (stub_config "openai" None None))
          (get_llm (fun _ => Ok (stub_config "openai" None None)) stub_client_check None
             fresh_world).2
          = (Ok self2, Some (stub_config "openai" None None), w2) /\
        self2 <> 0 /\
        heap w2 !! self2 = Some inst /\ heap w2 !! 0 = Some inst.
Proof.
  apply (proj1 (get_llm_fresh_process (fun _ => Ok (stub_config "openai" None None))
                  stub_client_check fresh_world)).
  reflexivity.
Defined.

(** Settings that select a provider without a key for it: the
    constructor's error comes out of [get_llm], and the settings that
    were read stay. *)
Example get_llm_refused :
  get_llm (fun _ => Ok (stub_config "openai" None None)) stub_client_check None
    {| heap := ∅; environ := ∅; calls := [] |} =
    (Raise (ExternalError "The api_key client option must be set"),
     Some (stub_config "openai" None None),
     {| heap := ∅; environ := ∅; calls := [] |}).
Proof. reflexivity. Qed.

(** ** Demo utilities *)

(** X17: [print_provider_info_for_llm] does not look at the instance it
    is given.  For every configuration, known selector or not, and every
    instance, it prints the line [print_provider_info()] prints without
    arguments: the settings of the process, not the parameters of the
    instance, so for an instance made by [update_parameters] the line
    still shows the configured values. *)
Theorem print_provider_info_for_llm_ignores_instance
  (upper : string -> string) (str_float : float -> string) (str_int : Z -> string)
  (config : LLMConfig.t) (llm_instance other_instance : nat) :
  print_provider_info_for_llm upper str_float str_int config llm_instance =
    print_provider_info upper str_float str_int config None None None None None /\
  print_provider_info_for_llm upper str_float str_int config llm_instance =
    print_provider_info_for_llm upper str_float str_int config other_instance.
Proof.
  split; [|reflexivity].
  unfold print_provider_info_for_llm, print_provider_info.
  destruct (String.eqb (LLMConfig.provider config) "ollama") eqn:H1.
  { destruct (LLMConfig.ollama_num_predict config); reflexivity. }
  destruct (String.eqb (LLMConfig.provider config) "openai") eqn:H2.
  { destruct (LLMConfig.openai_max_tokens config); reflexivity. }
  destruct (String.eqb (LLMConfig.provider config) "gemini") eqn:H3.
  { destruct (LLMConfig.gemini_max_output_tokens config); reflexivity. }
  reflexivity.
Qed.

(** ** The store: from the constructor to the documents *)

(** X18: a store built by the constructor from an embedding client that
    returns one vector per text can be queried straight away.  The
    retriever of [as_retriever()] has k = 2, and for every query the
    client embeds, [invoke] returns min(2, n) documents, each carrying
    one of the n texts, and [retrieve_docs] returns their texts joined by
    empty lines.  When the client fails on the texts, so does the
    constructor. *)
Theorem SimpleVectorStore_init_retrieves (texts : list string) (model : Embeddings) :
  (forall vectors,
     embed_documents model texts = Ok vectors ->
     length vectors = length texts ->
     exists store,
       SimpleVectorStore_init texts model = Ok store /\
       store_texts store = texts /\ store_embeddings store = vectors /\
       retriever_k (as_retriever store None) = 2%Z /\
       forall query query_embedding,
         embed_query model query = Ok query_embedding ->
         exists docs,
           SimpleRetriever_invoke (as_retriever store None) query = Ok docs /\
           length docs = Nat.min 2 (length texts) /\
           Forall (fun doc => page_content doc ∈ texts) docs /\
           retrieve_docs (as_retriever store None) query =
             Ok (String.concat (newline ++ newline) (map page_content docs))) /\
  (forall e, embed_documents model texts = Raise e ->
             SimpleVectorStore_init texts model = Raise e).
Proof.
  split.
  - intros vectors Hdocs Hlen. unfold SimpleVectorStore_init. rewrite Hdocs. simpl.
    eexists. split; [reflexivity|]. simpl. repeat split.
    intros query query_embedding Hq.
    set (retriever := as_retriever _ None).
    destruct (invoke_hits retriever query query_embedding) as (hits & Hrun & Hat & Hrank).
    { simpl. lia. }
    { exact Hq. }
    exists (map (fun hit : nat * string * R => {| page_content := hit.1.2 |}) hits).
    split; [exact Hrun|]. split; [|split].
    + rewrite length_map.
      rewrite <- (length_map (fun hit : nat * string * R => (hit.1.1, hit.2)) hits).
      rewrite Hrank, ranking_length, length_map. simpl.
      unfold slice_count. change (2 <? 0)%Z with false. cbv iota. rewrite Hlen.
      destruct (length texts) as [|[|n]]; cbv iota; lia.
    + apply Forall_fmap. eapply Forall_impl; [exact Hat|].
      intros hit [Htext _]. simpl in *. now apply list_elem_of_lookup_2 in Htext.
    + unfold retrieve_docs. now rewrite Hrun.
  - intros e Hdocs. unfold SimpleVectorStore_init. now rewrite Hdocs.
Qed.

Lemma SimpleVectorStore_init_retrieves_witness :
  exists store,
    SimpleVectorStore_init ["apple"; "banana"; "car"] stub_embeddings = Ok store /\
    store_texts store = ["apple"; "banana"; "car"] /\
    store_embeddings store = map stub_vector ["apple"; "banana"; "car"] /\
    retriever_k (as_retriever store None) = 2%Z /\
    forall query query_embedding,
      embed_query stub_embeddings query = Ok query_embedding ->
      exists docs,
        SimpleRetriever_invoke (as_retriever store None) query = Ok docs /\
        length docs = Nat.min 2 3 /\
        Forall (fun doc => page_content doc ∈ ["apple"; "banana"; "car"]) docs /\
        retrieve_docs (as_retriever store None) query =
          Ok (String.concat (newline ++ newline) (map page_content docs)).
Proof.
  apply (proj1 (SimpleVectorStore_init_retrieves ["apple"; "banana"; "car"] stub_embeddings)
           (map stub_vector ["apple"; "banana"; "car"])).
  - reflexivity.
  - reflexivity.
Defined.

(** The context the chain of the demo gets for "fruit". *)
Example retrieve_docs_stub :
  retrieve_docs (as_retriever stub_store (Some 2%Z)) "fruit"
  = Ok ("banana" ++ newline ++ newline ++ "apple").
Proof. unfold retrieve_docs. now rewrite stub_retrieval_top_2. Qed.
